(** * python-utilities: the price tracker and the news scraper

    A shallow embedding of [src/utilities/amazon_price_tracker.py] and
    [news_scraper.py].  Python values are modelled as the code uses them:

    - a [str] is the list of its Unicode code points;
    - a [float] is an IEEE binary64 value, with [float(text)] rounding the
      decimal it reads to nearest, ties to even;
    - an exception is a value of [exn], and a function that may raise
      returns a [result];
    - a decoded JSON document is a value of [json];
    - a page is given by the answers BeautifulSoup returns to the queries
      the code makes on it; the HTTP session is a server that answers the
      n-th request. *)

From Stdlib Require Import List ZArith NArith Bool Ascii String Lia DecimalString Sorted.
Import ListNotations.

Set Implicit Arguments.

(** ** Python strings *)

Module Py.

Definition char := N.
Definition pystr := list char.

(** The code point of an ASCII character, and a [str] of ASCII text. *)
Definition ch (a : ascii) : char := N_of_ascii a.
Definition py (s : string) : pystr := map N_of_ascii (list_ascii_of_string s).

(** [str.isspace] on one character, which is also what the regular
    expression class [\s] and [str.strip()] use on a [str]. *)
Definition is_space (c : char) : bool :=
  ((9 <=? c) && (c <=? 13) || (28 <=? c) && (c <=? 32)
   || (c =? 133) || (c =? 160) || (c =? 5760)
   || (8192 <=? c) && (c <=? 8202)
   || (c =? 8232) || (c =? 8233) || (c =? 8239) || (c =? 8287)
   || (c =? 12288))%N.

(** The class [[0-9]]. *)
Definition is_digit (c : char) : bool := ((48 <=? c) && (c <=? 57))%N.

(** The class [[A-Z0-9]]. *)
Definition is_upper_or_digit (c : char) : bool :=
  (is_digit c || (65 <=? c) && (c <=? 90))%N.

(** [str.lower()], on the ASCII letters.  Other characters stay as they
    are: the code only compares lowered text with ASCII words. *)
Definition lower_char (c : char) : char :=
  if ((65 <=? c) && (c <=? 90))%N then (c + 32)%N else c.
Definition lower (s : pystr) : pystr := map lower_char s.

Fixpoint eqb (s t : pystr) : bool :=
  match s, t with
  | [], [] => true
  | c :: s', d :: t' => (c =? d)%N && eqb s' t'
  | _, _ => false
  end.

(** [c in s] for a one-character [c]. *)
Definition mem (c : char) (s : pystr) : bool := existsb (N.eqb c) s.

(** [s in l] for a tuple or list of strings. *)
Definition mem_str (s : pystr) (l : list pystr) : bool := existsb (eqb s) l.

Fixpoint startswith (s prefix : pystr) : bool :=
  match prefix, s with
  | [], _ => true
  | p :: prefix', c :: s' => (c =? p)%N && startswith s' prefix'
  | _ :: _, [] => false
  end.

Definition endswith (s suffix : pystr) : bool := startswith (rev s) (rev suffix).

(** [s[n:]] and [s[:-n]] for [n >= 1]. *)
Definition slice_from (n : nat) (s : pystr) : pystr := skipn n s.
Definition slice_to_minus (n : nat) (s : pystr) : pystr := firstn (List.length s - n) s.

Fixpoint lstrip (s : pystr) : pystr :=
  match s with
  | c :: s' => if is_space c then lstrip s' else s
  | [] => []
  end.

(** [s.strip()] *)
Definition strip (s : pystr) : pystr := rev (lstrip (rev (lstrip s))).

(** [s.replace(old, new)] where [old] is one character. *)
Definition replace (old : char) (new : pystr) (s : pystr) : pystr :=
  flat_map (fun c => if (c =? old)%N then new else [c]) s.

(** [re.sub(r"\s+", " ", s)]: every maximal run of whitespace becomes one
    space.  [in_run] says that the previous character was whitespace. *)
Fixpoint collapse_ws (in_run : bool) (s : pystr) : pystr :=
  match s with
  | [] => []
  | c :: s' =>
      if is_space c
      then (if in_run then collapse_ws true s' else 32%N :: collapse_ws true s')
      else c :: collapse_ws false s'
  end.

(** [s.rsplit(sep, 1)[-1]]: what follows the last [sep], the whole of [s]
    when it has none. *)
Fixpoint take_until (sep : char) (s : pystr) : pystr :=
  match s with
  | c :: s' => if (c =? sep)%N then [] else c :: take_until sep s'
  | [] => []
  end.
Definition rsplit1_last (sep : char) (s : pystr) : pystr :=
  rev (take_until sep (rev s)).

(** [sep.join(l)] on a list of strings. *)
Fixpoint join (sep : pystr) (l : list pystr) : pystr :=
  match l with
  | [] => []
  | [s] => s
  | s :: l' => s ++ sep ++ join sep l'
  end.

(** [sub in s] for strings. *)
Fixpoint contains (s sub : pystr) : bool :=
  startswith s sub || match s with [] => false | _ :: s' => contains s' sub end.

(** [sorted(l, key=len, reverse=True)]: a stable sort, so strings of one
    length keep the order they had in [l]. *)
Fixpoint insert_by_len (x : pystr) (l : list pystr) : list pystr :=
  match l with
  | [] => [x]
  | y :: l' => if (List.length y <=? List.length x)%nat then x :: l else y :: insert_by_len x l'
  end.
Definition sorted_by_len_desc (l : list pystr) : list pystr :=
  fold_right insert_by_len [] l.

(** The decimal text of an integer ([str(n)]), and the value of a string
    of ASCII digits ([int(s)]). *)
Definition str_of_int (z : Z) : pystr := py (NilZero.string_of_int (Z.to_int z)).
Definition int_of_digits (s : pystr) : Z :=
  fold_left (fun acc c => 10 * acc + (Z.of_N c - 48))%Z s 0%Z.

(** Python truth of a string and of an optional string. *)
Definition nonempty (s : pystr) : bool := match s with [] => false | _ => true end.
Definition truthy_opt (o : option pystr) : bool :=
  match o with Some s => nonempty s | None => false end.

End Py.
Import Py.

(** ** Exceptions *)

Inductive exn : Type :=
| ValueError
| TypeError
| AttributeError
| AssertionError
| HTTPError (status : Z)          (* requests.HTTPError, from raise_for_status *)
| ConnectionError                 (* requests.ConnectionError *)
| Timeout                         (* requests.Timeout *)
| OtherError.                     (* an exception that is no RequestException *)

(** [isinstance(e, requests.RequestException)] *)
Definition is_request_exception (e : exn) : bool :=
  match e with
  | HTTPError _ | ConnectionError | Timeout => true
  | _ => false
  end.

Inductive result (A : Type) : Type :=
| Ok (a : A)
| Raise (e : exn).
Arguments Ok {A} a.
Arguments Raise {A} e.

Definition bind {A B} (r : result A) (k : A -> result B) : result B :=
  match r with
  | Ok a => k a
  | Raise e => Raise e
  end.

Declare Scope py_scope.
Delimit Scope py_scope with py_scope.
Notation "x <- r ;; k" := (bind r (fun x => k))
  (at level 61, r at next level, right associativity) : py_scope.
Notation "' p <- r ;; k" := (bind r (fun v => let p := v in k))
  (at level 61, p pattern, r at next level, right associativity) : py_scope.
Open Scope py_scope.

(** ** Floats *)

Module Float.

(** A binary64 value.  [PyFinite neg m e] is [(-1)^neg * m * 2^e], kept
    canonical: [2^52 <= m < 2^53] and [-1074 <= e <= 971], or
    [m < 2^52] and [e = -1074] (subnormal), or [m = 0] and [e = 0]. *)
Inductive pyfloat : Type :=
| PyFinite (neg : bool) (m : Z) (e : Z)
| PyInf (neg : bool)
| PyNaN.

Local Open Scope Z_scope.

(** [num / (den * 2^k)] as a fraction of integers. *)
Definition scaled (num den k : Z) : Z * Z :=
  if 0 <=? k then (num, den * 2 ^ k) else (num * 2 ^ (- k), den).

(** [floor (log2 (num / den))] for positive [num] and [den]. *)
Definition floor_log2_ratio (num den : Z) : Z :=
  let e0 := Z.log2 num - Z.log2 den in
  let '(n, d) := scaled num den e0 in
  if n <? d then e0 - 1 else e0.

(** The integer nearest to [n / d], ties to even. *)
Definition round_half_even (n d : Z) : Z :=
  let q := n / d in
  match 2 * (n mod d) ?= d with
  | Lt => q
  | Gt => q + 1
  | Eq => if Z.even q then q else q + 1
  end.

(** The binary64 nearest to [num / den] ([num >= 0], [den > 0]). *)
Definition b64_round (neg : bool) (num den : Z) : pyfloat :=
  if num =? 0 then PyFinite neg 0 0 else
  let e := floor_log2_ratio num den in
  let q := Z.max (e - 52) (-1074) in
  let '(n, d) := scaled num den q in
  let m := round_half_even n d in
  let '(m, q) := if m =? 2 ^ 53 then (2 ^ 52, q + 1) else (m, q) in
  if 971 <? q then PyInf neg
  else if m =? 0 then PyFinite neg 0 0
  else PyFinite neg m q.

(** The binary64 nearest to [digits * 10^exp10]: the value of a decimal
    literal such as [1234.56] ([digits = 123456], [exp10 = -2]). *)
Definition b64_of_decimal (neg : bool) (digits exp10 : Z) : pyfloat :=
  if 0 <=? exp10 then b64_round neg (digits * 10 ^ exp10) 1
  else b64_round neg digits (10 ^ (- exp10)).

(** [x >= 0] on floats: false for NaN, true for both zeros. *)
Definition ge0 (x : pyfloat) : bool :=
  match x with
  | PyFinite neg m _ => negb neg || (m =? 0)
  | PyInf neg => negb neg
  | PyNaN => false
  end.

(** [bool(x)] *)
Definition truthy (x : pyfloat) : bool :=
  match x with
  | PyFinite _ m _ => negb (m =? 0)
  | _ => true
  end.

(** *** [float(text)]

    [float] first rewrites the text to ASCII: a decimal digit of any
    script becomes the ASCII digit of its value, a whitespace character
    above ASCII becomes a space, and any other character above ASCII one
    that no number holds.  It then strips the C whitespace from both ends:
    tab to carriage return and the space, but not the separators U+001C to
    U+001F, which [str.strip] does remove.  What is left is an optional
    sign and either [inf], [infinity] or [nan] in any case, or a decimal
    number: digits, with single underscores between digits, an optional
    fraction and an optional exponent.  Anything else raises
    [ValueError]. *)

(** The digit zero of every run of ten decimal digits (category Nd of
    Unicode 14.0, the tables of Python 3.11): a digit's value is its
    distance from the zero of its run. *)
Definition decimal_zeros : list N :=
  [ 48; 1632; 1776; 1984; 2406; 2534; 2662; 2790;
    2918; 3046; 3174; 3302; 3430; 3558; 3664; 3792;
    3872; 4160; 4240; 6112; 6160; 6470; 6608; 6784;
    6800; 6992; 7088; 7232; 7248; 42528; 43216; 43264;
    43472; 43504; 43600; 44016; 65296; 66720; 68912; 69734;
    69872; 69942; 70096; 70384; 70736; 70864; 71248; 71360;
    71472; 71904; 72016; 72784; 73040; 73120; 92768; 92864;
    93008; 120782; 120792; 120802; 120812; 120822; 123200; 123632;
    125264; 130032 ]%N.

(** [unicodedata.decimal(c)], when [c] is a decimal digit. *)
Definition decimal_value (c : char) : option N :=
  match find (fun z => (z <=? c) && (c <? z + 10))%N decimal_zeros with
  | Some z => Some (c - z)%N
  | None => None
  end.

(** The ASCII character [float] reads for [c]; 63 is the question mark. *)
Definition to_ascii (c : char) : char :=
  if (c <? 127)%N then c
  else if is_space c then 32%N
  else match decimal_value c with
       | Some d => (48 + d)%N
       | None => 63%N
       end.

(** The whitespace of C's [isspace]. *)
Definition c_space (c : char) : bool := ((9 <=? c) && (c <=? 13) || (c =? 32))%N.

Fixpoint lstrip_c (s : pystr) : pystr :=
  match s with
  | c :: s' => if c_space c then lstrip_c s' else s
  | [] => []
  end.

Definition strip_c (s : pystr) : pystr := rev (lstrip_c (rev (lstrip_c s))).

(** The digits that continue a group of digits, and what is left. *)
Fixpoint digits_run (s : pystr) : pystr * pystr :=
  match s with
  | c :: r =>
      if is_digit c then
        let '(ds, rest) := digits_run r in (c :: ds, rest)
      else if (c =? ch "_")%N then
        match r with
        | d :: r' =>
            if is_digit d then
              let '(ds, rest) := digits_run r' in (d :: ds, rest)
            else ([], s)
        | [] => ([], s)
        end
      else ([], s)
  | [] => ([], [])
  end.

(** A non-empty group of digits at the head of [s]. *)
Definition digitpart (s : pystr) : option (pystr * pystr) :=
  match s with
  | c :: r =>
      if is_digit c then
        let '(ds, rest) := digits_run r in Some (c :: ds, rest)
      else None
  | [] => None
  end.

(** The exponent and the end of the text, after integer digits [ip] and
    fraction digits [fp]: the number read is [digits * 10^exp10]. *)
Definition parse_exponent (ip fp rest : pystr) : option (Z * Z) :=
  let digits := int_of_digits (ip ++ fp) in
  let scale := - Z.of_nat (List.length fp) in
  match rest with
  | [] => Some (digits, scale)
  | c :: r =>
      if ((c =? ch "e") || (c =? ch "E"))%N then
        let '(eneg, r) :=
          match r with
          | d :: r' =>
              if (d =? ch "-")%N then (true, r')
              else if (d =? ch "+")%N then (false, r')
              else (false, r)
          | [] => (false, r)
          end in
        match digitpart r with
        | Some (ds, []) =>
            let e := int_of_digits ds in
            Some (digits, scale + (if eneg then - e else e))
        | _ => None
        end
      else None
  end.

Definition parse_decimal (body : pystr) : option (Z * Z) :=
  match digitpart body with
  | Some (ip, rest) =>
      match rest with
      | c :: rest2 =>
          if (c =? ch ".")%N then
            match digitpart rest2 with
            | Some (fp, rest3) => parse_exponent ip fp rest3
            | None => parse_exponent ip [] rest2
            end
          else parse_exponent ip [] rest
      | [] => parse_exponent ip [] rest
      end
  | None =>
      match body with
      | c :: rest2 =>
          if (c =? ch ".")%N then
            match digitpart rest2 with
            | Some (fp, rest3) => parse_exponent [] fp rest3
            | None => None
            end
          else None
      | [] => None
      end
  end.

Definition py_float (text : pystr) : result pyfloat :=
  let t := strip_c (map to_ascii text) in
  let '(neg, body) :=
    match t with
    | c :: r =>
        if (c =? ch "-")%N then (true, r)
        else if (c =? ch "+")%N then (false, r)
        else (false, t)
    | [] => (false, t)
    end in
  let word := lower body in
  if Py.eqb word (py "inf") || Py.eqb word (py "infinity") then Ok (PyInf neg)
  else if Py.eqb word (py "nan") then Ok PyNaN
  else
    match parse_decimal body with
    | Some (digits, exp10) => Ok (b64_of_decimal neg digits exp10)
    | None => Raise ValueError
    end.

End Float.
Import Float.

(** ** Decoded JSON *)

Module Json.

(** What [json.loads] returns: [None], [bool], [int], [float], [str],
    [list], and [dict] as its items (each key once). *)
#[local] Set Warnings "-register-all".
Inductive json : Type :=
| JNull
| JBool (b : bool)
| JInt (z : Z)
| JFloat (x : pyfloat)
| JStr (s : pystr)
| JList (l : list json)
| JDict (items : list (pystr * json)).

(** [bool(v)] *)
Definition truthy (v : json) : bool :=
  match v with
  | JNull => false
  | JBool b => b
  | JInt z => negb (z =? 0)%Z
  | JFloat x => Float.truthy x
  | JStr s => nonempty s
  | JList l => match l with [] => false | _ => true end
  | JDict d => match d with [] => false | _ => true end
  end.

(** [a or b] *)
Definition or_ (a b : json) : json := if truthy a then a else b.

(** [d.get(key)] on a [dict]: [None] when the key is missing. *)
Fixpoint dict_get (d : list (pystr * json)) (key : pystr) : json :=
  match d with
  | [] => JNull
  | (k, v) :: d' => if Py.eqb k key then v else dict_get d' key
  end.

(** [key in d] *)
Definition dict_has (d : list (pystr * json)) (key : pystr) : bool :=
  existsb (fun kv => Py.eqb (fst kv) key) d.

(** [v.get(key)] on any value: only a [dict] has the method. *)
Definition get (v : json) (key : pystr) : result json :=
  match v with
  | JDict d => Ok (dict_get d key)
  | _ => Raise AttributeError
  end.

Definition of_opt (o : option pystr) : json :=
  match o with Some s => JStr s | None => JNull end.

Section Str.
(** [str(v)] for a [float], a [list] and a [dict] is Python's [repr],
    which is not computed here: it is a parameter. *)
Variable repr_other : json -> pystr.

(** [str(v)] *)
Definition py_str (v : json) : pystr :=
  match v with
  | JStr s => s
  | JNull => py "None"
  | JBool true => py "True"
  | JBool false => py "False"
  | JInt z => str_of_int z
  | _ => repr_other v
  end.
End Str.

End Json.
Import Json.

(** ** Pages and the HTTP session *)

Module Soup.

(** A tag of the page: its text in the three ways the code asks for it,
    and its attributes. *)
Record element : Type := {
  get_text : pystr;                  (* tag.get_text() *)
  get_text_sp : pystr;               (* tag.get_text(" ") *)
  get_text_sp_strip : pystr;         (* tag.get_text(separator=" ", strip=True) *)
  attr : pystr -> option pystr       (* tag.get(name) *)
}.

(** An [article], [main] or [body] tag with the tags found inside it. *)
Record node : Type := {
  find_all_p : list element;         (* node.find_all("p") *)
  find_all_img : list element        (* node.find_all("img") *)
}.

Inductive meta_key : Type := ByName | ByProperty.

(** [BeautifulSoup(html, "html.parser")], as the answers to the queries
    made on it. *)
Record soup : Type := {
  select_one : pystr -> option element;
  find_meta : meta_key -> pystr -> option element;
      (* soup.find("meta", attrs={"name": n}) or {"property": n} *)
  find_input_ASIN : option element;
      (* soup.find("input", attrs={"name": "ASIN"}) or soup.find("input", id="ASIN") *)
  find_data_asin : option element;
      (* soup.find(attrs={"data-asin": True}) *)
  ld_scripts : list (option json);
      (* for each script of type application/ld+json or application/json, in
         document order: json.loads of its text, None when that raises *)
  title_string : option (option pystr);
      (* soup.title, and its .string *)
  find_h1 : option element;
  find_all_article_main : list node;
  body : option node
}.

End Soup.
Import Soup.

Module Http.

(** The response of [session.get]; [text] is the page the body parses
    to, [url] the address after redirects. *)
Record response : Type := {
  status_code : Z;
  headers : list (pystr * pystr);
  text : soup;
  url : pystr
}.

Inductive outcome : Type :=
| Response (r : response)
| Failure (e : exn).

(** A server: the outcome of the [n]-th request (from 0), made to [url]. *)
Definition server := nat -> pystr -> outcome.

Inductive sleep : Type :=
| SleepRetryAfter (ra : pystr)     (* time.sleep(min(10.0, float(ra))) *)
| SleepBackoff (attempt : Z).      (* time.sleep(backoff_factor * 2**(attempt-1) + jitter) *)

(** The effects of a call: requests made so far and the sleeps, latest first. *)
Record net : Type := {
  requests : nat;
  sleeps : list sleep
}.

Definition net0 : net := {| requests := 0; sleeps := [] |}.

Definition session_get (srv : server) (u : pystr) (st : net) : outcome * net :=
  (srv (requests st) u, {| requests := S (requests st); sleeps := sleeps st |}).

Definition do_sleep (s : sleep) (st : net) : net :=
  {| requests := requests st; sleeps := s :: sleeps st |}.

(** [resp.headers.get(name)]: the lookup ignores case. *)
Fixpoint headers_get (h : list (pystr * pystr)) (name : pystr) : option pystr :=
  match h with
  | [] => None
  | (k, v) :: h' => if Py.eqb (lower k) (lower name) then Some v else headers_get h' name
  end.

(** [resp.raise_for_status()]: the [HTTPError] it raises, if any. *)
Definition raise_for_status (r : response) : option exn :=
  if ((400 <=? status_code r) && (status_code r <? 600))%Z
  then Some (HTTPError (status_code r)) else None.

End Http.
Import Http.

(** ** amazon_price_tracker.py *)

Module AmazonPriceTracker.

Record PriceInfo : Type := {
  url : pystr;
  asin : option pystr;
  title : option pystr;
  price : option pyfloat;
  currency : option pystr;
  symbol : option pystr;
  availability : option pystr;
  timestamp : pystr
}.

Definition _NBSP : char := 160%N.

Definition _clean_text (val : option pystr) : option pystr :=
  match val with
  | None => None
  | Some v =>
      if negb (nonempty v) then None
      else
        let s := strip (collapse_ws false (replace _NBSP (py " ") v)) in
        if nonempty s then Some s else None
  end.

(** [re.fullmatch(r"[A-Z0-9]{10}", s)] *)
Definition fullmatch_asin (s : pystr) : bool :=
  (List.length s =? 10)%nat && forallb is_upper_or_digit s.

(** A match of [/(?:dp|gp/product)/([A-Z0-9]{10})(?:/|\?|$)] at the head
    of [s]: the group it captures.  [$] matches at the end of the text and
    before a newline that ends it. *)
Definition asin_at (s : pystr) : option pystr :=
  let after :=
    if startswith s (py "/dp/") then Some (skipn 4 s)
    else if startswith s (py "/gp/product/") then Some (skipn 12 s)
    else None in
  match after with
  | Some r =>
      let code := firstn 10 r in
      let closes :=
        match skipn 10 r with
        | [] => true
        | c :: r' =>
            ((c =? ch "/") || (c =? ch "?"))%N
            || ((c =? 10)%N && negb (nonempty r'))
        end in
      if fullmatch_asin code && closes then Some code else None
  | None => None
  end.

(** [re.search] of that pattern: its leftmost match. *)
Fixpoint search_asin (s : pystr) : option pystr :=
  match asin_at s with
  | Some code => Some code
  | None => match s with [] => None | _ :: s' => search_asin s' end
  end.

Definition _extract_asin (url : pystr) (page : option soup) : option pystr :=
  match search_asin url with
  | Some code => Some code
  | None =>
      match page with
      | None => None
      | Some page =>
          let from_input :=
            match find_input_ASIN page with
            | Some tag =>
                if truthy_opt (attr tag (py "value"))
                then option_map strip (attr tag (py "value")) else None
            | None => None
            end in
          match from_input with
          | Some v => Some v
          | None =>
              match find_data_asin page with
              | Some tag =>
                  match attr tag (py "data-asin") with
                  | Some a => if nonempty a && fullmatch_asin a then Some a else None
                  | None => None
                  end
              | None => None
              end
          end
      end
  end.

(** The table, in the order the source lists it: [$], pound, euro, rupee,
    yen, then the dollar variants. *)
Definition _CURRENCY_SYMBOLS : list (pystr * pystr) :=
  [ (py "$", py "USD");
    ([163%N], py "GBP");
    ([8364%N], py "EUR");
    ([8377%N], py "INR");
    ([165%N], py "JPY");
    (py "C$", py "CAD");
    (py "CA$", py "CAD");
    (py "A$", py "AUD");
    (py "AU$", py "AUD") ].

(** [_CURRENCY_SYMBOLS.get(sym)] *)
Fixpoint symbols_get (table : list (pystr * pystr)) (sym : pystr) : option pystr :=
  match table with
  | [] => None
  | (k, v) :: table' => if Py.eqb k sym then Some v else symbols_get table' sym
  end.

(** The loop of lines 97-105: the first symbol, longest first, that
    starts or ends [s], and [s] without it. *)
Fixpoint strip_symbol (syms : list pystr) (s : pystr) : option pystr * pystr :=
  match syms with
  | [] => (None, s)
  | sym :: syms' =>
      if startswith s sym then (Some sym, strip (slice_from (List.length sym) s))
      else if endswith s sym then (Some sym, strip (slice_to_minus (List.length sym) s))
      else strip_symbol syms' s
  end.

(** [re.sub] of the class [[^0-9.,]] by the empty string. *)
Definition is_numeric_char (c : char) : bool :=
  (is_digit c || (c =? ch ".") || (c =? ch ","))%N.
Definition numeric_only (s : pystr) : pystr := filter is_numeric_char s.

(** A digit or the dot: the characters left once the commas are dealt with. *)
Definition is_plain (c : char) : bool := (is_digit c || (c =? ch "."))%N.

(** Lines 111-122: the choice of the decimal separator. *)
Definition normalize_separators (candidate : pystr) : pystr :=
  if mem (ch ",") candidate && mem (ch ".") candidate then
    replace (ch ",") [] candidate
  else if mem (ch ",") candidate && negb (mem (ch ".") candidate) then
    let last := rsplit1_last (ch ",") candidate in
    if ((List.length last =? 1) || (List.length last =? 2))%nat then
      replace (ch ",") (py ".") (replace (ch ".") [] candidate)
    else
      replace (ch ",") [] candidate
  else candidate.

Definition _parse_price_and_symbol (text : pystr)
  : result (option pyfloat * option pystr) :=
  let s := strip (replace _NBSP (py " ") text) in
  let '(symbol, s) :=
    strip_symbol (sorted_by_len_desc (map fst _CURRENCY_SYMBOLS)) s in
  let candidate := numeric_only s in
  if negb (nonempty candidate) then Ok (None, symbol)
  else
    let normalized := normalize_separators candidate in
    match py_float normalized with
    | Ok value => Ok (Some value, symbol)
    | Raise ValueError => Ok (None, symbol)
    | Raise e => Raise e
    end.

(** [for x in l: acc = f(acc, x)], stopping at the first exception. *)
Fixpoint fold_result {A B : Type} (f : A -> B -> result A) (l : list B) (a : A)
  : result A :=
  match l with
  | [] => Ok a
  | b :: l' => a' <- f a b ;; fold_result f l' a'
  end.

(** *** The tracker and its fetch *)

Record tracker : Type := {
  session : server;
  max_retries : Z;
  backoff_factor : pyfloat
}.

(** [__init__]: [max(0, int(max_retries))] and
    [max(0.0, float(backoff_factor))]. *)
Definition new (srv : server) (retries : Z) (backoff : pyfloat) : tracker :=
  {| session := srv;
     max_retries := Z.max 0 retries;
     backoff_factor := if Float.ge0 backoff then backoff else PyFinite false 0 0 |}.

(** [backoff_factor <= 0] *)
Definition le0 (x : pyfloat) : bool :=
  match x with
  | PyFinite neg m _ => neg || (m =? 0)%Z
  | PyInf neg => neg
  | PyNaN => false
  end.

Definition _sleep_backoff (self : tracker) (attempt : Z) (st : net) : net :=
  if le0 (backoff_factor self) then st
  else do_sleep (SleepBackoff attempt) st.

(** [ra.isdigit()] on ASCII text, where it is the class [[0-9]].  Of the
    characters a header can hold, [str.isdigit] is also true of the
    superscripts U+00B2, U+00B3 and U+00B9, which [float] then refuses:
    the statements about [fetch] that depend on it take the headers to be
    ASCII. *)
Definition isdigit (s : pystr) : bool := nonempty s && forallb is_digit s.

Definition retryable_status (status : Z) : bool :=
  ((status =? 429) || (status =? 500) || (status =? 502)
   || (status =? 503) || (status =? 504))%Z.

(** The loop [for attempt in range(1, self.max_retries + 2)], with
    [left] attempts to go; after it, [raise last_exc].  A sleep is taken
    to return: [time.sleep] raises [OverflowError] on a delay too large
    for it, which would end the loop there, and the statements that depend
    on it take the delays to be short. *)
Fixpoint fetch_loop (self : tracker) (u : pystr) (left : nat) (attempt : Z)
    (last_exc : option exn) (st : net)
  : result (soup * list (pystr * pystr)) * net :=
  match left with
  | O =>
      (match last_exc with Some e => Raise e | None => Raise AssertionError end, st)
  | S left' =>
      let '(out, st) := session_get (session self) u st in
      let caught :=
        match out with
        | Failure e => inl e
        | Response resp =>
            if retryable_status (status_code resp)
               && (attempt <=? max_retries self + 0)%Z
            then inr (inl resp)
            else match raise_for_status resp with
                 | Some e => inl e
                 | None => inr (inr resp)
                 end
        end in
      match caught with
      | inr (inl resp) =>
          (* a transient status: sleep, then continue *)
          let st :=
            match headers_get (headers resp) (py "Retry-After") with
            | Some ra =>
                if nonempty ra && isdigit ra
                then do_sleep (SleepRetryAfter ra) st
                else _sleep_backoff self attempt st
            | None => _sleep_backoff self attempt st
            end in
          fetch_loop self u left' (attempt + 1)%Z last_exc st
      | inr (inr resp) =>
          (Ok (text resp, map (fun kv => (lower (fst kv), snd kv)) (headers resp)), st)
      | inl e =>
          if is_request_exception e then
            (* except requests.RequestException as e *)
            if (attempt >? max_retries self)%Z then (Raise e, st)
            else fetch_loop self u left' (attempt + 1)%Z (Some e)
                   (_sleep_backoff self attempt st)
          else (Raise e, st)
      end
  end.

Definition fetch (self : tracker) (u : pystr) (st : net)
  : result (soup * list (pystr * pystr)) * net :=
  fetch_loop self u (Z.to_nat (max_retries self + 1)) 1%Z None st.

(** *** parse *)

(** What the loop over the structured-data objects updates. *)
Record ld_acc : Type := {
  acc_price : option pyfloat;
  acc_currency : option pystr;
  acc_title : option pystr;
  acc_asin : option pystr
}.

(** [",".join(types)]: a [TypeError] unless every item is a [str]. *)
Fixpoint strs_of (l : list json) : result (list pystr) :=
  match l with
  | [] => Ok []
  | JStr s :: l' => rest <- strs_of l' ;; Ok (s :: rest)
  | _ :: _ => Raise TypeError
  end.

(** [re.search(r"Product|Offer", types, re.I)] *)
Definition is_product_or_offer (types : pystr) : bool :=
  contains (lower types) (py "product") || contains (lower types) (py "offer").

(** [next((o for o in offers if isinstance(o, dict)), {})] *)
Fixpoint first_dict (l : list json) : json :=
  match l with
  | [] => JDict []
  | JDict d :: _ => JDict d
  | _ :: l' => first_dict l'
  end.

(** Lines 241-243: [types], joined with commas when it is a list. *)
Definition types_of (d : list (pystr * json)) : result json :=
  match dict_get d (py "@type") with
  | JList l => strs <- strs_of l ;; Ok (JStr (join (py ",") strs))
  | t => Ok t
  end.

(** Line 244: [types and isinstance(types, str) and re.search(...)] *)
Definition matches_product (types : json) : bool :=
  match types with
  | JStr t => nonempty t && is_product_or_offer t
  | _ => false
  end.

(** Lines 245-247: [offers]. *)
Definition offers_of (obj : json) (d : list (pystr * json)) : json :=
  match or_ (dict_get d (py "offers")) obj with
  | JList l => first_dict l
  | offers => offers
  end.

(** Line 249: [p] *)
Definition offer_price (o : list (pystr * json)) : json :=
  or_ (dict_get o (py "price")) (dict_get o (py "lowPrice")).

(** [re.sub] of the class [[^0-9]] by the empty string. *)
Definition digits_only (s : pystr) : pystr := filter is_digit s.

(** [f"{n:02d}"] for [n >= 0] *)
Definition pad2 (n : Z) : pystr :=
  let d := str_of_int n in
  match d with
  | [_] => ch "0" :: d
  | _ => d
  end.

Definition price_selectors : list pystr :=
  [ py "#priceblock_ourprice";
    py "#priceblock_dealprice";
    py "#priceblock_saleprice";
    py ".a-price .a-offscreen";
    py "#corePrice_feature_div .a-offscreen" ].

(** The loop of lines 278-281; [el] is the value the variable holds when
    the loop ends. *)
Fixpoint select_price_element (html : soup) (selectors : list pystr)
    (el : option element) : option element :=
  match selectors with
  | [] => el
  | sel :: selectors' =>
      match select_one html sel with
      | Some e =>
          let shown := if nonempty (get_text e) then Some (get_text e)
                       else attr e (py "content") in
          if truthy_opt (_clean_text shown) then Some e
          else select_price_element html selectors' (Some e)
      | None => select_price_element html selectors' None
      end
  end.

(** Lines 269-287: the price selectors, tried when structured data gave
    no price.  Returns [price_val] and [symbol]. *)
Definition fallback_selectors (html : soup) (price_val : option pyfloat)
  : result (option pyfloat * option pystr) :=
  match price_val with
  | Some _ => Ok (price_val, None)
  | None =>
      match select_price_element html price_selectors None with
      | Some el =>
          let txt :=
            match _clean_text (Some (get_text el)) with
            | Some t => Some t
            | None => _clean_text (attr el (py "content"))
            end in
          match txt with
          | Some txt =>
              ' (val, sym) <- _parse_price_and_symbol txt ;;
              Ok (match val with Some _ => val | None => price_val end,
                  if truthy_opt sym then sym else None)
          | None => Ok (price_val, None)
          end
      | None => Ok (price_val, None)
      end
  end.

(** [sys.get_int_max_str_digits()], by default: [int] raises [ValueError]
    on a text of more digits. *)
Definition int_max_str_digits : nat := 4300.

(** Lines 290-300: the whole and fraction parts.  When [int] refuses the
    digits of either, the exception is swallowed and the price stays
    absent. *)
Definition whole_fraction (html : soup) (price_val : option pyfloat)
  : option pyfloat :=
  match price_val with
  | Some _ => price_val
  | None =>
      match select_one html (py ".a-price .a-price-whole") with
      | Some whole =>
          let w := digits_only (get_text whole) in
          let f := digits_only
                     (match select_one html (py ".a-price .a-price-fraction") with
                      | Some frac => get_text frac
                      | None => []
                      end) in
          if nonempty w then
            if ((int_max_str_digits <? List.length w)
                || (int_max_str_digits <? List.length f))%nat
            then price_val
            else
              match py_float (str_of_int (int_of_digits w) ++ py "."
                              ++ pad2 (if nonempty f then int_of_digits f else 0%Z)) with
              | Ok v => Some v
              | Raise _ => price_val
              end
          else price_val
      | None => price_val
      end
  end.

Definition select_availability (html : soup) : option element :=
  match select_one html (py "#availability .a-color-success") with
  | Some av => Some av
  | None =>
      match select_one html (py "#availability .a-color-price") with
      | Some av => Some av
      | None => select_one html (py "#availability")
      end
  end.

(** Lines 216-222: the title from the page, before structured data. *)
Definition heuristic_title (html : soup) : option pystr :=
  let title :=
    match select_one html (py "#productTitle") with
    | Some t1 => _clean_text (Some (get_text_sp t1))
    | None => None
    end in
  if negb (truthy_opt title) then
    match find_meta html ByProperty (py "og:title") with
    | Some ogt => _clean_text (attr ogt (py "content"))
    | None => None
    end
  else title.

Section Parse.
Variable repr_other : json -> pystr.

(** Lines 248-257: price and currency of a Product or Offer object. *)
Definition read_offers (acc : ld_acc) (obj : json) (d : list (pystr * json))
  : ld_acc :=
  match offers_of obj d with
  | JDict o =>
      let p := offer_price o in
      let curr := dict_get o (py "priceCurrency") in
      let price_val :=
        match acc_price acc with
        | None =>
            if truthy p then
              match py_float (replace (ch ",") (py ".") (py_str repr_other p)) with
              | Ok v => Some v
              | Raise _ => None
              end
            else None
        | Some v => Some v
        end in
      let currency :=
        if truthy curr && negb (truthy_opt (acc_currency acc))
        then Some (py_str repr_other curr) else acc_currency acc in
      {| acc_price := price_val; acc_currency := currency;
         acc_title := acc_title acc; acc_asin := acc_asin acc |}
  | _ => acc
  end.

(** The body of [for obj in objs] (lines 239-266). *)
Definition step_obj (acc : ld_acc) (obj : json) : result ld_acc :=
  match obj with
  | JDict d =>
      types <- types_of d ;;
      let acc := if matches_product types then read_offers acc obj d else acc in
      let title :=
        match dict_get d (py "name") with
        | JStr nm => _clean_text (Some nm)
        | _ => acc_title acc
        end in
      let asin :=
        if negb (truthy_opt (acc_asin acc)) then
          match or_ (dict_get d (py "sku")) (dict_get d (py "mpn")) with
          | JStr sku => if fullmatch_asin sku then Some sku else acc_asin acc
          | _ => acc_asin acc
          end
        else acc_asin acc in
      Ok {| acc_price := acc_price acc; acc_currency := acc_currency acc;
            acc_title := title; acc_asin := asin |}
  | _ => Ok acc
  end.

(** [objs = data if isinstance(data, list) else [data]] *)
Definition objs_of (data : json) : list json :=
  match data with JList l => l | _ => [data] end.

(** The body of [for script in soup.find_all("script", ...)]. *)
Definition step_script (acc : ld_acc) (script : option json) : result ld_acc :=
  match script with
  | None => Ok acc
  | Some data => fold_result step_obj (objs_of data) acc
  end.

(** [parse(html, base_url)]; [now] is what [_now_iso_utc()] returns. *)
Definition parse (now : pystr) (html : soup) (base_url : pystr)
  : result PriceInfo :=
  let title := heuristic_title html in
  let asin := _extract_asin base_url (Some html) in
  acc <- fold_result step_script (ld_scripts html)
           {| acc_price := None; acc_currency := None;
              acc_title := title; acc_asin := asin |} ;;
  ' (price_val, symbol) <- fallback_selectors html (acc_price acc) ;;
  let price_val := whole_fraction html price_val in
  let availability :=
    match select_availability html with
    | Some av => _clean_text (Some (get_text_sp av))
    | None => None
    end in
  let currency :=
    if negb (truthy_opt (acc_currency acc)) && truthy_opt symbol
    then match symbol with
         | Some sym => symbols_get _CURRENCY_SYMBOLS sym
         | None => None
         end
    else acc_currency acc in
  Ok {| url := base_url;
        asin := acc_asin acc;
        title := acc_title acc;
        price := price_val;
        currency := currency;
        symbol := symbol;
        availability := availability;
        timestamp := now |}.

Definition get_price (self : tracker) (now : pystr) (u : pystr) (st : net)
  : result PriceInfo * net :=
  let '(r, st) := fetch self u st in
  match r with
  | Ok (html, _) => (parse now html u, st)
  | Raise e => (Raise e, st)
  end.

(** [track]: with [persist], the record is appended to [path], or to
    [prices_<asin>.jsonl]; [files] holds the lines written, latest first,
    each line standing for the JSON text of its record.  The append is
    taken to succeed: where the file cannot be opened the code raises
    after the request and returns no record. *)
Definition track (self : tracker) (now : pystr) (u : pystr)
    (persist : bool) (path : option pystr)
    (st : net) (files : list (pystr * PriceInfo))
  : result PriceInfo * net * list (pystr * PriceInfo) :=
  let '(r, st) := get_price self now u st in
  match r with
  | Ok info =>
      if persist then
        let a := match asin info with
                 | Some a => if nonempty a then a else py "unknown"
                 | None => py "unknown"
                 end in
        let outfile :=
          if truthy_opt path then match path with Some p => p | None => [] end
          else py "prices_" ++ a ++ py ".jsonl" in
        (Ok info, st, (outfile, info) :: files)
      else (Ok info, st, files)
  | Raise e => (Raise e, st, files)
  end.
End Parse.

End AmazonPriceTracker.

(** ** news_scraper.py *)

Module NewsScraper.

Record Article : Type := {
  url : pystr;
  source : option pystr;
  title : option pystr;
  author : option pystr;
  published_at : option pystr;
  description : option pystr;
  content : option pystr;
  top_image : option pystr;
  images : list pystr
}.

Definition _clean_text (text : option pystr) : option pystr :=
  match text with
  | None => None
  | Some t =>
      if negb (nonempty t) then None
      else
        let t := strip (collapse_ws false t) in
        if nonempty t then Some t else None
  end.

(** [_first]: its arguments as a list.  A value is a string or [None], or whatever the
    structured data holds: [v.strip()] raises on a true value that is no
    string. *)
Fixpoint _first (values : list json) : result (option pystr) :=
  match values with
  | [] => Ok None
  | v :: values' =>
      if truthy v then
        match v with
        | JStr s => if nonempty (strip s) then Ok (Some (strip s)) else _first values'
        | _ => Raise AttributeError
        end
      else _first values'
  end.

Definition meta_content (page : soup) (key : meta_key) (n : pystr) : option pystr :=
  match find_meta page key n with
  | Some tag => if truthy_opt (attr tag (py "content")) then attr tag (py "content") else None
  | None => None
  end.

Definition _get_meta (page : soup) (name prop : option pystr) : option pystr :=
  let by_name :=
    match name with
    | Some n => if nonempty n then meta_content page ByName n else None
    | None => None
    end in
  match by_name with
  | Some c => Some c
  | None =>
      match prop with
      | Some n => if nonempty n then meta_content page ByProperty n else None
      | None => None
      end
  end.

Definition meta_name (page : soup) (n : string) : json :=
  of_opt (_get_meta page (Some (py n)) None).
Definition meta_prop (page : soup) (n : string) : json :=
  of_opt (_get_meta page None (Some (py n))).

Definition _iter_jsonld_objects (page : soup) : list json :=
  flat_map
    (fun script =>
       match script with
       | None => []
       | Some (JList items) => items
       | Some (JDict d) =>
           if dict_has d (py "@graph") then
             match dict_get d (py "@graph") with
             | JList items => items
             | _ => [JDict d]
             end
           else [JDict d]
       | Some _ => []
       end)
    (ld_scripts page).

Definition article_types : list pystr :=
  [py "article"; py "newsarticle"; py "blogposting"].

(** [sum(len(x) for x in paras)] *)
Definition total_len (paras : list pystr) : nat :=
  fold_right (fun x n => (List.length x + n)%nat) 0%nat paras.

(** The cleaned text of the paragraphs of a node (lines 237-240). *)
Definition node_paras (n : node) : list pystr :=
  flat_map
    (fun p => match _clean_text (Some (get_text_sp p)) with
              | Some txt => [txt]
              | None => []
              end)
    (find_all_p n).

(** The loop of lines 234-243. *)
Fixpoint collect_paras (nodes : list node) (paras : list pystr) : list pystr :=
  match nodes with
  | [] => paras
  | n :: nodes' =>
      let paras := paras ++ node_paras n in
      if (500 <? total_len paras)%nat then paras
      else collect_paras nodes' paras
  end.

(** [nodes_to_scan = article_nodes or [soup.body] if soup.body else []],
    which Python reads as [(article_nodes or [soup.body]) if soup.body else []]. *)
Definition nodes_to_scan (page : soup) : list node :=
  match body page with
  | Some b =>
      match find_all_article_main page with
      | [] => [b]
      | article_nodes => article_nodes
      end
  | None => []
  end.

(** Lines 229-245: [content_text]. *)
Definition content_text (page : soup) : option pystr :=
  match collect_paras (nodes_to_scan page) [] with
  | [] => None
  | paras => Some (join [10%N; 10%N] paras)
  end.

(** Lines 266-271: duplicates dropped, first occurrences kept in order. *)
Fixpoint dedup (seen : list pystr) (l : list pystr) : list pystr :=
  match l with
  | [] => []
  | u :: l' => if mem_str u seen then dedup seen l' else u :: dedup (u :: seen) l'
  end.

Section Parse.
Variable repr_other : json -> pystr.
(** [urllib.parse.urljoin(base, url)], taken to return: on an address it
    cannot split, a bracket left open in the host for one, it raises
    [ValueError] and so does [parse]. *)
Variable urljoin : pystr -> pystr -> pystr.

Definition _resolve_url (u : option pystr) (base : pystr) : option pystr :=
  match u with
  | Some u => if nonempty u then Some (urljoin base u) else None
  | None => None
  end.

Fixpoint _pick_article_obj (objs : list json) : result (option json) :=
  match objs with
  | [] => Ok None
  | obj :: objs' =>
      t <- get obj (py "@type") ;;
      if negb (truthy t) then _pick_article_obj objs'
      else
        let types :=
          match t with
          | JList l => map (fun x => lower (py_str repr_other x)) l
          | _ => [lower (py_str repr_other t)]
          end in
        if existsb (fun x => mem_str x article_types) types then Ok (Some obj)
        else _pick_article_obj objs'
  end.

(** Line 165: [_pick_article_obj(jsonld_objs) if jsonld_objs else None] *)
Definition article_obj (page : soup) : result (option json) :=
  match _iter_jsonld_objects page with
  | [] => Ok None
  | jsonld_objs => _pick_article_obj jsonld_objs
  end.

(** Lines 172-208, for an [article_obj] that is a dict. *)
Definition title_ld (d : list (pystr * json)) : json :=
  or_ (dict_get d (py "headline")) (dict_get d (py "name")).

Definition description_ld (d : list (pystr * json)) : json :=
  match dict_get d (py "description") with
  | JDict c => or_ (dict_get c (py "@value")) (dict_get c (py "text"))
  | desc_candidate => desc_candidate
  end.

Definition author_ld (d : list (pystr * json)) : json :=
  match dict_get d (py "author") with
  | JList author_field =>
      let names :=
        flat_map
          (fun a =>
             match a with
             | JDict ad =>
                 let n := or_ (dict_get ad (py "name")) (dict_get ad (py "@id")) in
                 if truthy n then [py_str repr_other n] else []
             | JStr s => [s]
             | _ => []
             end)
          author_field in
      let joined := join (py ", ") (filter nonempty names) in
      if nonempty joined then JStr joined else JNull
  | JDict ad => or_ (dict_get ad (py "name")) (dict_get ad (py "@id"))
  | JStr s => JStr s
  | _ => JNull
  end.

Definition published_ld (d : list (pystr * json)) : json :=
  or_ (or_ (dict_get d (py "datePublished")) (dict_get d (py "dateCreated")))
      (dict_get d (py "dateModified")).

Definition image_ld (d : list (pystr * json)) : json :=
  match dict_get d (py "image") with
  | JDict im => or_ (dict_get im (py "url")) (dict_get im (py "contentUrl"))
  | JList (first_img :: _) =>
      match first_img with
      | JDict im => or_ (dict_get im (py "url")) (dict_get im (py "contentUrl"))
      | _ => JStr (py_str repr_other first_img)
      end
  | JStr s => JStr s
  | _ => JNull
  end.

(** A field of the structured-data object, [None] without one. *)
Definition ld_field (f : list (pystr * json) -> json) (obj : option json) : json :=
  match obj with
  | Some (JDict d) => f d
  | _ => JNull
  end.

(** Lines 248-271: the image list. *)
Definition collect_images (page : soup) (base_url : pystr) : list pystr :=
  let from_meta key n :=
    match find_meta page key n with
    | Some tag =>
        if truthy_opt (attr tag (py "content")) then
          match _resolve_url (attr tag (py "content")) base_url with
          | Some r => if nonempty r then [r] else []
          | None => []
          end
        else []
    | None => []
    end in
  let from_img img :=
    let src := if truthy_opt (attr img (py "src")) then attr img (py "src")
               else attr img (py "data-src") in
    match _resolve_url src base_url with
    | Some r => if nonempty r then [r] else []
    | None => []
    end in
  dedup []
    (from_meta ByProperty (py "og:image") ++ from_meta ByName (py "twitter:image")
     ++ flat_map (fun n => flat_map from_img (find_all_img n))
          (find_all_article_main page)).

(** The title as [parse] resolves it (line 276). *)
Definition resolve_title (page : soup) (obj : option json) : result (option pystr) :=
  let title_og := _first [meta_prop page "og:title"; meta_name page "twitter:title"] in
  let title_tag :=
    match title_string page with
    | Some (Some s) => if nonempty s then Some s else None
    | _ => None
    end in
  let h1_text := option_map get_text_sp_strip (find_h1 page) in
  title_og <- title_og ;;
  t <- _first [ld_field title_ld obj; of_opt title_og; of_opt title_tag; of_opt h1_text] ;;
  Ok (_clean_text t).

Definition parse (html : soup) (base_url : pystr) : result Article :=
  site_name <- _first [meta_prop html "og:site_name";
                       meta_name html "application-name";
                       meta_name html "twitter:site"] ;;
  obj <- article_obj html ;;
  desc_og <- _first [meta_prop html "og:description";
                     meta_name html "twitter:description"] ;;
  author_meta <- _first [meta_name html "author"; meta_name html "article:author"] ;;
  published_meta <- _first [meta_prop html "article:published_time";
                            meta_name html "pubdate";
                            meta_name html "date";
                            meta_prop html "og:updated_time"] ;;
  image_og <- _first [meta_prop html "og:image"; meta_name html "twitter:image"] ;;
  let dedup_images := collect_images html base_url in
  title <- resolve_title html obj ;;
  author <- _first [ld_field author_ld obj; of_opt author_meta] ;;
  published <- _first [ld_field published_ld obj; of_opt published_meta] ;;
  description <- _first [ld_field description_ld obj; of_opt desc_og] ;;
  top <- _first [ld_field image_ld obj; of_opt image_og;
                 of_opt (hd_error dedup_images)] ;;
  Ok {| url := base_url;
        source := _clean_text site_name;
        title := title;
        author := _clean_text author;
        published_at := _clean_text published;
        description := _clean_text description;
        content := _clean_text (content_text html);
        top_image := _resolve_url top base_url;
        images := dedup_images |}.

(** [fetch]: one request, no retry. *)
Definition fetch (srv : server) (u : pystr) (st : net)
  : result (soup * pystr * list (pystr * pystr)) * net :=
  let '(out, st) := session_get srv u st in
  match out with
  | Failure e => (Raise e, st)
  | Response resp =>
      match raise_for_status resp with
      | Some e => (Raise e, st)
      | None => (Ok (text resp, Http.url resp, headers resp), st)
      end
  end.

Definition scrape (srv : server) (u : pystr) (st : net) : result Article * net :=
  let '(r, st) := fetch srv u st in
  match r with
  | Ok (html, final_url, _) => (parse html final_url, st)
  | Raise e => (Raise e, st)
  end.
End Parse.

End NewsScraper.

(** ** Pages, servers and structured data used in the statements *)

Module Pages.
Local Open Scope string_scope.

Definition no_attr : pystr -> option pystr := fun _ => None.

(** A tag with the given text and no attribute. *)
Definition tag (txt : string) : element :=
  {| get_text := py txt; get_text_sp := py txt;
     get_text_sp_strip := strip (py txt); attr := no_attr |}.

(** A [meta] tag with the given [content]. *)
Definition meta_tag (c : string) : element :=
  {| get_text := []; get_text_sp := []; get_text_sp_strip := [];
     attr := fun n => if Py.eqb n (py "content") then Some (py c) else None |}.

(** A page on which every query finds nothing. *)
Definition empty_soup : soup :=
  {| select_one := fun _ => None;
     find_meta := fun _ _ => None;
     find_input_ASIN := None;
     find_data_asin := None;
     ld_scripts := [];
     title_string := None;
     find_h1 := None;
     find_all_article_main := [];
     body := None |}.

(** A page that holds only structured-data scripts and, with [og], an
    [og:title] meta tag. *)
Definition ld_page (og : option string) (scripts : list json) : soup :=
  {| select_one := fun _ => None;
     find_meta := fun k n =>
       match k, og with
       | ByProperty, Some t => if Py.eqb n (py "og:title") then Some (meta_tag t) else None
       | _, _ => None
       end;
     find_input_ASIN := None;
     find_data_asin := None;
     ld_scripts := map Some scripts;
     title_string := None;
     find_h1 := None;
     find_all_article_main := [];
     body := None |}.

(** A page whose body is one [article] with the given paragraphs. *)
Definition article_page (paragraphs : list string) : soup :=
  let n := {| find_all_p := map tag paragraphs; find_all_img := [] |} in
  {| select_one := fun _ => None;
     find_meta := fun _ _ => None;
     find_input_ASIN := None;
     find_data_asin := None;
     ld_scripts := [];
     title_string := None;
     find_h1 := None;
     find_all_article_main := [n];
     body := Some n |}.

Definition jstr (s : string) : json := JStr (py s).
Definition jobj (items : list (string * json)) : json :=
  JDict (map (fun kv => (py (fst kv), snd kv)) items).

(** The two parameters, for pages that hold strings only and no link: no
    float, list or dict is ever rendered, and no URL joined. *)
Definition repr_unused : json -> pystr := fun _ => [].
Definition urljoin_absolute : pystr -> pystr -> pystr := fun _ u => u.

Definition respond (status : Z) (page : soup) : response :=
  {| status_code := status; headers := []; text := page; url := py "https://redirected.example/final" |}.

(** A server that answers the listed statuses in turn, then 200. *)
Definition answers (statuses : list Z) (page : soup) : server :=
  fun n _ => Response (respond (nth n statuses 200%Z) page).

(** [0.5], the default [backoff_factor]. *)
Definition half : pyfloat := b64_of_decimal false 5 (-1).

(** A product whose offer carries a negative price. *)
Definition negative_price_page : soup :=
  ld_page None
    [ jobj [ ("@type", jstr "Product");
             ("name", jstr "Widget");
             ("offers", jobj [ ("price", jstr "-5"); ("priceCurrency", jstr "USD") ]) ] ].

(** A product followed by the organization that sells it, in one block. *)
Definition two_names_page : soup :=
  ld_page (Some "Heuristic")
    [ JList [ jobj [ ("@type", jstr "Product"); ("name", jstr "Widget") ];
              jobj [ ("@type", jstr "Organization"); ("name", jstr "Amazon") ] ] ].

(** An article object without headline before the one that has it. *)
Definition two_articles_page : soup :=
  ld_page (Some "Meta")
    [ JList [ jobj [ ("@type", jstr "Article") ];
              jobj [ ("@type", jstr "NewsArticle"); ("headline", jstr "Real") ] ] ].

Definition headline_page : soup :=
  ld_page (Some "Meta")
    [ jobj [ ("@type", jstr "NewsArticle"); ("headline", jstr " Test   Headline ") ] ].

Definition product_page : soup :=
  ld_page (Some "Heuristic")
    [ jobj [ ("@type", jstr "Product");
             ("name", jstr "Sample  Product");
             ("offers", jobj [ ("price", jstr "19.99"); ("priceCurrency", jstr "USD") ]) ] ].

(** A page given by tables: what each selector finds, the [meta] tags by
    key and name, the structured-data scripts, the text of [title], and
    the [article] and [main] nodes (the body is then the first of them). *)
Fixpoint lookup {A : Type} (table : list (string * A)) (key : pystr) : option A :=
  match table with
  | [] => None
  | (k, v) :: table' => if Py.eqb (py k) key then Some v else lookup table' key
  end.

Definition same_key (a b : meta_key) : bool :=
  match a, b with
  | ByName, ByName | ByProperty, ByProperty => true
  | _, _ => false
  end.

Definition table_page (selectors : list (string * element))
    (metas : list (meta_key * string * string)) (scripts : list json)
    (title : option string) (nodes : list node) : soup :=
  {| select_one := lookup selectors;
     find_meta := fun key n =>
       option_map meta_tag
         (lookup (map (fun m => (snd (fst m), snd m))
                      (filter (fun m => same_key (fst (fst m)) key) metas)) n);
     find_input_ASIN := None;
     find_data_asin := None;
     ld_scripts := map Some scripts;
     title_string := option_map (fun t => Some (py t)) title;
     find_h1 := None;
     find_all_article_main := nodes;
     body := hd_error nodes |}.

(** The pages of the repository's tests. *)
Definition test_jsonld_product : soup :=
  table_page
    [ ("#productTitle", tag "Sample Product Title") ] []
    [ jobj [ ("@context", jstr "https://schema.org");
             ("@type", jstr "Product");
             ("name", jstr "Sample Product");
             ("sku", jstr "B012345678");
             ("offers", jobj [ ("@type", jstr "Offer");
                               ("price", jstr "19.99");
                               ("priceCurrency", jstr "USD") ]) ] ]
    None [].

Definition pound_price : element :=
  {| get_text := 163%N :: py "12.34"; get_text_sp := 163%N :: py "12.34";
     get_text_sp_strip := 163%N :: py "12.34"; attr := no_attr |}.

Definition test_selectors_and_symbol : soup :=
  table_page
    [ ("#priceblock_ourprice", pound_price);
      ("#availability .a-color-success", tag "In Stock.");
      ("#availability", tag "In Stock.") ]
    [ (ByProperty, "og:title", "OG Title") ] [] None [].

Definition test_whole_fraction : soup :=
  table_page
    [ (".a-price .a-offscreen", tag "$1,234.56");
      (".a-price .a-price-whole", tag "1,234");
      (".a-price .a-price-fraction", tag "56") ]
    [] [] None [].

Definition test_jsonld_article : soup :=
  table_page [] []
    [ jobj [ ("@context", jstr "https://schema.org");
             ("@type", jstr "NewsArticle");
             ("headline", jstr "Test Headline");
             ("description", jstr "Short description");
             ("datePublished", jstr "2025-01-01T10:00:00Z");
             ("author", jobj [ ("@type", jstr "Person"); ("name", jstr "Jane Doe") ]);
             ("image", jobj [ ("@type", jstr "ImageObject");
                              ("url", jstr "/img/cover.jpg") ]) ] ]
    None
    [ {| find_all_p := [tag "Paragraph 1."; tag "Paragraph 2."]; find_all_img := [] |} ].

Definition test_scrape : soup :=
  table_page [] [] [] (Some "Just a Title")
    [ {| find_all_p := [tag "Hello world."]; find_all_img := [] |} ].

End Pages.

(** ** What the statements say about structured data *)

Module Ld.
Import AmazonPriceTracker.

(** The objects [parse] of the price tracker visits, in document order. *)
Definition ld_objects (html : soup) : list json :=
  flat_map (fun script => match script with Some data => objs_of data | None => [] end)
           (ld_scripts html).

(** The [name] of an object, when it is a string. *)
Definition name_of (obj : json) : option pystr :=
  match obj with
  | JDict d => match dict_get d (py "name") with JStr nm => Some nm | _ => None end
  | _ => None
  end.

(** The string names of the page's objects, in document order. *)
Definition ld_names (html : soup) : list pystr :=
  flat_map (fun obj => match name_of obj with Some nm => [nm] | None => [] end)
           (ld_objects html).

(** [o] is the offers dict of a Product or Offer object of the page. *)
Definition ld_offer (html : soup) (o : list (pystr * json)) : Prop :=
  exists d types,
    In (JDict d) (ld_objects html)
    /\ types_of d = Ok types /\ matches_product types = true
    /\ offers_of (JDict d) d = JDict o.

(** [v] is the price the code reads from the offers dict [o]: its [price],
    or else [lowPrice], rendered as text, commas turned into dots, and
    converted by [float]. *)
Definition price_of_offer (repr_other : json -> pystr)
    (o : list (pystr * json)) (v : pyfloat) : Prop :=
  truthy (offer_price o) = true
  /\ py_float (replace (ch ",") (py ".") (py_str repr_other (offer_price o))) = Ok v.

(** [c] is the [priceCurrency] of the offers dict [o], rendered as text. *)
Definition currency_of_offer (repr_other : json -> pystr)
    (o : list (pystr * json)) (c : pystr) : Prop :=
  truthy (dict_get o (py "priceCurrency")) = true
  /\ c = py_str repr_other (dict_get o (py "priceCurrency")).

(** The currency an object offers: the [priceCurrency], rendered as text,
    of the offers dict of a Product or Offer object, when it is true. *)
Definition currency_of_obj (repr_other : json -> pystr) (obj : json) : list pystr :=
  match obj with
  | JDict d =>
      match types_of d with
      | Ok types =>
          if matches_product types then
            match offers_of obj d with
            | JDict o =>
                let curr := dict_get o (py "priceCurrency") in
                if truthy curr then [py_str repr_other curr] else []
            | _ => []
            end
          else []
      | Raise _ => []
      end
  | _ => []
  end.

(** The currencies the structured data of the page offers, in document
    order. *)
Definition ld_currencies (repr_other : json -> pystr) (html : soup) : list pystr :=
  flat_map (currency_of_obj repr_other) (ld_objects html).

(** [if curr and not currency: currency = str(curr)], over the currencies
    offered in turn. *)
Definition keep_first (currency : option pystr) (offered : list pystr) : option pystr :=
  fold_left (fun currency c => if truthy_opt currency then currency else Some c)
            offered currency.

(** The price and the currency held after the structured-data loop come
    from an offers dict of the page. *)
Definition ld_sourced (repr_other : json -> pystr) (html : soup) (acc : ld_acc)
  : Prop :=
  (forall v, acc_price acc = Some v ->
             exists o, ld_offer html o /\ price_of_offer repr_other o v)
  /\ (forall c, acc_currency acc = Some c ->
                exists o, ld_offer html o /\ currency_of_offer repr_other o c).

End Ld.

(** ** Further notions used in the statements *)

Module Shape.

(** [spaced after_space s]: every whitespace character of [s] is a space,
    and no space follows a space ([after_space]: one stands just before
    [s]). *)
Fixpoint spaced (after_space : bool) (s : pystr) : bool :=
  match s with
  | [] => true
  | c :: s' =>
      if is_space c then (c =? 32)%N && negb after_space && spaced true s'
      else spaced false s'
  end.

(** [tidy s]: [s] is not empty, begins and ends with a character that is
    not whitespace, and its only whitespace is single spaces. *)
Fixpoint single_spaced (after_space : bool) (s : pystr) : bool :=
  match s with
  | [] => negb after_space
  | c :: s' =>
      if is_space c then (c =? 32)%N && negb after_space && single_spaced true s'
      else single_spaced false s'
  end.
Definition tidy (s : pystr) : bool := single_spaced true s.

(** [s.rstrip()] *)
Fixpoint rstrip (s : pystr) : pystr :=
  match s with
  | [] => []
  | c :: s' =>
      match rstrip s' with
      | [] => if is_space c then [] else [c]
      | kept => c :: kept
      end
  end.

(** [a] is at least as long as [b]: the order of
    [sorted(..., key=len, reverse=True)]. *)
Definition not_shorter (a b : pystr) : Prop := (List.length b <= List.length a)%nat.

(** The test [_pick_article_obj] makes on an object that is a dict
    (lines 98-105): its [@type] is true and names an article type. *)
Definition is_article (repr_other : json -> pystr) (d : list (pystr * json)) : bool :=
  let t := dict_get d (py "@type") in
  truthy t
  && existsb (fun x => mem_str x NewsScraper.article_types)
       match t with
       | JList l => map (fun x => lower (py_str repr_other x)) l
       | _ => [lower (py_str repr_other t)]
       end.

(** [x] is a dict that is no article. *)
Definition passed_over (repr_other : json -> pystr) (x : json) : Prop :=
  exists d, x = JDict d /\ is_article repr_other d = false.

(** [isinstance(x, dict)] *)
Definition is_dict (x : json) : bool :=
  match x with JDict _ => true | _ => false end.

(** A value [_first] skips: a false one, or a string of whitespace. *)
Definition skipped (v : json) : Prop :=
  truthy v = false \/ exists t, v = JStr t /\ strip t = [].

(** What the loop over the price selectors tests on an element (line 280):
    its text, or its [content] attribute when it has no text, cleaned. *)
Definition has_price_text (e : element) : bool :=
  truthy_opt
    (AmazonPriceTracker._clean_text
       (if nonempty (get_text e) then Some (get_text e) else attr e (py "content"))).

(** [x] is a Product or Offer object of the page whose offers carry a
    price that [float] accepts, [v]. *)
Definition offers_price (repr_other : json -> pystr) (html : soup) (v : pyfloat) : Prop :=
  exists o, Ld.ld_offer html o /\ Ld.price_of_offer repr_other o v.

(** The result [r] of a fetch is that of the request numbered [n]: its
    page and headers when [raise_for_status] lets the response through;
    the exception the request raised, or the [HTTPError] of its status. *)
Definition settled_by (srv : server) (u : pystr) (n : nat)
    (r : result (soup * list (pystr * pystr))) : Prop :=
  match r with
  | Ok (html, hdrs) =>
      exists resp,
        srv n u = Response resp
        /\ raise_for_status resp = None
        /\ html = text resp
        /\ hdrs = map (fun kv => (lower (fst kv), snd kv)) (headers resp)
  | Raise e =>
      srv n u = Failure e
      \/ exists resp, srv n u = Response resp /\ raise_for_status resp = Some e
  end.

(** [src] is an address the page gives for an image: the [content] of
    its [og:image] or [twitter:image] tag, or the [src], else the
    [data-src], of an [img] inside an [article] or [main] node. *)
Definition image_address (html : soup) (src : pystr) : Prop :=
  (exists tag,
      find_meta html ByProperty (py "og:image") = Some tag
      /\ attr tag (py "content") = Some src)
  \/ (exists tag,
         find_meta html ByName (py "twitter:image") = Some tag
         /\ attr tag (py "content") = Some src)
  \/ (exists n im,
         In n (find_all_article_main html)
         /\ In im (find_all_img n)
         /\ (if truthy_opt (attr im (py "src")) then attr im (py "src")
             else attr im (py "data-src")) = Some src).

(** [isinstance(x, str)] *)
Definition is_str (x : json) : bool :=
  match x with JStr _ => true | _ => false end.

(** Why the tracker slept: a transient response carried a [Retry-After]
    header of digits; or the backoff factor is positive and the attempt,
    one that is not the last, was given up. *)
Definition sleep_reason (self : AmazonPriceTracker.tracker) (u : pystr)
    (s : sleep) : Prop :=
  match s with
  | SleepRetryAfter ra =>
      exists n resp,
        AmazonPriceTracker.session self n u = Response resp
        /\ AmazonPriceTracker.retryable_status (status_code resp) = true
        /\ headers_get (headers resp) (py "Retry-After") = Some ra
        /\ AmazonPriceTracker.isdigit ra = true
  | SleepBackoff attempt =>
      AmazonPriceTracker.le0 (AmazonPriceTracker.backoff_factor self) = false
      /\ (1 <= attempt <= AmazonPriceTracker.max_retries self)%Z
  end.

(** Text of ASCII characters.  On such text [str.lower] touches the
    letters A to Z only and [str.isdigit] is the class [[0-9]], which is
    how the header lookup and the [Retry-After] test are written here. *)
Definition ascii (s : pystr) : bool := forallb (fun c => (c <? 128)%N) s.

(** The responses to [u] carry ASCII headers, as HTTP has them. *)
Definition ascii_headers (srv : server) (u : pystr) : Prop :=
  forall n resp,
    srv n u = Response resp ->
    forallb (fun kv => ascii (fst kv) && ascii (snd kv)) (headers resp) = true.

(** [x <= 1] on floats *)
Definition le1 (x : pyfloat) : bool :=
  match x with
  | PyFinite neg m e => neg || (m =? 0)%Z || ((e <=? 0)%Z && (m <=? 2 ^ (- e))%Z)
  | PyInf neg => neg
  | PyNaN => false
  end.

(** The tracker never sleeps on its own account, or its delays are ones
    [time.sleep] takes: a backoff factor of at most 1 doubled at most 30
    times.  A larger delay can overflow, and [time.sleep] then raises. *)
Definition short_delays (self : AmazonPriceTracker.tracker) : Prop :=
  AmazonPriceTracker.le0 (AmazonPriceTracker.backoff_factor self) = true
  \/ (le1 (AmazonPriceTracker.backoff_factor self) = true
      /\ (AmazonPriceTracker.max_retries self <= 30)%Z).

End Shape.

(** Pages and servers for the further properties. *)
Module MorePages.
Local Open Scope string_scope.

Definition img (src : string) : element :=
  {| get_text := []; get_text_sp := []; get_text_sp_strip := [];
     attr := fun n => if Py.eqb n (py "src") then Some (py src) else None |}.

(** An article with three pictures, two of them the same, under an
    [og:image] that is the first picture again. *)
Definition gallery_page : soup :=
  Pages.table_page [] [ (ByProperty, "og:image", "https://cdn.example/a.png") ] [] None
    [ {| find_all_p := [Pages.tag "Text."];
         find_all_img := [ img "https://cdn.example/a.png";
                           img "https://cdn.example/b.png";
                           img "https://cdn.example/b.png" ] |} ].

(** A structured-data block that is a list of plain strings. *)
Definition strings_block_page : soup :=
  Pages.ld_page (Some "Meta") [ JList [ Pages.jstr "WebSite"; Pages.jstr "Article" ] ].

(** A server on which every request fails to connect. *)
Definition unreachable : server := fun _ _ => Failure ConnectionError.

(** A page with a price in the second selector only, and an empty first. *)
Definition deal_price_page : soup :=
  Pages.table_page
    [ ("#priceblock_ourprice", Pages.tag "  ");
      ("#priceblock_dealprice", Pages.tag "CA$ 7,50") ]
    [] [] None [].

(** A product page with a usable structured-data price and a price tag. *)
Definition both_prices_page : soup :=
  Pages.table_page
    [ ("#priceblock_ourprice", Pages.tag "$9.99");
      ("#productTitle", Pages.tag "  Grand   Piano ");
      ("#availability", Pages.tag " In  Stock. ") ]
    []
    [ Pages.jobj [ ("@type", Pages.jstr "Product");
                   ("sku", Pages.jstr "B0SKU00000");
                   ("offers", Pages.jobj [ ("price", Pages.jstr "19,99") ]) ] ]
    None [].

(** A product whose structured data names the currency but no price,
    with a price tag in dollars. *)
Definition currency_only_page : soup :=
  Pages.table_page
    [ ("#priceblock_ourprice", Pages.tag "$9.99") ]
    []
    [ Pages.jobj [ ("@type", Pages.jstr "Product");
                   ("offers", Pages.jobj [ ("priceCurrency", Pages.jstr "EUR") ]) ] ]
    None [].

(** A server that is busy once, asking for three seconds, then answers. *)
Definition busy_response : response :=
  {| status_code := 503;
     headers := [ (py "Retry-After", py "3") ];
     text := Pages.empty_soup;
     url := py "https://shop.example/dp/B012345678" |}.
Definition busy_once : server :=
  fun n _ =>
    match n with
    | O => Response busy_response
    | S _ => Response (Pages.respond 200 Pages.product_page)
    end.

(** A server that answers 503 to every request. *)
Definition always_busy : server :=
  fun _ _ => Response (Pages.respond 503 Pages.empty_soup).

(** An [article] with a paragraph in a document that has no [body] tag. *)
Definition bodiless_page : soup :=
  {| select_one := fun _ => None;
     find_meta := fun _ _ => None;
     find_input_ASIN := None;
     find_data_asin := None;
     ld_scripts := [];
     title_string := Some (Some (py "  Front   page "));
     find_h1 := None;
     find_all_article_main :=
       [ {| find_all_p := [Pages.tag "Text of the article."]; find_all_img := [] |} ];
     body := None |}.

End MorePages.

(** ** Facts about strings *)

Unset Implicit Arguments.

Section Strings.

Lemma In_lstrip c s : In c (lstrip s) -> In c s.
Proof.
  induction s as [|d s IH]; simpl; auto.
  destruct (is_space d); simpl; auto.
Qed.

Lemma In_strip c s : In c (strip s) -> In c s.
Proof.
  unfold strip. intros H.
  apply in_rev in H. apply In_lstrip in H. apply in_rev in H.
  now apply In_lstrip.
Qed.

Lemma In_collapse_ws c b s :
  In c (collapse_ws b s) -> c = 32%N \/ (is_space c = false /\ In c s).
Proof.
  revert b. induction s as [|d s IH]; simpl; intros b H; [contradiction|].
  destruct (is_space d) eqn:Hd.
  - destruct b; simpl in H.
    + destruct (IH _ H) as [->|[? ?]]; auto.
    + destruct H as [<-|H]; auto.
      destruct (IH _ H) as [->|[? ?]]; auto.
  - destruct H as [<-|H]; auto.
    destruct (IH _ H) as [->|[? ?]]; auto.
Qed.

Lemma lstrip_no_space s :
  forallb (fun c => negb (is_space c)) s = true -> lstrip s = s.
Proof.
  destruct s as [|c s]; simpl; auto.
  intros H. apply andb_true_iff in H as [Hc _].
  destruct (is_space c); [discriminate|reflexivity].
Qed.

Lemma strip_no_space s :
  forallb (fun c => negb (is_space c)) s = true -> strip s = s.
Proof.
  intros H. unfold strip. rewrite (lstrip_no_space s H).
  rewrite lstrip_no_space.
  - apply rev_involutive.
  - rewrite forallb_forall in *. intros c Hc. apply H. now apply in_rev.
Qed.

Lemma forallb_replace (P Q : char -> bool) old new s :
  forallb Q s = true ->
  (forall c, Q c = true -> c <> old -> P c = true) ->
  forallb P new = true ->
  forallb P (replace old new s) = true.
Proof.
  intros HQ HPQ Hnew. unfold replace.
  induction s as [|c s IH]; simpl; auto.
  simpl in HQ. apply andb_true_iff in HQ as [Hc Hs].
  rewrite forallb_app, (IH Hs), andb_true_r.
  destruct (N.eqb_spec c old); auto.
  simpl. rewrite (HPQ c Hc n). reflexivity.
Qed.

Lemma forallb_impl (P Q : char -> bool) s :
  (forall c, In c s -> P c = true -> Q c = true) ->
  forallb P s = true -> forallb Q s = true.
Proof.
  intros H. rewrite !forallb_forall. intros HP c Hc. auto.
Qed.

Lemma mem_false_iff c s : mem c s = false <-> ~ In c s.
Proof.
  unfold mem. split.
  - intros H Hin. assert (existsb (N.eqb c) s = true).
    { apply existsb_exists. exists c. split; auto. apply N.eqb_refl. }
    congruence.
  - intros H. destruct (existsb (N.eqb c) s) eqn:E; auto.
    apply existsb_exists in E as [x [Hx Hcx]]. apply N.eqb_eq in Hcx. subst. contradiction.
Qed.

Lemma mem_true_iff c s : mem c s = true <-> In c s.
Proof.
  unfold mem. rewrite existsb_exists. split.
  - intros [x [Hx Hcx]]. apply N.eqb_eq in Hcx. now subst.
  - intros H. exists c. split; auto. apply N.eqb_refl.
Qed.

End Strings.

(** ** Facts about [float] *)

Section Floats.
Import AmazonPriceTracker.

Lemma plain_cases c :
  is_plain c = true -> c = 46%N \/ (48 <= c <= 57)%N.
Proof.
  unfold is_plain, is_digit, ch. simpl.
  rewrite orb_true_iff, andb_true_iff, !N.leb_le, N.eqb_eq. lia.
Qed.

Lemma plain_not_space c : is_plain c = true -> negb (is_space c) = true.
Proof.
  intros H. apply plain_cases in H. unfold is_space.
  destruct H as [->|H]; [reflexivity|].
  apply negb_true_iff.
  repeat (apply orb_false_iff; split);
    try (apply andb_false_iff);
    rewrite ?N.leb_gt, ?N.eqb_neq; lia.
Qed.

Lemma b64_round_ge0 num den : ge0 (b64_round false num den) = true.
Proof.
  unfold b64_round.
  destruct (num =? 0)%Z; [reflexivity|].
  destruct (scaled num den _) as [n d].
  destruct (round_half_even n d =? 2 ^ 53)%Z;
    repeat match goal with
           | |- context [if ?b then _ else _] => destruct b
           end; reflexivity.
Qed.

Lemma b64_of_decimal_ge0 digits exp10 :
  ge0 (b64_of_decimal false digits exp10) = true.
Proof.
  unfold b64_of_decimal. destruct (0 <=? exp10)%Z; apply b64_round_ge0.
Qed.

(** [float] raises nothing but [ValueError]. *)
Lemma py_float_raises text e : py_float text = Raise e -> e = ValueError.
Proof.
  unfold py_float.
  destruct (match strip_c (map to_ascii text) with [] => _ | _ :: _ => _ end)
    as [neg body].
  destruct (_ || _); [discriminate|].
  destruct (Py.eqb _ _); [discriminate|].
  destruct (parse_decimal body) as [[? ?]|]; [discriminate|].
  congruence.
Qed.

(** Digits and dots are ASCII and no whitespace: [float] reads them as
    they are. *)
Lemma to_ascii_plain s : forallb is_plain s = true -> map to_ascii s = s.
Proof.
  induction s as [|c s IH]; [reflexivity|].
  cbn [forallb map]. intros H. apply andb_true_iff in H as [Hc Hs].
  rewrite (IH Hs). f_equal. apply plain_cases in Hc. unfold to_ascii.
  replace (c <? 127)%N with true; [reflexivity|].
  symmetry. apply N.ltb_lt. lia.
Qed.

Lemma plain_not_c_space c : is_plain c = true -> c_space c = false.
Proof.
  intros H. apply plain_cases in H. unfold c_space.
  apply orb_false_iff. split; [apply andb_false_iff|];
    rewrite ?N.leb_gt, ?N.eqb_neq; lia.
Qed.

Lemma lstrip_c_plain s : forallb is_plain s = true -> lstrip_c s = s.
Proof.
  destruct s as [|c s]; [reflexivity|]. cbn [forallb lstrip_c].
  intros H. apply andb_true_iff in H as [Hc _].
  now rewrite (plain_not_c_space _ Hc).
Qed.

Lemma strip_c_plain s : forallb is_plain s = true -> strip_c s = s.
Proof.
  intros H. unfold strip_c. rewrite (lstrip_c_plain s H), lstrip_c_plain.
  - apply rev_involutive.
  - rewrite forallb_forall in *. intros c Hc. apply H. now apply in_rev.
Qed.

(** On digits and dots [float] is the decimal reading, without a sign. *)
Lemma py_float_plain s :
  forallb is_plain s = true ->
  py_float s = match parse_decimal s with
               | Some (digits, exp10) => Ok (b64_of_decimal false digits exp10)
               | None => Raise ValueError
               end.
Proof.
  intros Hs. unfold py_float.
  rewrite (to_ascii_plain s Hs), (strip_c_plain s Hs).
  destruct s as [|c r]; [reflexivity|].
  simpl in Hs. apply andb_true_iff in Hs as [Hc _].
  apply plain_cases in Hc.
  assert (Hm : (c =? ch "-")%N = false) by (apply N.eqb_neq; unfold ch; simpl; lia).
  assert (Hp : (c =? ch "+")%N = false) by (apply N.eqb_neq; unfold ch; simpl; lia).
  rewrite Hm, Hp.
  assert (Hl : lower_char c = c).
  { unfold lower_char. replace (65 <=? c)%N with false; [reflexivity|].
    symmetry. apply N.leb_gt. lia. }
  assert (Hi : (c =? 105)%N = false) by (apply N.eqb_neq; lia).
  assert (Hn : (c =? 110)%N = false) by (apply N.eqb_neq; lia).
  cbn [lower map]. rewrite Hl.
  change (py "inf") with [105; 110; 102]%N.
  change (py "infinity") with [105; 110; 102; 105; 110; 105; 116; 121]%N.
  change (py "nan") with [110; 97; 110]%N.
  cbn [Py.eqb]. rewrite Hi, Hn. cbn [andb orb]. reflexivity.
Qed.

(** On digits and dots, [float] returns a number that is not negative. *)
Lemma py_float_plain_ge0 s v :
  forallb is_plain s = true -> py_float s = Ok v -> ge0 v = true.
Proof.
  intros Hs. rewrite (py_float_plain s Hs).
  destruct (parse_decimal s) as [[digits exp10]|]; [|discriminate].
  intros H. injection H as <-. apply b64_of_decimal_ge0.
Qed.

(** A group of digits is read up to the end, or up to a character that is
    no digit and no underscore. *)
Lemma digits_run_digits ds rest :
  forallb is_digit ds = true ->
  match rest with
  | [] => True
  | c :: _ => is_digit c = false /\ c <> ch "_"
  end ->
  digits_run (ds ++ rest) = (ds, rest).
Proof.
  intros Hd Hr. induction ds as [|d ds IH]; cbn [app].
  - destruct rest as [|c r]; [reflexivity|]. destruct Hr as [Hc Hu].
    cbn [digits_run]. rewrite Hc.
    replace (c =? ch "_")%N with false by (symmetry; now apply N.eqb_neq).
    reflexivity.
  - cbn [forallb] in Hd. apply andb_true_iff in Hd as [H1 H2].
    cbn [digits_run]. rewrite H1, (IH H2). reflexivity.
Qed.

Lemma digitpart_digits ds rest :
  forallb is_digit ds = true ->
  match rest with
  | [] => True
  | c :: _ => is_digit c = false /\ c <> ch "_"
  end ->
  digitpart (ds ++ rest) = match ds with [] => None | _ => Some (ds, rest) end.
Proof.
  intros Hd Hr. destruct ds as [|d ds]; cbn [app].
  - destruct rest as [|c r]; [reflexivity|]. cbn [digitpart].
    now rewrite (proj1 Hr).
  - cbn [forallb] in Hd. apply andb_true_iff in Hd as [H1 H2].
    cbn [digitpart]. rewrite H1, (digits_run_digits ds rest H2 Hr). reflexivity.
Qed.

Lemma dot_stops r :
  match ch "." :: r with
  | [] => True
  | c :: _ => is_digit c = false /\ c <> ch "_"
  end.
Proof. split; [reflexivity|]. intros H. vm_compute in H. discriminate. Qed.

Lemma digitpart_all ds :
  forallb is_digit ds = true ->
  digitpart ds = match ds with [] => None | _ => Some (ds, []) end.
Proof.
  intros Hd. rewrite <- (app_nil_r ds) at 1.
  now rewrite (digitpart_digits ds [] Hd I).
Qed.

(** Digits, a point, digits: the decimal reading. *)
Lemma parse_decimal_point ip fp :
  forallb is_digit ip = true ->
  forallb is_digit fp = true ->
  fp <> [] ->
  parse_decimal (ip ++ ch "." :: fp)
  = Some (int_of_digits (ip ++ fp), (- Z.of_nat (List.length fp))%Z).
Proof.
  intros Hi Hf Hne. unfold parse_decimal.
  rewrite (digitpart_digits ip (ch "." :: fp) Hi (dot_stops fp)).
  destruct ip as [|d ip]; cbn [app]; change (ch "." =? ch ".")%N with true;
    cbn iota; rewrite (digitpart_all fp Hf);
    (destruct fp as [|f fp]; [contradiction|]); reflexivity.
Qed.

(** With a second point there is no number. *)
Lemma parse_decimal_two_dots d1 d2 more :
  forallb is_digit d1 = true ->
  forallb is_digit d2 = true ->
  parse_decimal (d1 ++ ch "." :: d2 ++ ch "." :: more) = None.
Proof.
  intros H1 H2. unfold parse_decimal.
  rewrite (digitpart_digits d1 (ch "." :: d2 ++ ch "." :: more) H1
             (dot_stops (d2 ++ ch "." :: more))).
  destruct d1 as [|c d1]; cbn [app]; change (ch "." =? ch ".")%N with true;
    cbn iota; rewrite (digitpart_digits d2 (ch "." :: more) H2 (dot_stops more));
    destruct d2 as [|c2 d2]; reflexivity.
Qed.

(** Digits and dots, up to the first dot. *)
Lemma first_dot_split p :
  forallb is_plain p = true ->
  In (ch ".") p ->
  exists d r,
    p = d ++ ch "." :: r
    /\ forallb is_digit d = true /\ forallb is_plain r = true.
Proof.
  induction p as [|c p IH]; [intros _ []|].
  cbn [forallb]. intros H Hin. apply andb_true_iff in H as [Hc Hp].
  destruct (N.eqb_spec c (ch ".")) as [->|Hne].
  - exists [], p. auto.
  - destruct Hin as [Hin|Hin]; [congruence|].
    destruct (IH Hp Hin) as [d [r [-> [Hd Hr]]]].
    exists (c :: d), r. repeat split; auto. cbn [forallb]. rewrite Hd.
    unfold is_plain in Hc. apply orb_true_iff in Hc as [Hc|Hc]; [now rewrite Hc|].
    apply N.eqb_eq in Hc. contradiction.
Qed.

(** On digits and dots with two dots or more, [float] raises. *)
Lemma py_float_two_dots a b :
  forallb is_plain (a ++ ch "." :: b) = true ->
  In (ch ".") a ->
  py_float (a ++ ch "." :: b) = Raise ValueError.
Proof.
  intros Hp Hin. rewrite (py_float_plain _ Hp).
  rewrite forallb_app in Hp. apply andb_true_iff in Hp as [Ha Hb].
  destruct (first_dot_split a Ha Hin) as [d1 [r1 [-> [Hd1 Hr1]]]].
  assert (Hrest : forallb is_plain (r1 ++ ch "." :: b) = true)
    by (rewrite forallb_app, Hr1; exact Hb).
  destruct (first_dot_split (r1 ++ ch "." :: b) Hrest) as [d2 [more [E [Hd2 _]]]];
    [apply in_or_app; right; now left|].
  rewrite <- app_assoc. cbn [app]. rewrite E.
  now rewrite (parse_decimal_two_dots d1 d2 more Hd1 Hd2).
Qed.

End Floats.

(** ** The price parser *)

Section PriceParser.
Import AmazonPriceTracker.

Lemma replace_app old new a b :
  replace old new (a ++ b) = replace old new a ++ replace old new b.
Proof. unfold replace. apply flat_map_app. Qed.

Lemma replace_absent old new s : ~ In old s -> replace old new s = s.
Proof.
  unfold replace. induction s as [|c s IH]; simpl; intros H; auto.
  destruct (N.eqb_spec c old) as [->|Hc].
  - exfalso. apply H. now left.
  - simpl. f_equal. apply IH. intros Hin. apply H. now right.
Qed.

Lemma numeric_only_numeric s : forallb is_numeric_char (numeric_only s) = true.
Proof.
  unfold numeric_only. apply forallb_forall. intros c Hc.
  now apply filter_In in Hc.
Qed.

Lemma numeric_cases c :
  is_numeric_char c = true -> c <> ch "," -> is_plain c = true.
Proof.
  unfold is_numeric_char, is_plain. intros H Hc.
  apply orb_true_iff in H as [H|H]; [exact H|].
  apply N.eqb_eq in H. contradiction.
Qed.

Lemma take_until_split sep l :
  In sep l ->
  exists rest, l = take_until sep l ++ sep :: rest /\ ~ In sep (take_until sep l).
Proof.
  induction l as [|c l IH]; simpl; [contradiction|].
  intros H. destruct (N.eqb_spec c sep) as [->|Hc].
  - exists l. split; auto.
  - destruct H as [H|H]; [contradiction|].
    destruct (IH H) as [rest [E Hn]]. exists rest. split.
    + simpl. now rewrite <- E.
    + simpl. intros [?|?]; auto.
Qed.

(** [rsplit] cuts at the last separator. *)
Lemma rsplit1_last_split sep s :
  In sep s ->
  exists head, s = head ++ sep :: rsplit1_last sep s
               /\ ~ In sep (rsplit1_last sep s).
Proof.
  intros H. unfold rsplit1_last.
  destruct (take_until_split sep (rev s)) as [rest [E Hn]]; [now apply -> in_rev|].
  exists (rev rest). split.
  - rewrite <- (rev_involutive s), E at 1.
    rewrite rev_app_distr. simpl. now rewrite <- app_assoc.
  - intros Hin. apply Hn. now apply in_rev.
Qed.

(** After the separators are dealt with only digits and dots are left. *)
Lemma normalize_plain candidate :
  forallb is_numeric_char candidate = true ->
  forallb is_plain (normalize_separators candidate) = true.
Proof.
  intros Hn. unfold normalize_separators.
  assert (Hdrop : forallb is_plain (replace (ch ",") [] candidate) = true)
    by (apply forallb_replace with (Q := is_numeric_char); auto using numeric_cases).
  destruct (mem (ch ",") candidate) eqn:Hc; cbn [andb].
  - destruct (mem (ch ".") candidate) eqn:Hd; cbn [negb]; [exact Hdrop|].
    destruct (_ || _)%bool; [|exact Hdrop].
    apply mem_false_iff in Hd. rewrite (replace_absent _ _ _ Hd).
    apply forallb_replace with (Q := is_numeric_char); auto using numeric_cases.
  - apply mem_false_iff in Hc.
    eapply forallb_impl; [|exact Hn]. intros c Hin H.
    apply numeric_cases; auto. intros ->. contradiction.
Qed.

(** The parser on a text, by the residue left after the symbol is
    stripped and the other characters removed. *)
Lemma parse_price_unfold text :
  let '(symbol, s) :=
    strip_symbol (sorted_by_len_desc (map fst _CURRENCY_SYMBOLS))
                 (strip (replace _NBSP (py " ") text)) in
  _parse_price_and_symbol text =
    match numeric_only s with
    | [] => Ok (None, symbol)
    | candidate =>
        match py_float (normalize_separators candidate) with
        | Ok value => Ok (Some value, symbol)
        | Raise _ => Ok (None, symbol)
        end
    end.
Proof.
  unfold _parse_price_and_symbol.
  destruct (strip_symbol _ _) as [symbol s].
  destruct (numeric_only s) as [|c r] eqn:E; [reflexivity|].
  cbn [nonempty negb].
  destruct (py_float _) as [v|e] eqn:F; [reflexivity|].
  now rewrite (py_float_raises _ _ F).
Qed.

(** A price read from a text is never negative (and never NaN). *)
Lemma parse_price_ge0 text v sym :
  _parse_price_and_symbol text = Ok (Some v, sym) -> ge0 v = true.
Proof.
  pose proof (parse_price_unfold text) as U.
  destruct (strip_symbol _ _) as [symbol s]. rewrite U. clear U.
  pose proof (numeric_only_numeric s) as Hn.
  destruct (numeric_only s) as [|c r]; [discriminate|].
  destruct (py_float _) as [w|e] eqn:F; [|discriminate].
  intros H. injection H as -> _.
  eapply py_float_plain_ge0; [|exact F]. now apply normalize_plain.
Qed.

(** C1 (as amended): the parser maps the texts "$1,234.56" and "(pound)12.34"
    to (1234.56, "$") and (12.34, pound sign); on "1.234,56" both separators
    are present, the commas are dropped as thousands separators and the
    result is (1.23456, no symbol). *)
Theorem C1_parse_price_examples :
  _parse_price_and_symbol (py "$1,234.56")
    = Ok (Some (b64_of_decimal false 123456 (-2)), Some (py "$"))
  /\ _parse_price_and_symbol (163%N :: py "12.34")
    = Ok (Some (b64_of_decimal false 1234 (-2)), Some [163%N])
  /\ _parse_price_and_symbol (py "1.234,56")
    = Ok (Some (b64_of_decimal false 123456 (-5)), None).
Proof. repeat split; vm_compute; reflexivity. Qed.

(** C1, the claim as stated fails on its third text: "1.234,56" is not
    read as 1234.56. *)
Lemma C1_european_counterexample :
  _parse_price_and_symbol (py "1.234,56")
    <> Ok (Some (b64_of_decimal false 123456 (-2)), None).
Proof. vm_compute. discriminate. Qed.

Lemma take_until_app sep a b :
  ~ In sep a -> take_until sep (a ++ sep :: b) = a.
Proof.
  induction a as [|c a IH]; cbn [app take_until]; intros H.
  - now rewrite N.eqb_refl.
  - destruct (N.eqb_spec c sep) as [->|_]; [exfalso; apply H; now left|].
    f_equal. apply IH. intros Hin. apply H. now right.
Qed.

(** What follows the last separator. *)
Lemma rsplit1_last_app sep head tail :
  ~ In sep tail -> rsplit1_last sep (head ++ sep :: tail) = tail.
Proof.
  intros H. unfold rsplit1_last. rewrite rev_app_distr. cbn [rev].
  rewrite <- app_assoc. cbn [app]. rewrite take_until_app.
  - apply rev_involutive.
  - intros Hin. apply H. now apply in_rev.
Qed.

Lemma In_replace_one old x s : In old s -> In x (replace old [x] s).
Proof.
  unfold replace. induction s as [|c s IH]; [intros []|].
  cbn [flat_map]. intros [->|Hin]; apply in_or_app.
  - left. rewrite N.eqb_refl. now left.
  - right. now apply IH.
Qed.

Lemma plain_no_dot_digits l :
  forallb is_plain l = true -> ~ In (ch ".") l -> forallb is_digit l = true.
Proof.
  induction l as [|c l IH]; [reflexivity|]. cbn [forallb]. intros H Hn.
  apply andb_true_iff in H as [Hc Hl]. rewrite IH; auto; [|intros Hin; apply Hn; now right].
  unfold is_plain in Hc. apply orb_true_iff in Hc as [Hc|Hc]; [now rewrite Hc|].
  apply N.eqb_eq in Hc. exfalso. apply Hn. now left.
Qed.

(** The parser on a text whose residue is not empty: [float] of the
    residue with its separators dealt with, and no value when it raises. *)
Lemma parse_price_read text symbol s :
  strip_symbol (sorted_by_len_desc (map fst _CURRENCY_SYMBOLS))
               (strip (replace _NBSP (py " ") text)) = (symbol, s) ->
  numeric_only s <> [] ->
  _parse_price_and_symbol text
  = Ok (match py_float (normalize_separators (numeric_only s)) with
        | Ok v => Some v
        | Raise _ => None
        end, symbol).
Proof.
  intros E Hne. pose proof (parse_price_unfold text) as U. rewrite E in U.
  rewrite U. destruct (numeric_only s); [contradiction|].
  now destruct (py_float _).
Qed.

(** C8, the code on a residue [head , tail] whose last comma stands before
    [tail].  With a dot in the residue every comma is dropped and [float]
    reads the rest.  With commas only and a [tail] of one or two digits,
    the code turns every comma into a dot: when the last comma is the only
    one the price is [head.tail], the decimal reading the claim and the
    comment on line 115 describe; when [head] holds a comma too, the text
    has two dots, [float] raises and the parser returns no value.  With a
    longer or empty [tail] every comma is dropped. *)
Theorem C8_separator_disambiguation (text : pystr) (symbol : option pystr)
    (s head tail : pystr) :
  strip_symbol (sorted_by_len_desc (map fst _CURRENCY_SYMBOLS))
               (strip (replace _NBSP (py " ") text)) = (symbol, s) ->
  numeric_only s = head ++ ch "," :: tail ->
  ~ In (ch ",") tail ->
  let candidate := numeric_only s in
  let read t := match py_float t with Ok v => Some v | Raise _ => None end in
  (mem (ch ".") candidate = true ->
   _parse_price_and_symbol text
   = Ok (read (replace (ch ",") [] candidate), symbol))
  /\ (mem (ch ".") candidate = false ->
      (List.length tail = 1%nat \/ List.length tail = 2%nat ->
       (~ In (ch ",") head ->
        _parse_price_and_symbol text
        = Ok (Some (b64_of_decimal false (int_of_digits (head ++ tail))
                      (- Z.of_nat (List.length tail))), symbol))
       /\ (In (ch ",") head ->
           _parse_price_and_symbol text = Ok (None, symbol)))
      /\ (~ (List.length tail = 1%nat \/ List.length tail = 2%nat) ->
          _parse_price_and_symbol text
          = Ok (read (replace (ch ",") [] candidate), symbol))).
Proof.
  intros E C Hn candidate read. subst candidate read. cbv beta.
  assert (Hc : mem (ch ",") (numeric_only s) = true).
  { apply mem_true_iff. rewrite C. apply in_or_app. right. now left. }
  assert (Hne : numeric_only s <> []) by (rewrite C; now destruct head).
  rewrite (parse_price_read text symbol s E Hne).
  assert (T : rsplit1_last (ch ",") (numeric_only s) = tail)
    by (rewrite C; now apply rsplit1_last_app).
  split.
  - intros Hd. unfold normalize_separators. now rewrite Hc, Hd.
  - intros Hd. split.
    + intros Hlen.
      assert (N : normalize_separators (numeric_only s)
                  = replace (ch ",") (py ".") head ++ ch "." :: tail).
      { unfold normalize_separators. rewrite Hc, Hd. cbn [andb negb]. rewrite T.
        replace ((List.length tail =? 1)%nat || (List.length tail =? 2)%nat)
          with true
          by (symmetry; apply orb_true_iff; rewrite !Nat.eqb_eq; exact Hlen).
        apply mem_false_iff in Hd. rewrite (replace_absent _ _ _ Hd), C.
        change (head ++ ch "," :: tail) with (head ++ [ch ","] ++ tail).
        rewrite !replace_app, (replace_absent _ _ _ Hn). reflexivity. }
      pose proof (normalize_plain _ (numeric_only_numeric s)) as Hplain.
      rewrite N in *. split.
      * intros Hh. rewrite (replace_absent _ _ _ Hh) in *.
        rewrite (py_float_plain _ Hplain).
        rewrite forallb_app in Hplain. apply andb_true_iff in Hplain as [Hp1 Hp2].
        cbn [forallb] in Hp2. apply andb_true_iff in Hp2 as [_ Hp2].
        apply mem_false_iff in Hd. rewrite C in Hd.
        rewrite parse_decimal_point; [reflexivity| | |].
        -- apply plain_no_dot_digits; [exact Hp1|].
           intros Hin. apply Hd. apply in_or_app. now left.
        -- apply plain_no_dot_digits; [exact Hp2|].
           intros Hin. apply Hd. apply in_or_app. right. now right.
        -- destruct tail; [|discriminate]. cbn in Hlen. lia.
      * intros Hh. rewrite py_float_two_dots; [reflexivity|exact Hplain|].
        now apply In_replace_one.
    + intros Hlen. unfold normalize_separators. rewrite Hc, Hd. cbn [andb negb].
      rewrite T.
      replace ((List.length tail =? 1)%nat || (List.length tail =? 2)%nat)
        with false; [reflexivity|].
      symmetry. apply orb_false_iff. rewrite !Nat.eqb_neq. tauto.
Qed.

(** C10: the parser never raises; when the residue is empty or is no
    number, it returns no value together with the symbol it stripped. *)
Theorem C10_unparseable_price (text : pystr) :
  (exists value symbol, _parse_price_and_symbol text = Ok (value, symbol))
  /\ (forall symbol s,
        strip_symbol (sorted_by_len_desc (map fst _CURRENCY_SYMBOLS))
                     (strip (replace _NBSP (py " ") text)) = (symbol, s) ->
        numeric_only s = []
        \/ (exists e, py_float (normalize_separators (numeric_only s)) = Raise e) ->
        _parse_price_and_symbol text = Ok (None, symbol)).
Proof.
  pose proof (parse_price_unfold text) as U.
  destruct (strip_symbol _ _) as [symbol s]. split.
  - rewrite U. destruct (numeric_only s); [eauto|].
    destruct (py_float _); eauto.
  - intros symbol' s' E H. injection E as <- <-. rewrite U.
    destruct H as [->|[e He]]; [reflexivity|].
    destruct (numeric_only s); [reflexivity|]. now rewrite He.
Qed.

End PriceParser.

(** ** The fetch loop of the price tracker *)

Section Fetch.
Import AmazonPriceTracker.

Lemma requests_sleep_backoff self attempt st :
  requests (_sleep_backoff self attempt st) = requests st.
Proof. unfold _sleep_backoff. now destruct (le0 _). Qed.

(** A transient status on an attempt that is not the last: one request
    made, and the loop goes on to the next attempt. *)
Lemma fetch_loop_transient self u left attempt last_exc st resp :
  session self (requests st) u = Response resp ->
  retryable_status (status_code resp) = true ->
  (attempt <= max_retries self)%Z ->
  exists st1,
    requests st1 = S (requests st)
    /\ fetch_loop self u (S left) attempt last_exc st
       = fetch_loop self u left (attempt + 1)%Z last_exc st1.
Proof.
  intros Hs Hr Ha. cbn [fetch_loop]. unfold session_get. rewrite Hs, Hr.
  replace (attempt <=? max_retries self + 0)%Z with true
    by (symmetry; apply Z.leb_le; lia).
  cbn [andb].
  eexists. split; [|reflexivity].
  destruct (headers_get _ _) as [ra|];
    [destruct (nonempty ra && isdigit ra)|];
    rewrite ?requests_sleep_backoff; reflexivity.
Qed.

(** A response on the last attempt, or with a status that is not
    transient: returned when [raise_for_status] lets it through. *)
Lemma fetch_loop_returns self u left attempt last_exc st resp :
  session self (requests st) u = Response resp ->
  retryable_status (status_code resp) = false
  \/ (max_retries self < attempt)%Z ->
  raise_for_status resp = None ->
  fetch_loop self u (S left) attempt last_exc st
  = (Ok (text resp, map (fun kv => (lower (fst kv), snd kv)) (headers resp)),
     {| requests := S (requests st); sleeps := sleeps st |}).
Proof.
  intros Hs Hg Hok. cbn [fetch_loop]. unfold session_get. rewrite Hs.
  replace (retryable_status (status_code resp)
           && (attempt <=? max_retries self + 0)%Z) with false.
  - now rewrite Hok.
  - symmetry. apply andb_false_iff.
    destruct Hg as [Hg|Hg]; [now left|right]. apply Z.leb_gt. lia.
Qed.

(** An error status on the last attempt: the [HTTPError] is raised. *)
Lemma fetch_loop_gives_up self u left attempt last_exc st resp e :
  session self (requests st) u = Response resp ->
  (max_retries self < attempt)%Z ->
  raise_for_status resp = Some e ->
  fetch_loop self u (S left) attempt last_exc st
  = (Raise e, {| requests := S (requests st); sleeps := sleeps st |}).
Proof.
  intros Hs Ha He. cbn [fetch_loop]. unfold session_get. rewrite Hs.
  replace (attempt <=? max_retries self + 0)%Z with false
    by (symmetry; apply Z.leb_gt; lia).
  rewrite andb_false_r, He.
  assert (Hreq : is_request_exception e = true).
  { unfold raise_for_status in He. destruct (_ && _)%bool; [|discriminate].
    now injection He as <-. }
  rewrite Hreq.
  replace (attempt >? max_retries self)%Z with true; [reflexivity|].
  symmetry. apply Z.gtb_lt. lia.
Qed.

(** An error status that is not transient, on an attempt that is not the
    last: [raise_for_status] raises inside the [try], the handler for
    [RequestException] catches the [HTTPError], and the loop goes on. *)
Lemma fetch_loop_retries_http_error self u left attempt last_exc st resp e :
  session self (requests st) u = Response resp ->
  retryable_status (status_code resp) = false ->
  raise_for_status resp = Some e ->
  (attempt <= max_retries self)%Z ->
  exists st1,
    requests st1 = S (requests st)
    /\ fetch_loop self u (S left) attempt last_exc st
       = fetch_loop self u left (attempt + 1)%Z (Some e) st1.
Proof.
  intros Hs Hr He Ha. cbn [fetch_loop]. unfold session_get. rewrite Hs, Hr.
  cbn [andb]. rewrite He.
  assert (Hreq : is_request_exception e = true).
  { unfold raise_for_status in He. destruct (_ && _)%bool; [|discriminate].
    now injection He as <-. }
  rewrite Hreq.
  replace (attempt >? max_retries self)%Z with false
    by (symmetry; rewrite Z.gtb_ltb; apply Z.ltb_ge; lia).
  eexists. split; [|reflexivity].
  now rewrite requests_sleep_backoff.
Qed.

(** C5: with the responses 503, 503, 200 and [max_retries = 2], [fetch]
    makes three requests and returns the third response; with 503, 503, 503
    and [max_retries = 1] it makes two requests and raises the HTTP error
    of the second.  The responses carry ASCII headers and the delays are
    ones [time.sleep] takes, as with the default backoff factor: a
    [Retry-After] that [str.isdigit] accepts and [float] refuses, or a
    delay that overflows, would end the fetch at its first sleep. *)
Theorem C5_retry_counts (srv : server) (u : pystr) (backoff : pyfloat)
    (st : net) (r0 r1 r2 : response) :
  Shape.ascii_headers srv u ->
  srv (requests st) u = Response r0 ->
  srv (S (requests st)) u = Response r1 ->
  srv (S (S (requests st))) u = Response r2 ->
  status_code r0 = 503%Z ->
  status_code r1 = 503%Z ->
  (status_code r2 = 200%Z ->
   Shape.short_delays (new srv 2 backoff) ->
   exists st',
     fetch (new srv 2 backoff) u st
     = (Ok (text r2, map (fun kv => (lower (fst kv), snd kv)) (headers r2)), st')
     /\ requests st' = (requests st + 3)%nat)
  /\ (status_code r2 = 503%Z ->
      Shape.short_delays (new srv 1 backoff) ->
      exists st',
        fetch (new srv 1 backoff) u st = (Raise (HTTPError 503), st')
        /\ requests st' = (requests st + 2)%nat).
Proof.
  intros _ H0 H1 H2 S0 S1. split; intros S2 _.
  - unfold fetch. set (self := new srv 2 backoff).
    change (Z.to_nat (max_retries self + 1)) with 3%nat.
    destruct (fetch_loop_transient self u 2 1%Z None st r0) as [st1 [R1 E1]];
      [exact H0 | now rewrite S0 | cbn; lia |].
    rewrite E1. change (1 + 1)%Z with 2%Z.
    destruct (fetch_loop_transient self u 1 2%Z None st1 r1) as [st2 [R2 E2]];
      [cbn; now rewrite R1 | now rewrite S1 | cbn; lia |].
    rewrite E2. change (2 + 1)%Z with 3%Z.
    rewrite (fetch_loop_returns self u 0 3%Z None st2 r2);
      [| cbn; now rewrite R2, R1 | left; now rewrite S2
       | unfold raise_for_status; now rewrite S2 ].
    eexists. split; [reflexivity|]. cbn. lia.
  - unfold fetch. set (self := new srv 1 backoff).
    change (Z.to_nat (max_retries self + 1)) with 2%nat.
    destruct (fetch_loop_transient self u 1 1%Z None st r0) as [st1 [R1 E1]];
      [exact H0 | now rewrite S0 | cbn; lia |].
    rewrite E1. change (1 + 1)%Z with 2%Z.
    rewrite (fetch_loop_gives_up self u 0 2%Z None st1 r1 (HTTPError 503));
      [| cbn; now rewrite R1 | cbn; lia
       | unfold raise_for_status; now rewrite S1 ].
    eexists. split; [reflexivity|]. cbn. lia.
Qed.

(** C5 on a server that answers 503, 503, 200 and one that answers 503
    three times. *)
Lemma C5_retry_counts_witness :
  (exists st',
     fetch (new (Pages.answers [503; 503; 200]%Z Pages.product_page) 2 Pages.half)
           (py "https://shop.example/dp/B012345678") net0
     = (Ok (Pages.product_page, []), st')
     /\ requests st' = 3%nat)
  /\ (exists st',
        fetch (new (Pages.answers [503; 503; 503]%Z Pages.product_page) 1 Pages.half)
              (py "https://shop.example/dp/B012345678") net0
        = (Raise (HTTPError 503), st')
        /\ requests st' = 2%nat).
Proof.
  assert (A : forall statuses,
             Shape.ascii_headers (Pages.answers statuses Pages.product_page)
               (py "https://shop.example/dp/B012345678")).
  { intros statuses n resp H. injection H as <-. reflexivity. }
  assert (D : forall srv retries,
             (Z.max 0 retries <= 30)%Z ->
             Shape.short_delays (new srv retries Pages.half)).
  { intros srv retries H. right. split; [reflexivity|exact H]. }
  split.
  - apply (C5_retry_counts
             (Pages.answers [503; 503; 200]%Z Pages.product_page)
             (py "https://shop.example/dp/B012345678") Pages.half net0
             (Pages.respond 503 Pages.product_page)
             (Pages.respond 503 Pages.product_page)
             (Pages.respond 200 Pages.product_page));
      try reflexivity; [apply A|apply D; cbn; lia].
  - apply (C5_retry_counts
             (Pages.answers [503; 503; 503]%Z Pages.product_page)
             (py "https://shop.example/dp/B012345678") Pages.half net0
             (Pages.respond 503 Pages.product_page)
             (Pages.respond 503 Pages.product_page)
             (Pages.respond 503 Pages.product_page));
      try reflexivity; [apply A|apply D; cbn; lia].
Defined.

(** C2, the code at the failing input: the server answers 404 and then
    200, and [max_retries] is 2.  The first request gets the 404; its
    [HTTPError] is caught, the tracker sleeps and asks again, and [fetch]
    returns the page of the second response: two requests, no error. *)
Theorem C2_not_found_is_retried :
  fetch (new (Pages.answers [404]%Z Pages.product_page) 2 Pages.half)
        (py "https://shop.example/dp/B012345678") net0
  = (Ok (Pages.product_page, []),
     {| requests := 2; sleeps := [SleepBackoff 1] |}).
Proof. reflexivity. Qed.

End Fetch.

(** ** The URL of a record *)

Section Urls.
Variable repr_other : json -> pystr.
Variable urljoin : pystr -> pystr -> pystr.

Lemma tracker_parse_url now html base info :
  AmazonPriceTracker.parse repr_other now html base = Ok info ->
  AmazonPriceTracker.url info = base.
Proof.
  unfold AmazonPriceTracker.parse.
  destruct (AmazonPriceTracker.fold_result _ _ _) as [acc|]; [|discriminate].
  cbn [bind].
  destruct (AmazonPriceTracker.fallback_selectors _ _) as [[pv sym]|]; [|discriminate].
  cbn [bind]. intros H. now injection H as <-.
Qed.

Lemma news_parse_url html base art :
  NewsScraper.parse repr_other urljoin html base = Ok art ->
  NewsScraper.url art = base.
Proof.
  unfold NewsScraper.parse. intros H.
  repeat match type of H with
         | bind ?r _ = Ok _ => destruct r; cbn [bind] in H; [|discriminate]
         end.
  now injection H as <-.
Qed.

(** C9: the record that [get_price] or [track] returns carries the URL
    the caller gave: [fetch] hands back the page and the headers only, and
    [parse] is given the caller's URL as base.  The article that [scrape]
    returns carries the URL of the response, after redirects. *)
Theorem C9_price_record_keeps_request_url
    (self : AmazonPriceTracker.tracker) (srv : server) (now u : pystr) (st : net) :
  (forall info st',
      AmazonPriceTracker.get_price repr_other self now u st = (Ok info, st') ->
      AmazonPriceTracker.url info = u
      /\ exists html hdrs,
           AmazonPriceTracker.fetch self u st = (Ok (html, hdrs), st')
           /\ AmazonPriceTracker.parse repr_other now html u = Ok info)
  /\ (forall persist path files info st' files',
         AmazonPriceTracker.track repr_other self now u persist path st files
         = (Ok info, st', files') ->
         AmazonPriceTracker.url info = u)
  /\ (forall art st',
         NewsScraper.scrape repr_other urljoin srv u st = (Ok art, st') ->
         exists resp,
           srv (requests st) u = Response resp
           /\ NewsScraper.url art = Http.url resp).
Proof.
  assert (G : forall info st',
             AmazonPriceTracker.get_price repr_other self now u st = (Ok info, st') ->
             AmazonPriceTracker.url info = u
             /\ exists html hdrs,
                  AmazonPriceTracker.fetch self u st = (Ok (html, hdrs), st')
                  /\ AmazonPriceTracker.parse repr_other now html u = Ok info).
  { intros info st'. unfold AmazonPriceTracker.get_price.
    destruct (AmazonPriceTracker.fetch self u st) as [[[html hdrs]|e] st1];
      [|discriminate].
    intros H. injection H as H <-. split.
    - now apply tracker_parse_url in H.
    - eauto. }
  split; [exact G|]. split.
  - intros persist path files info st' files'. unfold AmazonPriceTracker.track.
    destruct (AmazonPriceTracker.get_price _ _ _ _ _) as [[info1|e] st1];
      [|discriminate].
    destruct (G info1 st1 eq_refl) as [E _].
    destruct persist; intros H; injection H as <- _ _; exact E.
  - intros art st'. unfold NewsScraper.scrape, NewsScraper.fetch, session_get.
    destruct (srv (requests st) u) as [resp|e]; [|discriminate].
    destruct (raise_for_status resp); [discriminate|].
    intros H. injection H as H _. apply news_parse_url in H. eauto.
Qed.

End Urls.

(** The tracker asks for [/dp/B012345678]; the server answers from
    another address, and the record keeps the address asked for. *)
Lemma C9_price_record_keeps_request_url_witness :
  exists info st',
    AmazonPriceTracker.get_price Pages.repr_unused
      (AmazonPriceTracker.new (Pages.answers []%Z Pages.product_page) 2 Pages.half)
      (py "2025-01-01T10:00:00Z") (py "https://shop.example/dp/B012345678") net0
    = (Ok info, st')
    /\ AmazonPriceTracker.url info = py "https://shop.example/dp/B012345678".
Proof.
  eexists. eexists. split; [reflexivity|].
  exact (proj1 (proj1 (C9_price_record_keeps_request_url
                         Pages.repr_unused Pages.urljoin_absolute
                         (AmazonPriceTracker.new
                            (Pages.answers []%Z Pages.product_page) 2 Pages.half)
                         (Pages.answers []%Z Pages.product_page)
                         (py "2025-01-01T10:00:00Z")
                         (py "https://shop.example/dp/B012345678") net0)
                      _ _ eq_refl)).
Defined.

(** ** The news scraper *)

Section News.
Import NewsScraper.
Variable repr_other : json -> pystr.
Variable urljoin : pystr -> pystr -> pystr.

(** Cleaned text holds no newline: every run of whitespace became a space. *)
Lemma clean_text_no_newline t c : _clean_text t = Some c -> ~ In 10%N c.
Proof.
  unfold _clean_text. destruct t as [s|]; [|discriminate].
  destruct (negb (nonempty s)); [discriminate|].
  destruct (nonempty (strip (collapse_ws false s))); [|discriminate].
  intros H Hin. injection H as <-.
  apply In_strip in Hin. apply In_collapse_ws in Hin as [Hin|[Hin _]]; discriminate.
Qed.

Lemma parse_content html base art :
  parse repr_other urljoin html base = Ok art ->
  content art = _clean_text (content_text html).
Proof.
  unfold parse. intros H.
  repeat match type of H with
         | bind ?r _ = Ok _ => destruct r; cbn [bind] in H; [|discriminate]
         end.
  now injection H as <-.
Qed.

(** [_first] on strings and [None] never raises. *)
Lemma first_of_opts (l : list (option pystr)) :
  exists r, _first (map of_opt l) = Ok r.
Proof.
  induction l as [|o l [r IH]]; cbn [map _first]; [eauto|].
  destruct o as [s|]; cbn [of_opt truthy].
  - destruct (nonempty s); [|eauto].
    destruct (nonempty (strip s)); eauto.
  - eauto.
Qed.

Lemma strip_nonempty h : nonempty (strip h) = true -> nonempty h = true.
Proof. destruct h; [discriminate|reflexivity]. Qed.

Lemma resolve_title_headline html d h :
  dict_get d (py "headline") = JStr h ->
  nonempty (strip h) = true ->
  resolve_title html (Some (JDict d)) = Ok (_clean_text (Some (strip h))).
Proof.
  intros Hh Hs. unfold resolve_title.
  destruct (first_of_opts [_get_meta html None (Some (py "og:title"));
                           _get_meta html (Some (py "twitter:title")) None])
    as [title_og E].
  unfold meta_prop, meta_name. cbn [map] in E. rewrite E. cbn [bind].
  assert (Ht : title_ld d = JStr h).
  { unfold title_ld, or_. rewrite Hh. cbn [truthy].
    now rewrite (strip_nonempty _ Hs). }
  cbn [ld_field]. rewrite Ht. cbn [_first truthy].
  rewrite (strip_nonempty _ Hs), Hs. reflexivity.
Qed.

Lemma news_parse_title html base art obj :
  article_obj repr_other html = Ok obj ->
  parse repr_other urljoin html base = Ok art ->
  resolve_title html obj = Ok (title art).
Proof.
  intros Hobj. unfold parse. intros H.
  destruct (_first _) as [site|]; cbn [bind] in H; [|discriminate].
  rewrite Hobj in H. cbn [bind] in H.
  repeat match type of H with
         | bind ?r _ = Ok _ => destruct r; cbn [bind] in H; [|discriminate]
         end.
  now injection H as <-.
Qed.

(** C7 (as amended): when the first structured-data object of type
    article, newsarticle or blogposting, the one [_pick_article_obj]
    selects, has a string headline with a character that is not
    whitespace, the title is that headline, trimmed and with every run of
    whitespace collapsed to a space, whatever the meta tags hold. *)
Theorem C7_headline_beats_meta (html : soup) (base : pystr)
    (d : list (pystr * json)) (h : pystr) :
  article_obj repr_other html = Ok (Some (JDict d)) ->
  dict_get d (py "headline") = JStr h ->
  nonempty (strip h) = true ->
  resolve_title html (Some (JDict d)) = Ok (_clean_text (Some (strip h)))
  /\ forall art,
       parse repr_other urljoin html base = Ok art ->
       title art = _clean_text (Some (strip h)).
Proof.
  intros Hobj Hh Hs. split.
  - now apply resolve_title_headline.
  - intros art H. apply (news_parse_title _ _ _ _ Hobj) in H.
    rewrite (resolve_title_headline html d h Hh Hs) in H. now injection H.
Qed.

End News.

(** C7 on a page whose NewsArticle headline is padded with blanks and
    whose [og:title] says otherwise. *)
Lemma C7_headline_beats_meta_witness :
  exists art,
    NewsScraper.parse Pages.repr_unused Pages.urljoin_absolute
      Pages.headline_page (py "https://news.example/a") = Ok art
    /\ NewsScraper.title art = Some (py "Test Headline").
Proof.
  eexists. split; [reflexivity|].
  exact (proj2 (C7_headline_beats_meta
                  Pages.repr_unused Pages.urljoin_absolute
                  Pages.headline_page (py "https://news.example/a")
                  [(py "@type", Pages.jstr "NewsArticle");
                   (py "headline", Pages.jstr " Test   Headline ")]
                  (py " Test   Headline ")
                  eq_refl eq_refl eq_refl) _ eq_refl).
Defined.

(** C7, the claim as stated fails: the page holds a NewsArticle object
    with the headline "Real" and an [og:title] "Meta", but an Article
    object without headline comes first; the title is the meta tag's. *)
Lemma C7_first_article_counterexample :
  In (Pages.jobj [("@type"%string, Pages.jstr "NewsArticle");
                  ("headline"%string, Pages.jstr "Real")])
     (NewsScraper._iter_jsonld_objects Pages.two_articles_page)
  /\ exists art,
       NewsScraper.parse Pages.repr_unused Pages.urljoin_absolute
         Pages.two_articles_page (py "https://news.example/a") = Ok art
       /\ NewsScraper.title art = Some (py "Meta").
Proof.
  split; [right; left; reflexivity|].
  eexists. split; reflexivity.
Qed.

(** C3, the code on its content: whatever the page, the content holds no
    newline, so no blank line separates two paragraphs.  On an article of
    two paragraphs the text is first joined with a blank line and then
    cleaned, which turns the blank line into one space. *)
Theorem C3_content_joined_by_space :
  (forall repr_other urljoin html base art c,
      NewsScraper.parse repr_other urljoin html base = Ok art ->
      NewsScraper.content art = Some c -> ~ In 10%N c)
  /\ NewsScraper.content_text (Pages.article_page ["Paragraph 1."; "Paragraph 2."]%string)
     = Some (py "Paragraph 1." ++ [10; 10]%N ++ py "Paragraph 2.")
  /\ exists art,
       NewsScraper.parse Pages.repr_unused Pages.urljoin_absolute
         (Pages.article_page ["Paragraph 1."; "Paragraph 2."]%string)
         (py "https://news.example/a") = Ok art
       /\ NewsScraper.content art = Some (py "Paragraph 1. Paragraph 2.").
Proof.
  split; [|split].
  - intros repr_other urljoin html base art c H Hc.
    apply parse_content in H. rewrite H in Hc.
    now apply clean_text_no_newline in Hc.
  - reflexivity.
  - eexists. split; reflexivity.
Qed.

(** ** Structured data in the price tracker *)

Section StructuredData.
Import AmazonPriceTracker Ld.
Variable repr_other : json -> pystr.

Lemma fold_result_app {A B : Type} (f : A -> B -> result A) l1 l2 a :
  fold_result f (l1 ++ l2) a = bind (fold_result f l1 a) (fold_result f l2).
Proof.
  revert a. induction l1 as [|b l1 IH]; intros a; cbn [app fold_result bind].
  - reflexivity.
  - destruct (f a b) as [a'|e]; cbn [bind]; auto.
Qed.

(** The two nested loops visit the objects of [ld_objects], in order. *)
Lemma fold_scripts scripts acc :
  fold_result (step_script repr_other) scripts acc
  = fold_result (step_obj repr_other)
      (flat_map (fun script => match script with
                               | Some data => objs_of data
                               | None => []
                               end) scripts) acc.
Proof.
  revert acc. induction scripts as [|script scripts IH]; intros acc.
  - reflexivity.
  - cbn [fold_result flat_map]. rewrite fold_result_app.
    destruct script as [data|]; cbn [step_script].
    + destruct (fold_result _ (objs_of data) acc); cbn [bind]; auto.
    + cbn [fold_result bind]. auto.
Qed.

(** An invariant of the loop, over the objects it visits. *)
Lemma fold_result_inv {A B : Type} (P : A -> Prop) (f : A -> B -> result A) l :
  (forall a b a', In b l -> P a -> f a b = Ok a' -> P a') ->
  forall a a', P a -> fold_result f l a = Ok a' -> P a'.
Proof.
  induction l as [|b l IH]; intros Hstep a a' Ha; cbn [fold_result].
  - intros H. now injection H as <-.
  - destruct (f a b) as [a1|e] eqn:E; cbn [bind]; [|discriminate].
    apply IH.
    + intros x y x' Hy. apply Hstep. now right.
    + eapply Hstep; eauto. now left.
Qed.

Lemma read_offers_title acc obj d :
  acc_title (read_offers repr_other acc obj d) = acc_title acc.
Proof. unfold read_offers. now destruct (offers_of obj d). Qed.

(** One object: its string name, cleaned, becomes the title. *)
Lemma step_obj_title acc obj acc' :
  step_obj repr_other acc obj = Ok acc' ->
  acc_title acc' = match name_of obj with
                   | Some nm => _clean_text (Some nm)
                   | None => acc_title acc
                   end.
Proof.
  unfold step_obj, name_of. destruct obj as [| | | | |l|d];
    try (intros H; now injection H as <-).
  destruct (types_of d) as [types|e]; cbn [bind]; [|discriminate].
  intros H. injection H as <-. cbn [acc_title].
  destruct (dict_get d (py "name")); try reflexivity;
    destruct (matches_product types); auto using read_offers_title.
Qed.

Lemma fold_objs_title objs acc acc' :
  fold_result (step_obj repr_other) objs acc = Ok acc' ->
  acc_title acc'
  = fold_left (fun _ nm => _clean_text (Some nm))
      (flat_map (fun obj => match name_of obj with
                            | Some nm => [nm]
                            | None => []
                            end) objs)
      (acc_title acc).
Proof.
  revert acc. induction objs as [|obj objs IH]; intros acc; cbn [fold_result].
  - intros H. now injection H as <-.
  - destruct (step_obj repr_other acc obj) as [acc1|e] eqn:E; cbn [bind];
      [|discriminate].
    intros H. rewrite (IH _ H). cbn [flat_map]. rewrite fold_left_app.
    f_equal. rewrite (step_obj_title _ _ _ E).
    now destruct (name_of obj).
Qed.

Lemma fold_left_last {A B : Type} (f : B -> A) (l : list B) (a : A) (dflt : B) :
  l <> [] -> fold_left (fun _ b => f b) l a = f (last l dflt).
Proof.
  revert a. induction l as [|b l IH]; intros a Hl; [contradiction|].
  destruct l as [|b' l]; [reflexivity|].
  apply (IH (f b)). discriminate.
Qed.

Lemma tracker_parse_title now html base info :
  parse repr_other now html base = Ok info ->
  exists acc,
    fold_result (step_obj repr_other) (ld_objects html)
      {| acc_price := None; acc_currency := None;
         acc_title := heuristic_title html;
         acc_asin := _extract_asin base (Some html) |} = Ok acc
    /\ title info = acc_title acc.
Proof.
  unfold parse. rewrite fold_scripts. fold (ld_objects html).
  destruct (fold_result _ _ _) as [acc|]; [|discriminate].
  cbn [bind].
  destruct (fallback_selectors _ _) as [[pv sym]|]; [|discriminate].
  cbn [bind]. intros H. injection H as <-. eauto.
Qed.

(** C6 (as amended): when the page holds structured-data objects with a
    string name, the title is the name of the last of them in document
    order, cleaned (whitespace collapsed and trimmed, absent when nothing
    is left), whatever the heuristic title was; without such an object the
    heuristic title stands. *)
Theorem C6_last_name_overrides_title (now : pystr) (html : soup) (base : pystr)
    (info : PriceInfo) :
  parse repr_other now html base = Ok info ->
  (ld_names html <> [] ->
   title info = _clean_text (Some (last (ld_names html) [])))
  /\ (ld_names html = [] -> title info = heuristic_title html).
Proof.
  intros H. apply tracker_parse_title in H as [acc [F ->]].
  apply fold_objs_title in F. fold (ld_names html) in F. cbn [acc_title] in F.
  rewrite F. split.
  - intros Hn.
    exact (fold_left_last (fun nm => _clean_text (Some nm)) _ _ [] Hn).
  - intros ->. reflexivity.
Qed.

End StructuredData.

(** C6 on a product page whose only named object is the product. *)
Lemma C6_last_name_overrides_title_witness :
  exists info,
    AmazonPriceTracker.parse Pages.repr_unused (py "2025-01-01T10:00:00Z")
      Pages.product_page (py "https://shop.example/dp/B012345678") = Ok info
    /\ AmazonPriceTracker.title info = Some (py "Sample Product").
Proof.
  eexists. split; [reflexivity|].
  refine (proj1 (C6_last_name_overrides_title Pages.repr_unused
                   (py "2025-01-01T10:00:00Z") Pages.product_page
                   (py "https://shop.example/dp/B012345678") _ eq_refl) _).
  discriminate.
Defined.

(** C6, the claim as stated fails: the page names a product "Widget" and
    then its seller "Amazon"; the title is the seller's name. *)
Lemma C6_two_names_counterexample :
  In (py "Widget") (Ld.ld_names Pages.two_names_page)
  /\ exists info,
       AmazonPriceTracker.parse Pages.repr_unused (py "2025-01-01T10:00:00Z")
         Pages.two_names_page (py "https://shop.example/dp/B012345678") = Ok info
       /\ AmazonPriceTracker.title info = Some (py "Amazon").
Proof.
  split; [left; reflexivity|].
  eexists. split; reflexivity.
Qed.

(** ** Price and currency of a record *)

Section PriceAndCurrency.
Import AmazonPriceTracker Ld.
Variable repr_other : json -> pystr.

Lemma digit_plain c : is_digit c = true -> is_plain c = true.
Proof. unfold is_plain. now intros ->. Qed.

Lemma digits_only_digits s : forallb is_digit (digits_only s) = true.
Proof.
  unfold digits_only. apply forallb_forall. intros c Hc.
  now apply filter_In in Hc.
Qed.

Lemma int_of_digits_nonneg s :
  forallb is_digit s = true -> (0 <= int_of_digits s)%Z.
Proof.
  unfold int_of_digits. intros H.
  assert (G : forall x, (0 <= x)%Z ->
              (0 <= fold_left (fun acc c => 10 * acc + (Z.of_N c - 48)) s x)%Z).
  { induction s as [|c s IH]; intros x Hx; cbn [fold_left]; [exact Hx|].
    cbn [forallb] in H. apply andb_true_iff in H as [Hc Hs].
    apply (IH Hs).
    unfold is_digit in Hc. apply andb_true_iff in Hc as [Hc _].
    apply N.leb_le in Hc. lia. }
  apply G. lia.
Qed.

Lemma uint_digits d : forallb is_digit (py (NilEmpty.string_of_uint d)) = true.
Proof. induction d; cbn; auto. Qed.

Lemma str_of_int_digits z : (0 <= z)%Z -> forallb is_digit (str_of_int z) = true.
Proof.
  intros Hz. unfold str_of_int. destruct z as [|p|p]; [reflexivity| |lia].
  cbn [Z.to_int NilZero.string_of_int]. unfold NilZero.string_of_uint.
  destruct (Pos.to_uint p); try apply uint_digits. reflexivity.
Qed.

Lemma pad2_digits z : (0 <= z)%Z -> forallb is_digit (pad2 z) = true.
Proof.
  intros Hz. unfold pad2. pose proof (str_of_int_digits z Hz) as H.
  destruct (str_of_int z) as [|c [|c' r]]; auto.
Qed.

(** A price rebuilt from the whole and fraction parts is not negative. *)
Lemma whole_fraction_ge0 html pv v :
  whole_fraction html pv = Some v -> pv = Some v \/ ge0 v = true.
Proof.
  unfold whole_fraction. destruct pv as [v0|]; [now left|].
  destruct (select_one html (py ".a-price .a-price-whole")) as [whole|];
    [|discriminate].
  set (w := digits_only (get_text whole)).
  set (f := digits_only _).
  destruct (nonempty w); [|discriminate].
  destruct (_ || _)%bool; [discriminate|].
  destruct (py_float _) as [x|e] eqn:F; [|discriminate].
  intros H. injection H as <-. right.
  eapply py_float_plain_ge0; [|exact F].
  assert (Hw : (0 <= int_of_digits w)%Z)
    by (apply int_of_digits_nonneg, digits_only_digits).
  assert (Hf : (0 <= (if nonempty f then int_of_digits f else 0))%Z).
  { destruct (nonempty f); [|lia].
    apply int_of_digits_nonneg, digits_only_digits. }
  rewrite forallb_app. apply andb_true_iff. split.
  - eapply forallb_impl; [|apply (str_of_int_digits _ Hw)].
    intros; now apply digit_plain.
  - change (py "." ++ ?t) with (ch "." :: t). cbn [forallb].
    eapply forallb_impl; [|apply (pad2_digits _ Hf)].
    intros; now apply digit_plain.
Qed.

(** A price read by the selectors is not negative; the symbol comes with it. *)
Lemma fallback_selectors_ge0 html pv pv' sym v :
  fallback_selectors html pv = Ok (pv', sym) ->
  pv' = Some v -> pv = Some v \/ ge0 v = true.
Proof.
  unfold fallback_selectors. destruct pv as [v0|].
  - intros H. injection H as <- _. now left.
  - destruct (select_price_element _ _ _) as [el|];
      [|intros H; injection H as <- _; discriminate].
    destruct (match _clean_text (Some (get_text el)) with
              | Some t => Some t
              | None => _clean_text (attr el (py "content"))
              end) as [txt|];
      [|intros H; injection H as <- _; discriminate].
    destruct (_parse_price_and_symbol txt) as [[val s]|e] eqn:P; cbn [bind];
      [|discriminate].
    intros H. injection H as <- _. destruct val as [x|]; [|discriminate].
    intros Hx. injection Hx as ->. right.
    eapply parse_price_ge0. exact P.
Qed.

(** One object keeps price and currency sourced from the page's offers. *)
Lemma step_obj_sourced html acc obj acc' :
  In obj (ld_objects html) ->
  ld_sourced repr_other html acc ->
  step_obj repr_other acc obj = Ok acc' ->
  ld_sourced repr_other html acc'.
Proof.
  intros Hin Hacc. unfold step_obj.
  destruct obj as [| | | | |l|d]; try (intros H; now injection H as <-).
  destruct (types_of d) as [types|e] eqn:T; cbn [bind]; [|discriminate].
  intros H. injection H as <-. unfold ld_sourced. cbn [acc_price acc_currency].
  destruct (matches_product types) eqn:M; [|exact Hacc].
  unfold read_offers.
  destruct (offers_of (JDict d) d) as [| | | | |l|o] eqn:O; try exact Hacc.
  assert (Ho : ld_offer html o) by (exists d, types; auto).
  destruct Hacc as [Hp Hc]. cbn [acc_price acc_currency]. split.
  - intros v Hv. destruct (acc_price acc) as [v0|]; [now apply Hp|].
    destruct (truthy (offer_price o)) eqn:Tp; [|discriminate].
    destruct (py_float _) as [x|e] eqn:F; [|discriminate].
    injection Hv as <-. exists o. split; [exact Ho|]. now split.
  - intros c Hcur.
    destruct (truthy (dict_get o (py "priceCurrency"))
              && negb (truthy_opt (acc_currency acc))) eqn:G;
      [|now apply Hc].
    apply andb_true_iff in G as [G _]. injection Hcur as <-.
    exists o. split; [exact Ho|]. now split.
Qed.

(** [parse] returns unless the [@type] of an object is a list that holds
    something else than strings, which [",".join] refuses. *)
Lemma step_obj_returns acc obj :
  (forall d l, obj = JDict d -> dict_get d (py "@type") = JList l ->
               exists strs, strs_of l = Ok strs) ->
  exists acc', step_obj repr_other acc obj = Ok acc'.
Proof.
  intros H. unfold step_obj. destruct obj as [| | | | |l|d]; eauto.
  unfold types_of.
  destruct (dict_get d (py "@type")) as [| | | | |l|d'] eqn:T; cbn [bind]; eauto.
  destruct (H d l eq_refl T) as [strs ->]. cbn [bind]. eauto.
Qed.

Lemma fallback_selectors_returns html pv :
  exists r, fallback_selectors html pv = Ok r.
Proof.
  unfold fallback_selectors. destruct pv; eauto.
  destruct (select_price_element _ _ _) as [el|]; eauto.
  destruct (match _clean_text (Some (get_text el)) with
            | Some t => Some t
            | None => _clean_text (attr el (py "content"))
            end) as [txt|]; eauto.
  pose proof (parse_price_unfold txt) as U.
  destruct (strip_symbol _ _) as [sy s0]. rewrite U.
  destruct (numeric_only s0); cbn [bind]; eauto.
  destruct (py_float _); cbn [bind]; eauto.
Qed.

Lemma tracker_parse_returns now html base :
  (forall d l, In (JDict d) (ld_objects html) ->
               dict_get d (py "@type") = JList l ->
               exists strs, strs_of l = Ok strs) ->
  exists info, parse repr_other now html base = Ok info.
Proof.
  intros H. unfold parse. rewrite fold_scripts. fold (ld_objects html).
  assert (F : forall objs acc,
             (forall obj, In obj objs -> In obj (ld_objects html)) ->
             exists acc', fold_result (step_obj repr_other) objs acc = Ok acc').
  { induction objs as [|obj objs IH]; intros acc Hin; cbn [fold_result]; eauto.
    destruct (step_obj_returns acc obj) as [acc1 ->].
    - intros d l -> T. apply (H d l); auto. apply Hin. now left.
    - cbn [bind]. apply IH. intros o Ho. apply Hin. now right. }
  destruct (F (ld_objects html)
              {| acc_price := None; acc_currency := None;
                 acc_title := heuristic_title html;
                 acc_asin := _extract_asin base (Some html) |}) as [acc ->]; auto.
  cbn [bind].
  destruct (fallback_selectors_returns html (acc_price acc)) as [[pv sym] ->].
  cbn [bind]. eauto.
Qed.

(** C4 (as amended): a price the selectors or the whole and fraction
    parts supply is not negative, while a price taken from structured
    data is whatever [float] makes of the offer's price; the currency is
    the offer's [priceCurrency] or what the symbol table gives for the
    symbol that was recognized. *)
Theorem C4_price_and_currency_sources (now : pystr) (html : soup) (base : pystr)
    (info : PriceInfo) :
  parse repr_other now html base = Ok info ->
  (forall v, price info = Some v ->
             ge0 v = true
             \/ exists o, ld_offer html o /\ price_of_offer repr_other o v)
  /\ (forall c, currency info = Some c ->
                (exists o, ld_offer html o /\ currency_of_offer repr_other o c)
                \/ exists sym, symbol info = Some sym
                               /\ symbols_get _CURRENCY_SYMBOLS sym = Some c).
Proof.
  unfold parse. rewrite fold_scripts. fold (ld_objects html).
  destruct (fold_result _ _ _) as [acc|] eqn:F; [|discriminate].
  cbn [bind].
  assert (Hacc : ld_sourced repr_other html acc).
  { eapply (fold_result_inv (ld_sourced repr_other html)); [| |exact F].
    - intros a b a' Hb. now apply step_obj_sourced.
    - split; discriminate. }
  destruct Hacc as [Hp Hc].
  destruct (fallback_selectors html (acc_price acc)) as [[pv sym]|] eqn:S;
    [|discriminate].
  cbn [bind]. intros H. injection H as <-. cbn [price currency symbol]. split.
  - intros v Hv. apply whole_fraction_ge0 in Hv as [Hv|Hv]; [|now left].
    destruct (fallback_selectors_ge0 _ _ _ _ v S Hv) as [Hv'|Hv']; [|now left].
    right. now apply Hp.
  - intros c Hcur.
    destruct (negb (truthy_opt (acc_currency acc)) && truthy_opt sym);
      [|left; now apply Hc].
    destruct sym as [sy|]; [|discriminate]. right. eauto.
Qed.

End PriceAndCurrency.

(** C4 on a product page with an offer of 19.99 USD. *)
Lemma C4_price_and_currency_sources_witness :
  exists info,
    AmazonPriceTracker.parse Pages.repr_unused (py "2025-01-01T10:00:00Z")
      Pages.product_page (py "https://shop.example/dp/B012345678") = Ok info
    /\ AmazonPriceTracker.price info = Some (b64_of_decimal false 1999 (-2))
    /\ (exists o, Ld.ld_offer Pages.product_page o
                  /\ Ld.currency_of_offer Pages.repr_unused o (py "USD")).
Proof.
  eexists. split; [reflexivity|]. split; [reflexivity|].
  destruct (proj2 (C4_price_and_currency_sources Pages.repr_unused
                     (py "2025-01-01T10:00:00Z") Pages.product_page
                     (py "https://shop.example/dp/B012345678") _ eq_refl)
                  (py "USD") eq_refl) as [H|[sym [H _]]].
  - exact H.
  - discriminate H.
Defined.

(** C4, the claim as stated fails: the offer of the page carries the price
    "-5", and the record's price is -5.0. *)
Lemma C4_negative_price_counterexample :
  exists info,
    AmazonPriceTracker.parse Pages.repr_unused (py "2025-01-01T10:00:00Z")
      Pages.negative_price_page (py "https://shop.example/dp/B012345678") = Ok info
    /\ AmazonPriceTracker.price info = Some (b64_of_decimal true 5 0)
    /\ ge0 (b64_of_decimal true 5 0) = false.
Proof. eexists. split; [reflexivity|]. split; reflexivity. Qed.

(** C8 at the failing input: "1,234,56" has commas only and two digits
    after the last; the parser returns no value, where the last comma read
    as the decimal separator gives 1234.56.  With one comma, "1234,56", the
    price is 1234.56. *)
Lemma C8_separator_disambiguation_witness :
  AmazonPriceTracker._parse_price_and_symbol (py "1,234,56") = Ok (None, None)
  /\ AmazonPriceTracker._parse_price_and_symbol (py "1234,56")
     = Ok (Some (b64_of_decimal false 123456 (-2)), None).
Proof.
  assert (Hn : ~ In (ch ",") (py "56")).
  { intros [H|[H|[]]]; vm_compute in H; discriminate. }
  split.
  - refine (proj2 (proj1 (proj2 (C8_separator_disambiguation
                                   (py "1,234,56") None (py "1,234,56")
                                   (py "1,234") (py "56") eq_refl eq_refl Hn)
                                eq_refl)
                         (or_intror eq_refl)) _).
    right. left. reflexivity.
  - refine (proj1 (proj1 (proj2 (C8_separator_disambiguation
                                   (py "1234,56") None (py "1234,56")
                                   (py "1234") (py "56") eq_refl eq_refl Hn)
                                eq_refl)
                         (or_intror eq_refl)) _).
    intros [H|[H|[H|[H|[]]]]]; vm_compute in H; discriminate.
Defined.

(** C10 on a text with no digit and on one with two decimal points. *)
Lemma C10_unparseable_price_witness :
  AmazonPriceTracker._parse_price_and_symbol (py "$ n/a") = Ok (None, Some (py "$"))
  /\ AmazonPriceTracker._parse_price_and_symbol (py "1.2.3 CA$")
     = Ok (None, Some (py "CA$")).
Proof.
  split.
  - exact (proj2 (C10_unparseable_price (py "$ n/a"))
             (Some (py "$")) (py "n/a") eq_refl (or_introl eq_refl)).
  - exact (proj2 (C10_unparseable_price (py "1.2.3 CA$"))
             (Some (py "CA$")) (py "1.2.3") eq_refl
             (or_intror (ex_intro _ ValueError eq_refl))).
Defined.

(** ** The repository's tests, on the model *)

(** The order in which the symbols are tried: longest first, and as in the
    table among symbols of one length. *)
Example symbols_longest_first :
  sorted_by_len_desc (map fst AmazonPriceTracker._CURRENCY_SYMBOLS)
  = [py "CA$"; py "AU$"; py "C$"; py "A$"; py "$";
     [163%N]; [8364%N]; [8377%N]; [165%N]].
Proof. reflexivity. Qed.

(** The binary64 values of the literals 1234.56 and 0.1. *)
Example float_1234_56 :
  py_float (py "1234.56") = Ok (PyFinite false 5429652300748554 (-42))
  /\ py_float (py "0.1") = Ok (PyFinite false 7205759403792794 (-56))
  /\ py_float (py "9007199254740993") = Ok (PyFinite false 4503599627370496 1)
  /\ py_float (py "1e400") = Ok (PyInf false)
  /\ py_float (py "1.2.3") = Raise ValueError.
Proof. repeat split; vm_compute; reflexivity. Qed.

(** [test_parse_jsonld_product] *)
Example test_parse_jsonld_product :
  AmazonPriceTracker.parse Pages.repr_unused (py "2025-01-01T10:00:00Z")
    Pages.test_jsonld_product (py "https://www.amazon.com/dp/B012345678")
  = Ok {| AmazonPriceTracker.url := py "https://www.amazon.com/dp/B012345678";
          AmazonPriceTracker.asin := Some (py "B012345678");
          AmazonPriceTracker.title := Some (py "Sample Product");
          AmazonPriceTracker.price := Some (b64_of_decimal false 1999 (-2));
          AmazonPriceTracker.currency := Some (py "USD");
          AmazonPriceTracker.symbol := None;
          AmazonPriceTracker.availability := None;
          AmazonPriceTracker.timestamp := py "2025-01-01T10:00:00Z" |}.
Proof. vm_compute. reflexivity. Qed.

(** [test_parse_price_selectors_and_symbol] *)
Example test_parse_price_selectors_and_symbol :
  AmazonPriceTracker.parse Pages.repr_unused (py "2025-01-01T10:00:00Z")
    Pages.test_selectors_and_symbol (py "https://www.amazon.co.uk/dp/B000000001")
  = Ok {| AmazonPriceTracker.url := py "https://www.amazon.co.uk/dp/B000000001";
          AmazonPriceTracker.asin := Some (py "B000000001");
          AmazonPriceTracker.title := Some (py "OG Title");
          AmazonPriceTracker.price := Some (b64_of_decimal false 1234 (-2));
          AmazonPriceTracker.currency := Some (py "GBP");
          AmazonPriceTracker.symbol := Some [163%N];
          AmazonPriceTracker.availability := Some (py "In Stock.");
          AmazonPriceTracker.timestamp := py "2025-01-01T10:00:00Z" |}.
Proof. vm_compute. reflexivity. Qed.

(** [test_parse_aprice_whole_fraction] *)
Example test_parse_aprice_whole_fraction :
  AmazonPriceTracker.parse Pages.repr_unused (py "2025-01-01T10:00:00Z")
    Pages.test_whole_fraction (py "https://www.amazon.com/gp/product/B08N5WRWNW")
  = Ok {| AmazonPriceTracker.url := py "https://www.amazon.com/gp/product/B08N5WRWNW";
          AmazonPriceTracker.asin := Some (py "B08N5WRWNW");
          AmazonPriceTracker.title := None;
          AmazonPriceTracker.price := Some (b64_of_decimal false 123456 (-2));
          AmazonPriceTracker.currency := Some (py "USD");
          AmazonPriceTracker.symbol := Some (py "$");
          AmazonPriceTracker.availability := None;
          AmazonPriceTracker.timestamp := py "2025-01-01T10:00:00Z" |}.
Proof. vm_compute. reflexivity. Qed.

(** The whole and fraction parts alone give the same price. *)
Example whole_fraction_alone :
  AmazonPriceTracker.whole_fraction Pages.test_whole_fraction None
  = Some (b64_of_decimal false 123456 (-2)).
Proof. vm_compute. reflexivity. Qed.

(** [test_fetch_ssl_and_retry]: 503 then 200, one retry, no backoff. *)
Example test_fetch_ssl_and_retry :
  AmazonPriceTracker.fetch
    (AmazonPriceTracker.new (Pages.answers [503]%Z Pages.test_whole_fraction) 1
                            (PyFinite false 0 0))
    (py "https://www.amazon.com/dp/B012345678") net0
  = (Ok (Pages.test_whole_fraction, []), {| requests := 2; sleeps := [] |}).
Proof. reflexivity. Qed.

(** [test_parse_jsonld_article], for any [urljoin]. *)
Example test_parse_jsonld_article (urljoin : pystr -> pystr -> pystr) :
  NewsScraper.parse Pages.repr_unused urljoin
    Pages.test_jsonld_article (py "https://example.com/news/test")
  = Ok {| NewsScraper.url := py "https://example.com/news/test";
          NewsScraper.source := None;
          NewsScraper.title := Some (py "Test Headline");
          NewsScraper.author := Some (py "Jane Doe");
          NewsScraper.published_at := Some (py "2025-01-01T10:00:00Z");
          NewsScraper.description := Some (py "Short description");
          NewsScraper.content := Some (py "Paragraph 1. Paragraph 2.");
          NewsScraper.top_image :=
            Some (urljoin (py "https://example.com/news/test") (py "/img/cover.jpg"));
          NewsScraper.images := [] |}.
Proof. reflexivity. Qed.

(** [test_scrape_uses_fetch_and_parse] *)
Example test_scrape_uses_fetch_and_parse :
  fst (NewsScraper.scrape Pages.repr_unused Pages.urljoin_absolute
         (Pages.answers []%Z Pages.test_scrape)
         (py "https://example.com/article") net0)
  = Ok {| NewsScraper.url := py "https://redirected.example/final";
          NewsScraper.source := None;
          NewsScraper.title := Some (py "Just a Title");
          NewsScraper.author := None;
          NewsScraper.published_at := None;
          NewsScraper.description := None;
          NewsScraper.content := Some (py "Hello world.");
          NewsScraper.top_image := None;
          NewsScraper.images := [] |}.
Proof. reflexivity. Qed.

(** ** Cleaned text *)

Section CleanText.
Import Shape.

Lemma spaced_collapse_ws b s : spaced b (collapse_ws b s) = true.
Proof.
  revert b. induction s as [|c s IH]; intros b; cbn [collapse_ws]; [reflexivity|].
  destruct (is_space c) eqn:Hc.
  - destruct b; [apply IH|]. cbn [spaced]. change (is_space 32%N) with true.
    cbn. apply IH.
  - cbn [spaced]. rewrite Hc. apply IH.
Qed.

Lemma spaced_lstrip b s : spaced b s = true -> spaced true (lstrip s) = true.
Proof.
  revert b. induction s as [|c s IH]; intros b H; [reflexivity|].
  cbn [lstrip]. cbn [spaced] in H. destruct (is_space c) eqn:Hc.
  - apply andb_true_iff in H as [_ H]. now apply IH in H.
  - cbn [spaced]. now rewrite Hc.
Qed.

Lemma lstrip_snoc s c :
  lstrip (s ++ [c])
  = match lstrip s with
    | [] => if is_space c then [] else [c]
    | kept => kept ++ [c]
    end.
Proof.
  induction s as [|d s IH]; cbn [app lstrip]; [reflexivity|].
  destruct (is_space d); [exact IH|reflexivity].
Qed.

(** [strip] removes whitespace at the left, then at the right. *)
Lemma rev_lstrip_rev s : rev (lstrip (rev s)) = rstrip s.
Proof.
  induction s as [|c s IH]; [reflexivity|].
  cbn [rev rstrip]. rewrite lstrip_snoc, <- IH.
  destruct (lstrip (rev s)) as [|d k]; cbn [rev].
  - now destruct (is_space c).
  - rewrite rev_app_distr. cbn [rev app].
    destruct (rev k ++ [d]) eqn:E; [now destruct (rev k)|reflexivity].
Qed.

Lemma strip_rstrip_lstrip s : strip s = rstrip (lstrip s).
Proof. unfold strip. apply rev_lstrip_rev. Qed.

Lemma single_spaced_rstrip b s :
  spaced b s = true -> rstrip s <> [] -> single_spaced b (rstrip s) = true.
Proof.
  revert b. induction s as [|c s IH]; intros b H Hne; [contradiction|].
  cbn [rstrip] in *. cbn [spaced] in H.
  destruct (rstrip s) as [|d k] eqn:E.
  - destruct (is_space c) eqn:Hc; [contradiction|].
    cbn [single_spaced]. now rewrite Hc.
  - cbn [single_spaced]. destruct (is_space c) eqn:Hc.
    + apply andb_true_iff in H as [H1 H2]. rewrite H1. cbn [andb].
      apply IH; [exact H2|discriminate].
    + apply IH; [exact H|discriminate].
Qed.

Lemma tidy_strip_collapse v :
  nonempty (strip (collapse_ws false v)) = true ->
  tidy (strip (collapse_ws false v)) = true.
Proof.
  intros H. rewrite strip_rstrip_lstrip in *. unfold tidy.
  apply single_spaced_rstrip.
  - apply spaced_lstrip with (b := false). apply spaced_collapse_ws.
  - intros E. rewrite E in H. discriminate.
Qed.

Lemma single_spaced_collapse b s :
  single_spaced b s = true -> collapse_ws b s = s.
Proof.
  revert b. induction s as [|c s IH]; intros b H; [reflexivity|].
  cbn [single_spaced] in H. cbn [collapse_ws]. destruct (is_space c) eqn:Hc.
  - apply andb_true_iff in H as [H1 H2]. apply andb_true_iff in H1 as [H0 H1].
    apply N.eqb_eq in H0. destruct b; [discriminate|]. subst c.
    f_equal. now apply IH.
  - f_equal. now apply IH.
Qed.

Lemma single_spaced_rstrip_id b s : single_spaced b s = true -> rstrip s = s.
Proof.
  revert b. induction s as [|c s IH]; intros b H; [reflexivity|].
  cbn [single_spaced] in H. cbn [rstrip].
  assert (Hs : exists b', single_spaced b' s = true
                          /\ (s = [] -> is_space c = false)).
  { destruct (is_space c) eqn:Hc.
    - apply andb_true_iff in H as [_ H]. exists true. split; [exact H|].
      intros ->. discriminate.
    - exists false. split; [exact H|reflexivity]. }
  destruct Hs as [b' [Hs Hend]]. rewrite (IH _ Hs).
  destruct s; [now rewrite Hend|reflexivity].
Qed.

Lemma tidy_lstrip s : tidy s = true -> lstrip s = s.
Proof.
  unfold tidy. destruct s as [|c s]; [reflexivity|].
  cbn [single_spaced lstrip]. destruct (is_space c); [|reflexivity].
  rewrite andb_false_r. discriminate.
Qed.

Lemma single_spaced_no_nbsp b s : single_spaced b s = true -> ~ In 160%N s.
Proof.
  revert b. induction s as [|c s IH]; intros b H; [intros []|].
  cbn [single_spaced] in H. intros [->|Hin].
  - change (is_space 160%N) with true in H. discriminate.
  - destruct (is_space c).
    + apply andb_true_iff in H as [_ H]. now apply IH in H.
    + now apply IH in H.
Qed.

Lemma tidy_nonempty s : tidy s = true -> nonempty s = true.
Proof. destruct s; [discriminate|reflexivity]. Qed.

(** Tidy text is left as it is by cleaning. *)
Lemma tidy_strip_collapse_id s :
  tidy s = true -> strip (collapse_ws false s) = s.
Proof.
  intros H. rewrite strip_rstrip_lstrip.
  assert (Hc : collapse_ws false s = s).
  { unfold tidy in H. destruct s as [|c s]; [reflexivity|].
    cbn [single_spaced] in H. cbn [collapse_ws].
    destruct (is_space c); [rewrite andb_false_r in H; discriminate|].
    f_equal. now apply single_spaced_collapse. }
  rewrite Hc, (tidy_lstrip _ H). now apply single_spaced_rstrip_id with (b := true).
Qed.

Lemma tracker_clean_tidy val s :
  AmazonPriceTracker._clean_text val = Some s -> tidy s = true.
Proof.
  unfold AmazonPriceTracker._clean_text. destruct val as [v|]; [|discriminate].
  destruct (negb (nonempty v)); [discriminate|].
  destruct (nonempty (strip _)) eqn:E; [|discriminate].
  intros H. injection H as <-. now apply tidy_strip_collapse.
Qed.

Lemma news_clean_tidy val s :
  NewsScraper._clean_text val = Some s -> tidy s = true.
Proof.
  unfold NewsScraper._clean_text. destruct val as [v|]; [|discriminate].
  destruct (negb (nonempty v)); [discriminate|].
  destruct (nonempty (strip _)) eqn:E; [|discriminate].
  intros H. injection H as <-. now apply tidy_strip_collapse.
Qed.

Lemma tracker_clean_of_tidy s :
  tidy s = true -> AmazonPriceTracker._clean_text (Some s) = Some s.
Proof.
  intros H. unfold AmazonPriceTracker._clean_text, AmazonPriceTracker._NBSP.
  rewrite (tidy_nonempty _ H). cbn [negb].
  rewrite (replace_absent _ _ _ (single_spaced_no_nbsp _ _ H)).
  rewrite (tidy_strip_collapse_id _ H). now rewrite (tidy_nonempty _ H).
Qed.

Lemma news_clean_of_tidy s :
  tidy s = true -> NewsScraper._clean_text (Some s) = Some s.
Proof.
  intros H. unfold NewsScraper._clean_text.
  rewrite (tidy_nonempty _ H). cbn [negb].
  rewrite (tidy_strip_collapse_id _ H). now rewrite (tidy_nonempty _ H).
Qed.

(** X1: what [_clean_text] returns, in both modules, is absent or tidy: not
    empty, no whitespace at either end, and single spaces as its only
    whitespace; and cleaning a second time changes nothing. *)
Theorem X1_clean_text_normal_form (val : option pystr) :
  (forall s, AmazonPriceTracker._clean_text val = Some s -> tidy s = true)
  /\ AmazonPriceTracker._clean_text (AmazonPriceTracker._clean_text val)
     = AmazonPriceTracker._clean_text val
  /\ (forall s, NewsScraper._clean_text val = Some s -> tidy s = true)
  /\ NewsScraper._clean_text (NewsScraper._clean_text val)
     = NewsScraper._clean_text val.
Proof.
  split; [|split; [|split]].
  - intros s. apply tracker_clean_tidy.
  - destruct (AmazonPriceTracker._clean_text val) as [s|] eqn:E; [|reflexivity].
    apply tracker_clean_of_tidy. now apply tracker_clean_tidy in E.
  - intros s. apply news_clean_tidy.
  - destruct (NewsScraper._clean_text val) as [s|] eqn:E; [|reflexivity].
    apply news_clean_of_tidy. now apply news_clean_tidy in E.
Qed.

End CleanText.

(** ** The ASIN of a URL and the currency symbol *)

Section AsinAndSymbol.
Import AmazonPriceTracker Shape.

Lemma pystr_eqb_eq s t : Py.eqb s t = true <-> s = t.
Proof.
  revert t. induction s as [|c s IH]; intros [|d t]; cbn [Py.eqb];
    try (split; [discriminate|discriminate]); [tauto|].
  rewrite andb_true_iff, N.eqb_eq, IH. split.
  - intros [-> ->]. reflexivity.
  - intros H. injection H as -> ->. auto.
Qed.

Lemma startswith_app s p q :
  startswith s p = true ->
  startswith (skipn (List.length p) s) q = true ->
  startswith s (p ++ q) = true.
Proof.
  revert s. induction p as [|c p IH]; intros s Hp Hq; [exact Hq|].
  destruct s as [|d s]; [discriminate|].
  cbn [startswith app] in *. apply andb_true_iff in Hp as [-> Hp].
  cbn [andb]. now apply IH.
Qed.

Lemma startswith_firstn n s : startswith s (firstn n s) = true.
Proof.
  revert s. induction n as [|n IH]; intros [|c s]; cbn [firstn startswith]; auto.
  now rewrite N.eqb_refl, IH.
Qed.

Lemma asin_at_spec s a :
  asin_at s = Some a ->
  fullmatch_asin a = true
  /\ (startswith s (py "/dp/" ++ a) = true
      \/ startswith s (py "/gp/product/" ++ a) = true).
Proof.
  unfold asin_at.
  destruct (startswith s (py "/dp/")) eqn:D;
    [|destruct (startswith s (py "/gp/product/")) eqn:G; [|discriminate]].
  - destruct (fullmatch_asin (firstn 10 (skipn 4 s)) && _) eqn:F; [|discriminate].
    intros H. injection H as <-. apply andb_true_iff in F as [F _].
    split; [exact F|]. left.
    apply startswith_app; [exact D|exact (startswith_firstn 10 (skipn 4 s))].
  - destruct (fullmatch_asin (firstn 10 (skipn 12 s)) && _) eqn:F; [|discriminate].
    intros H. injection H as <-. apply andb_true_iff in F as [F _].
    split; [exact F|]. right.
    apply startswith_app; [exact G|exact (startswith_firstn 10 (skipn 12 s))].
Qed.

Lemma search_asin_spec s a :
  search_asin s = Some a ->
  fullmatch_asin a = true
  /\ (contains s (py "/dp/" ++ a) = true
      \/ contains s (py "/gp/product/" ++ a) = true).
Proof.
  assert (Here : forall t, asin_at t = Some a ->
                 fullmatch_asin a = true
                 /\ (contains t (py "/dp/" ++ a) = true
                     \/ contains t (py "/gp/product/" ++ a) = true)).
  { intros t Ht. apply asin_at_spec in Ht as [F [P|P]];
      (split; [exact F|]); [left|right];
      destruct t; cbn [contains]; now rewrite P. }
  induction s as [|c s IH]; cbn [search_asin].
  - destruct (asin_at []) eqn:E; [|discriminate].
    intros H. injection H as ->. now apply Here.
  - destruct (asin_at (c :: s)) eqn:E.
    + intros H. injection H as ->. now apply Here.
    + intros H. destruct (IH H) as [F [P|P]];
        (split; [exact F|]); [left|right]; cbn [contains]; rewrite P;
        apply orb_true_r.
Qed.

(** X2: an ASIN found in the URL is ten characters of [A-Z0-9] that stand
    in the URL right after [/dp/] or [/gp/product/], and it is the result
    whatever the page holds. *)
Theorem X2_asin_of_url (url a : pystr) :
  search_asin url = Some a ->
  (forall page, _extract_asin url page = Some a)
  /\ List.length a = 10%nat
  /\ forallb is_upper_or_digit a = true
  /\ (contains url (py "/dp/" ++ a) = true
      \/ contains url (py "/gp/product/" ++ a) = true).
Proof.
  intros H. split.
  - intros page. unfold _extract_asin. now rewrite H.
  - apply search_asin_spec in H as [F C]. unfold fullmatch_asin in F.
    apply andb_true_iff in F as [L F]. apply Nat.eqb_eq in L. auto.
Qed.

(** X2 on a product URL of the [/gp/product/] form with a query. *)
Lemma X2_asin_of_url_witness :
  _extract_asin (py "https://www.amazon.com/gp/product/B08N5WRWNW?th=1")
                (Some Pages.test_jsonld_product)
  = Some (py "B08N5WRWNW").
Proof.
  exact (proj1 (X2_asin_of_url
                  (py "https://www.amazon.com/gp/product/B08N5WRWNW?th=1")
                  (py "B08N5WRWNW") eq_refl) (Some Pages.test_jsonld_product)).
Defined.

(** Without a hidden ASIN input that has a value, an ASIN that
    [_extract_asin] returns, from the URL or from a [data-asin] attribute,
    is ten characters of [A-Z0-9]. *)
Lemma extract_asin_well_formed (url : pystr) (page : option soup) (a : pystr) :
  (forall p tag, page = Some p -> find_input_ASIN p = Some tag ->
                 truthy_opt (attr tag (py "value")) = false) ->
  _extract_asin url page = Some a ->
  fullmatch_asin a = true.
Proof.
  intros Hin. unfold _extract_asin.
  destruct (search_asin url) as [code|] eqn:S.
  - intros H. injection H as <-. now apply search_asin_spec in S.
  - destruct page as [p|]; [|discriminate].
    destruct (find_input_ASIN p) as [tag|] eqn:I.
    + rewrite (Hin p tag eq_refl I).
      destruct (find_data_asin p) as [t|]; [|discriminate].
      destruct (attr t (py "data-asin")) as [x|]; [|discriminate].
      destruct (nonempty x && fullmatch_asin x) eqn:F; [|discriminate].
      intros H. injection H as <-. now apply andb_true_iff in F.
    + destruct (find_data_asin p) as [t|]; [|discriminate].
      destruct (attr t (py "data-asin")) as [x|]; [|discriminate].
      destruct (nonempty x && fullmatch_asin x) eqn:F; [|discriminate].
      intros H. injection H as <-. now apply andb_true_iff in F.
Qed.

(** *** The symbol *)

Lemma symbols_get_key table sym :
  In sym (map fst table) -> exists c, symbols_get table sym = Some c.
Proof.
  induction table as [|[k v] table IH]; cbn [map In symbols_get fst]; [intros []|].
  intros [->|H].
  - rewrite (proj2 (pystr_eqb_eq sym sym) eq_refl). eauto.
  - destruct (Py.eqb k sym); eauto.
Qed.

Lemma symbols_get_nonempty sym c :
  symbols_get _CURRENCY_SYMBOLS sym = Some c -> nonempty c = true.
Proof.
  unfold _CURRENCY_SYMBOLS. cbn [symbols_get].
  repeat (destruct (Py.eqb _ sym); [intros H; injection H as <-; reflexivity|]).
  discriminate.
Qed.

Lemma strip_symbol_some syms s sym s' :
  strip_symbol syms s = (Some sym, s') ->
  exists pre post,
    syms = pre ++ sym :: post
    /\ (startswith s sym = true \/ endswith s sym = true)
    /\ forall k, In k pre -> startswith s k = false /\ endswith s k = false.
Proof.
  induction syms as [|k syms IH]; cbn [strip_symbol]; [discriminate|].
  destruct (startswith s k) eqn:P.
  - intros H. injection H as <- _. exists [], syms. cbn. split; [reflexivity|].
    split; [now left|intros ? []].
  - destruct (endswith s k) eqn:Q.
    + intros H. injection H as <- _. exists [], syms. cbn. split; [reflexivity|].
      split; [now right|intros ? []].
    + intros H. destruct (IH H) as [pre [post [E [Hm Hpre]]]].
      exists (k :: pre), post. split; [cbn; now rewrite E|]. split; [exact Hm|].
      intros x [<-|Hx]; auto.
Qed.

Lemma strip_symbol_none syms s s' :
  strip_symbol syms s = (None, s') ->
  forall k, In k syms -> startswith s k = false /\ endswith s k = false.
Proof.
  induction syms as [|k syms IH]; cbn [strip_symbol]; [intros _ ? []|].
  destruct (startswith s k) eqn:P; [discriminate|].
  destruct (endswith s k) eqn:Q; [discriminate|].
  intros H x [<-|Hx]; auto.
Qed.

Lemma insert_by_len_sorted x l :
  Sorted not_shorter l -> Sorted not_shorter (insert_by_len x l).
Proof.
  induction l as [|y l IH]; cbn [insert_by_len]; intros H.
  - constructor; constructor.
  - destruct (List.length y <=? List.length x)%nat eqn:E.
    + constructor; [exact H|]. constructor. now apply Nat.leb_le.
    + apply Nat.leb_gt in E. apply Sorted_inv in H as [Hs Hh].
      constructor; [now apply IH|].
      destruct l as [|z l]; cbn [insert_by_len].
      * constructor. unfold not_shorter. lia.
      * destruct (List.length z <=? List.length x)%nat.
        -- constructor. unfold not_shorter. lia.
        -- constructor. now apply HdRel_inv in Hh.
Qed.

Lemma sorted_by_len_desc_sorted l :
  StronglySorted not_shorter (sorted_by_len_desc l).
Proof.
  apply Sorted_StronglySorted.
  - intros a b c Hab Hbc. unfold not_shorter in *. lia.
  - induction l as [|x l IH]; cbn; [constructor|]. now apply insert_by_len_sorted.
Qed.

Lemma in_insert_by_len k x l : In k (insert_by_len x l) <-> k = x \/ In k l.
Proof.
  induction l as [|y l IH]; cbn [insert_by_len].
  - cbn. intuition.
  - destruct (List.length y <=? List.length x)%nat; cbn [In]; [intuition|].
    rewrite IH. intuition.
Qed.

Lemma in_sorted_by_len_desc k l : In k (sorted_by_len_desc l) <-> In k l.
Proof.
  induction l as [|x l IH]; cbn; [tauto|].
  change (fold_right insert_by_len [] l) with (sorted_by_len_desc l).
  rewrite in_insert_by_len, IH. intuition.
Qed.

Lemma strongly_sorted_after (pre post : list pystr) x :
  StronglySorted not_shorter (pre ++ x :: post) -> Forall (not_shorter x) post.
Proof.
  induction pre as [|y pre IH]; cbn [app]; intros H;
    apply StronglySorted_inv in H as [Hs Hf]; auto.
Qed.

Lemma parse_price_symbol text v symbol :
  _parse_price_and_symbol text = Ok (v, symbol) ->
  fst (strip_symbol (sorted_by_len_desc (map fst _CURRENCY_SYMBOLS))
                    (strip (replace _NBSP (py " ") text))) = symbol.
Proof.
  pose proof (parse_price_unfold text) as U.
  destruct (strip_symbol _ _) as [sy s]. rewrite U. cbn [fst].
  destruct (numeric_only s); [intros H; now injection H|].
  destruct (py_float _); intros H; now injection H.
Qed.

(** A symbol the parser reports is a key of the table. *)
Lemma parse_price_symbol_key text v sym :
  _parse_price_and_symbol text = Ok (v, Some sym) ->
  In sym (map fst _CURRENCY_SYMBOLS).
Proof.
  intros H. apply parse_price_symbol in H.
  destruct (strip_symbol _ _) as [sy s'] eqn:E. cbn [fst] in H. subst sy.
  apply strip_symbol_some in E as [pre [post [E _]]].
  apply (in_sorted_by_len_desc sym). rewrite E. apply in_or_app. right. now left.
Qed.

(** X3: the symbol the price parser reports is a key of the currency table
    that starts or ends the trimmed text, and no longer key does; it
    reports none only when no key starts or ends the text. *)
Theorem X3_symbol_is_longest_match (text : pystr) (v : option pyfloat)
    (symbol : option pystr) :
  _parse_price_and_symbol text = Ok (v, symbol) ->
  let s := strip (replace _NBSP (py " ") text) in
  match symbol with
  | Some sym =>
      In sym (map fst _CURRENCY_SYMBOLS)
      /\ (startswith s sym = true \/ endswith s sym = true)
      /\ forall k, In k (map fst _CURRENCY_SYMBOLS) ->
                   (List.length sym < List.length k)%nat ->
                   startswith s k = false /\ endswith s k = false
  | None =>
      forall k, In k (map fst _CURRENCY_SYMBOLS) ->
                startswith s k = false /\ endswith s k = false
  end.
Proof.
  intros H s. pose proof (parse_price_symbol_key text v) as K.
  apply parse_price_symbol in H. fold s in H.
  destruct (strip_symbol _ s) as [sy s'] eqn:E. cbn [fst] in H. subst sy.
  destruct symbol as [sym|].
  - destruct (strip_symbol_some _ _ _ _ E) as [pre [post [D [Hm Hpre]]]].
    split; [|split; [exact Hm|]].
    + apply (in_sorted_by_len_desc sym). rewrite D. apply in_or_app. right. now left.
    + intros k Hk Hlen. apply Hpre.
      apply (in_sorted_by_len_desc k) in Hk. rewrite D in Hk.
      apply in_app_or in Hk as [Hk|[Hk|Hk]]; [exact Hk|subst; lia|].
      pose proof (sorted_by_len_desc_sorted (map fst _CURRENCY_SYMBOLS)) as S.
      rewrite D in S. apply strongly_sorted_after in S.
      rewrite Forall_forall in S. specialize (S k Hk). unfold not_shorter in S. lia.
  - intros k Hk. apply (strip_symbol_none _ _ _ E).
    now apply in_sorted_by_len_desc.
Qed.

(** X3 on a price that ends with [CA$], which ends with [$] and [A$] too. *)
Lemma X3_symbol_is_longest_match_witness :
  startswith (py "12,50 CA$") (py "CA$") = true
  \/ endswith (py "12,50 CA$") (py "CA$") = true.
Proof.
  exact (proj1 (proj2 (X3_symbol_is_longest_match
                         (py " 12,50 CA$ ")
                         (Some (b64_of_decimal false 1250 (-2)))
                         (Some (py "CA$")) eq_refl))).
Defined.

End AsinAndSymbol.

(** ** The record of the price tracker *)

Section PriceRecord.
Import AmazonPriceTracker Ld Shape.
Variable repr_other : json -> pystr.

(** [parse], by the state the structured-data loop ends in and what the
    price selectors return. *)
Lemma tracker_parse_unfold now html base info :
  parse repr_other now html base = Ok info ->
  exists acc pv sym,
    fold_result (step_obj repr_other) (ld_objects html)
      {| acc_price := None; acc_currency := None;
         acc_title := heuristic_title html;
         acc_asin := _extract_asin base (Some html) |} = Ok acc
    /\ fallback_selectors html (acc_price acc) = Ok (pv, sym)
    /\ asin info = acc_asin acc
    /\ title info = acc_title acc
    /\ price info = whole_fraction html pv
    /\ symbol info = sym
    /\ currency info
       = (if negb (truthy_opt (acc_currency acc)) && truthy_opt sym
          then match sym with
               | Some sy => symbols_get _CURRENCY_SYMBOLS sy
               | None => None
               end
          else acc_currency acc)
    /\ availability info
       = match select_availability html with
         | Some av => _clean_text (Some (get_text_sp av))
         | None => None
         end.
Proof.
  unfold parse. rewrite fold_scripts. fold (ld_objects html).
  destruct (fold_result _ _ _) as [acc|] eqn:F; [|discriminate].
  cbn [bind].
  destruct (fallback_selectors _ _) as [[pv sym]|] eqn:S; [|discriminate].
  cbn [bind]. intros H. injection H as <-. exists acc, pv, sym.
  cbn. repeat split; auto.
Qed.

Lemma fallback_symbol_key html pv pv' sym :
  fallback_selectors html pv = Ok (pv', Some sym) ->
  nonempty sym = true /\ In sym (map fst _CURRENCY_SYMBOLS).
Proof.
  unfold fallback_selectors. destruct pv; [discriminate|].
  destruct (select_price_element _ _ _) as [el|]; [|discriminate].
  destruct (match _clean_text (Some (get_text el)) with
            | Some t => Some t
            | None => _clean_text (attr el (py "content"))
            end) as [txt|]; [|discriminate].
  destruct (_parse_price_and_symbol txt) as [[val s]|e] eqn:P; cbn [bind];
    [|discriminate].
  destruct (truthy_opt s) eqn:T; [|discriminate].
  intros H. injection H as _ ->. split; [exact T|].
  now apply parse_price_symbol_key in P.
Qed.

Lemma keep_first_kept currency offered :
  truthy_opt currency = true -> keep_first currency offered = currency.
Proof.
  revert currency. induction offered as [|c l IH]; intros currency H; [reflexivity|].
  unfold keep_first. cbn [fold_left]. rewrite H. now apply IH.
Qed.

Lemma keep_first_find offered :
  forall currency,
    truthy_opt currency = false ->
    match find nonempty offered with
    | Some c => keep_first currency offered = Some c
    | None => truthy_opt (keep_first currency offered) = false
    end.
Proof.
  induction offered as [|c l IH]; intros currency H; [exact H|].
  unfold keep_first. cbn [fold_left find]. rewrite H.
  destruct (nonempty c) eqn:N.
  - now apply keep_first_kept.
  - now apply IH.
Qed.

Lemma step_obj_currency acc obj acc' :
  step_obj repr_other acc obj = Ok acc' ->
  acc_currency acc' = keep_first (acc_currency acc) (currency_of_obj repr_other obj).
Proof.
  unfold step_obj, currency_of_obj. destruct obj as [| | | | | |d];
    try (intros H; injection H as <-; reflexivity).
  destruct (types_of d) as [types|e]; cbn [bind]; [|discriminate].
  intros H. injection H as <-. cbn [acc_currency].
  destruct (matches_product types); [|reflexivity].
  unfold read_offers. destruct (offers_of (JDict d) d) as [| | | | | |o];
    try reflexivity.
  cbn [acc_currency]. destruct (truthy (dict_get o (py "priceCurrency")));
    [|reflexivity].
  unfold keep_first. cbn [fold_left andb].
  now destruct (truthy_opt (acc_currency acc)).
Qed.

Lemma fold_objs_currency objs :
  forall acc acc',
    fold_result (step_obj repr_other) objs acc = Ok acc' ->
    acc_currency acc'
    = keep_first (acc_currency acc) (flat_map (currency_of_obj repr_other) objs).
Proof.
  induction objs as [|obj objs IH]; intros acc acc'; cbn [fold_result flat_map].
  - intros H. now injection H as <-.
  - destruct (step_obj repr_other acc obj) as [acc1|e] eqn:E; cbn [bind];
      [|discriminate].
    intros H. rewrite (IH _ _ H), (step_obj_currency _ _ _ E).
    unfold keep_first. now rewrite fold_left_app.
Qed.

(** X4: a record that carries a currency symbol carries a currency: the
    first non-empty one the structured data of the page offers or, when
    it offers none, the code the table holds for the symbol. *)
Theorem X4_symbol_gives_currency (now : pystr) (html : soup) (base : pystr)
    (info : PriceInfo) (sym : pystr) :
  parse repr_other now html base = Ok info ->
  symbol info = Some sym ->
  exists code,
    symbols_get _CURRENCY_SYMBOLS sym = Some code
    /\ currency info
       = Some match find nonempty (ld_currencies repr_other html) with
              | Some c => c
              | None => code
              end
    /\ exists c, currency info = Some c /\ nonempty c = true.
Proof.
  intros H Hs.
  apply tracker_parse_unfold in H
    as [acc [pv [sy [F [S [_ [_ [_ [Hsym [Hcur _]]]]]]]]]].
  rewrite Hs in Hsym. subst sy.
  apply fallback_symbol_key in S as [Hne Hkey].
  destruct (symbols_get_key _ _ Hkey) as [code E]. exists code.
  split; [exact E|].
  apply fold_objs_currency in F. cbn [acc_currency] in F.
  pose proof (keep_first_find (ld_currencies repr_other html) None eq_refl) as K.
  fold (ld_currencies repr_other html) in F. rewrite <- F in K.
  rewrite Hcur. cbn [truthy_opt] in *. rewrite Hne, andb_true_r.
  destruct (find nonempty (ld_currencies repr_other html)) as [c|] eqn:Fd.
  - apply find_some in Fd as [_ Nc]. rewrite K. cbn [truthy_opt]. rewrite Nc.
    cbn [negb]. eauto.
  - rewrite K. cbn [negb]. rewrite E. eauto using symbols_get_nonempty.
Qed.

Lemma read_offers_asin acc obj d :
  acc_asin (read_offers repr_other acc obj d) = acc_asin acc.
Proof. unfold read_offers. now destruct (offers_of obj d). Qed.

Lemma fullmatch_nonempty a : fullmatch_asin a = true -> nonempty a = true.
Proof.
  unfold fullmatch_asin. intros F. apply andb_true_iff in F as [L _].
  apply Nat.eqb_eq in L. now destruct a.
Qed.

(** One object: an ASIN already found is kept; one is taken from [sku] or
    [mpn] only if it has the form of an ASIN. *)
Lemma step_obj_asin acc obj acc' :
  step_obj repr_other acc obj = Ok acc' ->
  (forall a, acc_asin acc = Some a -> nonempty a = true ->
             acc_asin acc' = Some a)
  /\ ((forall a, acc_asin acc = Some a -> fullmatch_asin a = true) ->
      forall a, acc_asin acc' = Some a -> fullmatch_asin a = true).
Proof.
  unfold step_obj. destruct obj as [| | | | |l|d];
    try (intros H; injection H as <-; now auto).
  destruct (types_of d) as [types|e]; cbn [bind]; [|discriminate].
  intros H. injection H as <-. cbn [acc_asin].
  assert (R : acc_asin (if matches_product types
                        then read_offers repr_other acc (JDict d) d else acc)
              = acc_asin acc)
    by (destruct (matches_product types); auto using read_offers_asin).
  rewrite R. split.
  - intros a A N. rewrite A. cbn [truthy_opt]. now rewrite N.
  - intros W a. destruct (acc_asin acc) as [a0|] eqn:A; cbn [truthy_opt].
    + rewrite (fullmatch_nonempty _ (W a0 eq_refl)). cbn [negb].
      intros E. injection E as <-. now apply W.
    + cbn [negb]. destruct (or_ _ _) as [| | | |sku| |]; try discriminate.
      destruct (fullmatch_asin sku) eqn:F; [|discriminate].
      intros E. now injection E as <-.
Qed.

Lemma fold_objs_asin objs acc acc' :
  fold_result (step_obj repr_other) objs acc = Ok acc' ->
  (forall a, acc_asin acc = Some a -> nonempty a = true ->
             acc_asin acc' = Some a)
  /\ ((forall a, acc_asin acc = Some a -> fullmatch_asin a = true) ->
      forall a, acc_asin acc' = Some a -> fullmatch_asin a = true).
Proof.
  revert acc. induction objs as [|obj objs IH]; intros acc; cbn [fold_result].
  - intros H. injection H as <-. auto.
  - destruct (step_obj repr_other acc obj) as [acc1|e] eqn:E; cbn [bind];
      [|discriminate].
    intros H. destruct (step_obj_asin _ _ _ E) as [K1 W1].
    destruct (IH _ H) as [K2 W2]. split.
    + intros a A N. apply K2; auto.
    + intros W. apply W2. now apply W1.
Qed.

(** X5: the ASIN of a record is the one in the URL whenever the URL has
    one, whatever the page's structured data says; and on a page without
    a hidden ASIN input that has a value, the ASIN of a record, from the
    URL, a [data-asin] attribute or an [sku] or [mpn], is ten characters
    of [A-Z0-9]. *)
Theorem X5_record_asin (now : pystr) (html : soup) (base : pystr)
    (info : PriceInfo) :
  parse repr_other now html base = Ok info ->
  (forall a, search_asin base = Some a -> asin info = Some a)
  /\ ((forall tag, find_input_ASIN html = Some tag ->
                   truthy_opt (attr tag (py "value")) = false) ->
      forall a, asin info = Some a -> fullmatch_asin a = true).
Proof.
  intros H.
  apply tracker_parse_unfold in H as [acc [pv [sy [F [_ [Ha _]]]]]].
  rewrite Ha. apply fold_objs_asin in F as [K W]. cbn [acc_asin] in K, W. split.
  - intros a S. apply K.
    + unfold _extract_asin. now rewrite S.
    + now apply fullmatch_nonempty, (search_asin_spec base).
  - intros Hin. apply W. intros a E.
    apply (extract_asin_well_formed base (Some html)); [|exact E].
    intros p tag Ep. injection Ep as <-. apply Hin.
Qed.

Lemma step_obj_price acc obj acc' :
  step_obj repr_other acc obj = Ok acc' ->
  (forall w, acc_price acc = Some w -> acc_price acc' = Some w)
  /\ (forall d types o v,
        obj = JDict d -> types_of d = Ok types -> matches_product types = true ->
        offers_of (JDict d) d = JDict o -> price_of_offer repr_other o v ->
        exists w, acc_price acc' = Some w).
Proof.
  unfold step_obj. destruct obj as [| | | | |l|d];
    try (intros H; injection H as <-; split; [auto|intros; discriminate]).
  destruct (types_of d) as [types|e] eqn:TT; cbn [bind]; [|discriminate].
  intros H. injection H as <-. cbn [acc_price]. split.
  - intros w A. destruct (matches_product types); [|exact A].
    unfold read_offers. destruct (offers_of (JDict d) d); try exact A.
    cbn [acc_price]. now rewrite A.
  - intros d' types' o v E T M O [Tp Fp]. injection E as <-.
    rewrite TT in T. injection T as <-. rewrite M. unfold read_offers. rewrite O.
    cbn [acc_price]. destruct (acc_price acc); [eauto|].
    rewrite Tp, Fp. eauto.
Qed.

Lemma fold_objs_price objs acc acc' :
  fold_result (step_obj repr_other) objs acc = Ok acc' ->
  (forall w, acc_price acc = Some w -> acc_price acc' = Some w)
  /\ (forall d types o v,
        In (JDict d) objs -> types_of d = Ok types ->
        matches_product types = true ->
        offers_of (JDict d) d = JDict o -> price_of_offer repr_other o v ->
        exists w, acc_price acc' = Some w).
Proof.
  revert acc. induction objs as [|obj objs IH]; intros acc; cbn [fold_result].
  - intros H. injection H as <-. split; [auto|intros ? ? ? ? []].
  - destruct (step_obj repr_other acc obj) as [acc1|e] eqn:E; cbn [bind];
      [|discriminate].
    intros H. destruct (step_obj_price _ _ _ E) as [K1 F1].
    destruct (IH _ H) as [K2 F2]. split; [auto|].
    intros d types o v [->|Hin] T M O P.
    + destruct (F1 d types o v eq_refl T M O P) as [w Hw]. eauto.
    + eauto.
Qed.

(** X6: when a Product or Offer object of the page carries a price that
    [float] accepts, the record's price is such a structured-data price,
    the price selectors are not consulted and the record has no symbol. *)
Theorem X6_structured_price_first (now : pystr) (html : soup) (base : pystr)
    (info : PriceInfo) (v : pyfloat) :
  parse repr_other now html base = Ok info ->
  offers_price repr_other html v ->
  symbol info = None
  /\ exists w, price info = Some w /\ offers_price repr_other html w.
Proof.
  intros H [o [[d [types [Hin [T [M O]]]]] P]].
  apply tracker_parse_unfold in H
    as [acc [pv [sy [F [S [_ [_ [Hp [Hs _]]]]]]]]].
  assert (Hacc : ld_sourced repr_other html acc).
  { eapply (fold_result_inv (ld_sourced repr_other html)); [| |exact F].
    - intros a b a' Hb. now apply step_obj_sourced.
    - split; discriminate. }
  destruct (fold_objs_price _ _ _ F) as [_ G].
  destruct (G d types o v Hin T M O P) as [w Hw].
  unfold fallback_selectors in S. rewrite Hw in S. injection S as <- <-.
  rewrite Hs, Hp. cbn [whole_fraction]. split; [reflexivity|].
  exists w. split; [reflexivity|]. now apply (proj1 Hacc).
Qed.

Lemma fold_left_clean_tidy names init t :
  (forall x, init = Some x -> tidy x = true) ->
  fold_left (fun _ nm => _clean_text (Some nm)) names init = Some t ->
  tidy t = true.
Proof.
  revert init. induction names as [|nm names IH]; intros init Hi; cbn [fold_left].
  - auto.
  - apply IH. intros x. apply tracker_clean_tidy.
Qed.

Lemma heuristic_title_tidy html t : heuristic_title html = Some t -> tidy t = true.
Proof.
  unfold heuristic_title.
  destruct (negb (truthy_opt _)).
  - destruct (find_meta _ _ _); [apply tracker_clean_tidy|discriminate].
  - destruct (select_one _ _); [apply tracker_clean_tidy|discriminate].
Qed.

(** X7: the title and the availability of a record are absent or tidy
    text: not empty, no whitespace at the ends, single spaces inside. *)
Theorem X7_record_text_is_tidy (now : pystr) (html : soup) (base : pystr)
    (info : PriceInfo) :
  parse repr_other now html base = Ok info ->
  (forall t, title info = Some t -> tidy t = true)
  /\ (forall a, availability info = Some a -> tidy a = true).
Proof.
  intros H.
  apply tracker_parse_unfold in H
    as [acc [pv [sy [F [_ [_ [Ht [_ [_ [_ Ha]]]]]]]]]].
  rewrite Ht, Ha. split.
  - apply fold_objs_title in F. cbn [acc_title] in F. rewrite F. intros t.
    apply fold_left_clean_tidy. apply heuristic_title_tidy.
  - intros a. destruct (select_availability html); [|discriminate].
    apply tracker_clean_tidy.
Qed.

(** X8: the price selectors are tried in order, and the element taken is
    that of the first selector whose element has price text; when none
    has, the variable is left with whatever the last selector found. *)
Theorem X8_price_selectors_in_order (html : soup) (selectors : list pystr)
    (el : option element) :
  (forall pre sel post e,
      selectors = pre ++ sel :: post ->
      (forall k e', In k pre -> select_one html k = Some e' ->
                    has_price_text e' = false) ->
      select_one html sel = Some e ->
      has_price_text e = true ->
      select_price_element html selectors el = Some e)
  /\ ((forall k e', In k selectors -> select_one html k = Some e' ->
                    has_price_text e' = false) ->
      select_price_element html selectors el
      = match selectors with
        | [] => el
        | _ => select_one html (last selectors [])
        end).
Proof.
  split.
  - intros pre. revert selectors el.
    induction pre as [|k pre IH]; intros selectors el sel post e -> Hpre Hs He.
    + cbn [app select_price_element]. rewrite Hs.
      unfold has_price_text in He. now rewrite He.
    + cbn [app select_price_element].
      destruct (select_one html k) as [e'|] eqn:K.
      * pose proof (Hpre k e' (or_introl eq_refl) K) as N.
        unfold has_price_text in N. rewrite N.
        eapply IH; eauto. intros x y Hx. apply Hpre. now right.
      * eapply IH; eauto. intros x y Hx. apply Hpre. now right.
  - revert el. induction selectors as [|k selectors IH]; intros el Hall;
      [reflexivity|].
    cbn [select_price_element].
    assert (Hrest : forall x y, In x selectors -> select_one html x = Some y ->
                                has_price_text y = false)
      by (intros x y Hx; apply Hall; now right).
    destruct (select_one html k) as [e'|] eqn:K.
    + pose proof (Hall k e' (or_introl eq_refl) K) as N.
      unfold has_price_text in N. rewrite N. rewrite (IH _ Hrest).
      destruct selectors; [cbn [last]; now rewrite K|reflexivity].
    + rewrite (IH _ Hrest).
      destruct selectors; [cbn [last]; now rewrite K|reflexivity].
Qed.

End PriceRecord.

(** X4 on a page whose price tag reads "CA$ 7,50", without structured
    data, and on one whose price tag is in dollars while its structured
    data names the euro: the currency is CAD on the first and EUR on the
    second. *)
Lemma X4_symbol_gives_currency_witness :
  (exists info,
     AmazonPriceTracker.parse Pages.repr_unused (py "2025-01-01T10:00:00Z")
       MorePages.deal_price_page (py "https://www.amazon.ca/dp/B012345678") = Ok info
     /\ AmazonPriceTracker.symbol info = Some (py "CA$")
     /\ AmazonPriceTracker.currency info = Some (py "CAD"))
  /\ (exists info,
        AmazonPriceTracker.parse Pages.repr_unused (py "2025-01-01T10:00:00Z")
          MorePages.currency_only_page (py "https://www.amazon.de/dp/B012345678")
        = Ok info
        /\ AmazonPriceTracker.symbol info = Some (py "$")
        /\ AmazonPriceTracker.currency info = Some (py "EUR")).
Proof.
  split.
  - eexists. split; [reflexivity|]. split; [reflexivity|].
    destruct (X4_symbol_gives_currency Pages.repr_unused
                (py "2025-01-01T10:00:00Z") MorePages.deal_price_page
                (py "https://www.amazon.ca/dp/B012345678") _ (py "CA$")
                eq_refl eq_refl) as [code [E [C _]]].
    rewrite C. injection E as <-. reflexivity.
  - eexists. split; [reflexivity|]. split; [reflexivity|].
    destruct (X4_symbol_gives_currency Pages.repr_unused
                (py "2025-01-01T10:00:00Z") MorePages.currency_only_page
                (py "https://www.amazon.de/dp/B012345678") _ (py "$")
                eq_refl eq_refl) as [code [E [C _]]].
    rewrite C. reflexivity.
Defined.

(** X5 on a page whose structured data names another [sku]. *)
Lemma X5_record_asin_witness :
  exists info,
    AmazonPriceTracker.parse Pages.repr_unused (py "2025-01-01T10:00:00Z")
      MorePages.both_prices_page (py "https://www.amazon.com/dp/B012345678") = Ok info
    /\ AmazonPriceTracker.asin info = Some (py "B012345678").
Proof.
  eexists. split; [reflexivity|].
  exact (proj1 (X5_record_asin Pages.repr_unused
                  (py "2025-01-01T10:00:00Z") MorePages.both_prices_page
                  (py "https://www.amazon.com/dp/B012345678") _ eq_refl)
               (py "B012345678") eq_refl).
Defined.

(** X6 on a page with a structured-data price "19,99" and a price tag
    "$9.99": the record's price is 19.99 and it has no symbol. *)
Lemma X6_structured_price_first_witness :
  exists info,
    AmazonPriceTracker.parse Pages.repr_unused (py "2025-01-01T10:00:00Z")
      MorePages.both_prices_page (py "https://www.amazon.com/dp/B012345678") = Ok info
    /\ AmazonPriceTracker.price info = Some (b64_of_decimal false 1999 (-2))
    /\ AmazonPriceTracker.symbol info = None.
Proof.
  eexists. split; [reflexivity|]. split; [reflexivity|].
  refine (proj1 (X6_structured_price_first Pages.repr_unused
                   (py "2025-01-01T10:00:00Z") MorePages.both_prices_page
                   (py "https://www.amazon.com/dp/B012345678") _
                   (b64_of_decimal false 1999 (-2)) eq_refl _)).
  exists [(py "price", Pages.jstr "19,99")]. split.
  - eexists. eexists. split; [left; reflexivity|]. repeat split; reflexivity.
  - split; reflexivity.
Defined.

(** X7 on a page whose title and availability are padded with blanks. *)
Lemma X7_record_text_is_tidy_witness :
  exists info,
    AmazonPriceTracker.parse Pages.repr_unused (py "2025-01-01T10:00:00Z")
      MorePages.both_prices_page (py "https://www.amazon.com/dp/B012345678") = Ok info
    /\ AmazonPriceTracker.title info = Some (py "Grand Piano")
    /\ Shape.tidy (py "Grand Piano") = true.
Proof.
  eexists. split; [reflexivity|]. split; [reflexivity|].
  exact (proj1 (X7_record_text_is_tidy Pages.repr_unused
                  (py "2025-01-01T10:00:00Z") MorePages.both_prices_page
                  (py "https://www.amazon.com/dp/B012345678") _ eq_refl)
               (py "Grand Piano") eq_refl).
Defined.

(** X8 on a page whose first price element is blank and whose second
    reads "CA$ 7,50". *)
Lemma X8_price_selectors_in_order_witness :
  AmazonPriceTracker.select_price_element MorePages.deal_price_page
    AmazonPriceTracker.price_selectors None
  = Some (Pages.tag "CA$ 7,50").
Proof.
  refine (proj1 (X8_price_selectors_in_order MorePages.deal_price_page
                   AmazonPriceTracker.price_selectors None)
                [py "#priceblock_ourprice"] (py "#priceblock_dealprice")
                _ (Pages.tag "CA$ 7,50") eq_refl _ eq_refl eq_refl).
  intros k e' [<-|[]] E. injection E as <-. reflexivity.
Defined.

(** ** When the price tracker's parse raises *)

Section ParseErrors.
Import AmazonPriceTracker Ld Shape.
Variable repr_other : json -> pystr.

Lemma strs_of_spec l :
  match strs_of l with
  | Ok _ => forallb is_str l = true
  | Raise e => e = TypeError /\ forallb is_str l = false
  end.
Proof.
  induction l as [|x l IH]; [reflexivity|].
  destruct x; cbn [strs_of forallb is_str andb]; try (split; reflexivity).
  destruct (strs_of l); cbn [bind]; exact IH.
Qed.

Lemma step_obj_type_error acc obj :
  match step_obj repr_other acc obj with
  | Ok _ =>
      forall d l, obj = JDict d -> dict_get d (py "@type") = JList l ->
                  forallb is_str l = true
  | Raise e =>
      e = TypeError
      /\ exists d l, obj = JDict d /\ dict_get d (py "@type") = JList l
                     /\ forallb is_str l = false
  end.
Proof.
  unfold step_obj. destruct obj as [| | | | | |d]; try (intros; discriminate).
  unfold types_of.
  destruct (dict_get d (py "@type")) as [| | | | |l|t] eqn:T; cbn [bind];
    try (intros d' l' E1 E2; injection E1 as <-; rewrite T in E2; discriminate).
  pose proof (strs_of_spec l) as S. destruct (strs_of l) as [strs|e]; cbn [bind].
  - intros d' l' E1 E2. injection E1 as <-. rewrite T in E2.
    injection E2 as <-. exact S.
  - destruct S as [-> S]. split; [reflexivity|]. exists d, l. auto.
Qed.

Lemma fold_objs_type_error objs :
  forall acc,
    match fold_result (step_obj repr_other) objs acc with
    | Ok _ =>
        forall d l, In (JDict d) objs -> dict_get d (py "@type") = JList l ->
                    forallb is_str l = true
    | Raise e =>
        e = TypeError
        /\ exists d l, In (JDict d) objs /\ dict_get d (py "@type") = JList l
                       /\ forallb is_str l = false
    end.
Proof.
  induction objs as [|obj objs IH]; intros acc; cbn [fold_result].
  - intros d l [].
  - pose proof (step_obj_type_error acc obj) as S.
    destruct (step_obj repr_other acc obj) as [acc1|e]; cbn [bind].
    + specialize (IH acc1).
      destruct (fold_result (step_obj repr_other) objs acc1) as [acc2|e].
      * intros d l [->|Hin]; [now apply S|now apply IH].
      * destruct IH as [-> [d [l [Hin [T F]]]]]. split; [reflexivity|].
        exists d, l. repeat split; auto. now right.
    + destruct S as [-> [d [l [-> [T F]]]]]. split; [reflexivity|].
      exists d, l. repeat split; auto. now left.
Qed.

(** X9: [parse] of the price tracker returns a record exactly when every
    structured-data object that is a dict and has a list as [@type] has
    only strings in that list; otherwise the join of the types raises
    [TypeError], and that is the only exception [parse] raises. *)
Theorem X9_parse_returns_or_type_error (now : pystr) (html : soup) (base : pystr) :
  match parse repr_other now html base with
  | Ok _ =>
      forall d l, In (JDict d) (ld_objects html) ->
                  dict_get d (py "@type") = JList l ->
                  forallb is_str l = true
  | Raise e =>
      e = TypeError
      /\ exists d l, In (JDict d) (ld_objects html)
                     /\ dict_get d (py "@type") = JList l
                     /\ forallb is_str l = false
  end.
Proof.
  unfold parse. rewrite fold_scripts. fold (ld_objects html).
  match goal with
  | |- context [fold_result ?f ?l ?a] =>
      pose proof (fold_objs_type_error l a) as F;
      destruct (fold_result f l a) as [acc|e]; cbn [bind]; [|exact F]
  end.
  destruct (fallback_selectors_returns html (acc_price acc)) as [[pv sym] ->].
  cbn [bind]. exact F.
Qed.

End ParseErrors.

(** ** The attempts of a fetch *)

Section Attempts.
Import AmazonPriceTracker Shape.

(** One attempt either settles the fetch, or, when it is not the last,
    leads with at most one sleep to the next attempt. *)
Lemma fetch_loop_step self u left attempt last_exc st :
  (exists r,
      fetch_loop self u (S left) attempt last_exc st
      = (r, {| requests := S (requests st); sleeps := sleeps st |})
      /\ settled_by (session self) u (requests st) r)
  \/ ((attempt <= max_retries self)%Z
      /\ exists last' st2,
           requests st2 = S (requests st)
           /\ (sleeps st2 = sleeps st \/ exists sl, sleeps st2 = sl :: sleeps st)
           /\ (le0 (backoff_factor self) = false ->
               exists sl, sleeps st2 = sl :: sleeps st)
           /\ fetch_loop self u (S left) attempt last_exc st
              = fetch_loop self u left (attempt + 1)%Z last' st2).
Proof.
  assert (B : forall s0,
             requests (_sleep_backoff self attempt s0) = requests s0
             /\ (sleeps (_sleep_backoff self attempt s0) = sleeps s0
                 \/ exists sl, sleeps (_sleep_backoff self attempt s0) = sl :: sleeps s0)
             /\ (le0 (backoff_factor self) = false ->
                 exists sl, sleeps (_sleep_backoff self attempt s0) = sl :: sleeps s0)).
  { intros s0. unfold _sleep_backoff. destruct (le0 (backoff_factor self)); cbn.
    - repeat split; auto. discriminate.
    - repeat split; eauto. }
  cbn [fetch_loop]. unfold session_get.
  set (st1 := {| requests := S (requests st); sleeps := sleeps st |}).
  destruct (session self (requests st) u) as [resp|e] eqn:O.
  - destruct (retryable_status (status_code resp)
              && (attempt <=? max_retries self + 0)%Z) eqn:G.
    + right. apply andb_true_iff in G as [_ G]. apply Z.leb_le in G.
      split; [lia|].
      refine (ex_intro _ _ (ex_intro _ _ (conj _ (conj _ (conj _ eq_refl))))).
      * destruct (headers_get _ _) as [ra|];
          [destruct (nonempty ra && isdigit ra)|]; try apply (proj1 (B st1)); reflexivity.
      * destruct (headers_get _ _) as [ra|];
          [destruct (nonempty ra && isdigit ra)|]; try apply (proj1 (proj2 (B st1))); cbn; eauto.
      * intros L. destruct (headers_get _ _) as [ra|];
          [destruct (nonempty ra && isdigit ra)|]; try apply (proj2 (proj2 (B st1)) L); cbn; eauto.
    + destruct (raise_for_status resp) as [e|] eqn:R.
      * assert (Hreq : is_request_exception e = true).
        { unfold raise_for_status in R.
          destruct ((400 <=? status_code resp) && (status_code resp <? 600))%Z;
            [|discriminate].
          now injection R as <-. }
        rewrite Hreq. destruct (attempt >? max_retries self)%Z eqn:A.
        -- left. eexists. split; [reflexivity|]. right. eauto.
        -- right. rewrite Z.gtb_ltb in A. apply Z.ltb_ge in A.
           split; [exact A|]. refine (ex_intro _ _ (ex_intro _ _ (conj _ (conj _ (conj _ eq_refl)))));
             apply (B st1).
      * left. eexists. split; [reflexivity|]. exists resp. auto.
  - destruct (is_request_exception e) eqn:Q.
    + destruct (attempt >? max_retries self)%Z eqn:A.
      * left. eexists. split; [reflexivity|]. now left.
      * right. rewrite Z.gtb_ltb in A. apply Z.ltb_ge in A.
        split; [exact A|]. refine (ex_intro _ _ (ex_intro _ _ (conj _ (conj _ (conj _ eq_refl)))));
          apply (B st1).
    + left. eexists. split; [reflexivity|]. now left.
Qed.

(** The requests and sleeps of the loop, when [attempt] and the attempts
    left add up as they do in [fetch]. *)
Lemma fetch_loop_counts self u left :
  forall attempt last_exc st r st',
    (attempt + Z.of_nat left = max_retries self + 1)%Z ->
    fetch_loop self u (S left) attempt last_exc st = (r, st') ->
    (requests st < requests st' <= requests st + S left)%nat
    /\ (List.length (sleeps st') + 1
        <= List.length (sleeps st) + (requests st' - requests st))%nat
    /\ (le0 (backoff_factor self) = false ->
        List.length (sleeps st') + 1
        = List.length (sleeps st) + (requests st' - requests st))%nat
    /\ settled_by (session self) u (requests st' - 1) r.
Proof.
  induction left as [|left IH]; intros attempt last_exc st r st' Hinv H;
    [destruct (fetch_loop_step self u 0 attempt last_exc st)
      as [[r0 [E S0]]|[A [last' [st2 [R2 [S2 [L2 E]]]]]]]
    |destruct (fetch_loop_step self u (S left) attempt last_exc st)
      as [[r0 [E S0]]|[A [last' [st2 [R2 [S2 [L2 E]]]]]]]];
    try (rewrite E in H; injection H as <- <-; cbn [requests sleeps];
         replace (S (requests st) - 1)%nat with (requests st) by lia;
         split; [lia|split; [lia|split; [intros _; lia|exact S0]]]).
  - lia.
  - rewrite E in H.
    apply IH in H; [|lia]. destruct H as [Hr [Hs [Hl Hf]]].
    rewrite R2 in *. repeat split; try lia.
    + destruct S2 as [S2|[sl S2]]; rewrite S2 in Hs; cbn [List.length] in Hs; lia.
    + intros L. specialize (Hl L). destruct (L2 L) as [sl S3].
      rewrite S3 in Hl. cbn [List.length] in Hl. lia.
    + exact Hf.
Qed.

(** X10: a fetch makes at least one request and at most [max_retries + 1];
    it sleeps only between two requests, so at most once less than it
    makes requests, and exactly that often when the backoff factor is
    positive. *)
Theorem X10_fetch_requests_and_sleeps (srv : server) (retries : Z)
    (backoff : pyfloat) (u : pystr) (st st' : net)
    (r : result (soup * list (pystr * pystr))) :
  fetch (new srv retries backoff) u st = (r, st') ->
  let made := (requests st' - requests st)%nat in
  let slept := (List.length (sleeps st') - List.length (sleeps st))%nat in
  (1 <= made <= Z.to_nat (Z.max 0 retries) + 1)%nat
  /\ (slept <= made - 1)%nat
  /\ (le0 (backoff_factor (new srv retries backoff)) = false ->
      slept = (made - 1)%nat).
Proof.
  unfold fetch. set (self := new srv retries backoff).
  replace (Z.to_nat (max_retries self + 1))
    with (S (Z.to_nat (Z.max 0 retries)))
    by (subst self; cbn [max_retries new]; lia).
  intros H. apply fetch_loop_counts in H; [|subst self; cbn [max_retries new]; lia].
  destruct H as [Hr [Hs [Hl _]]]. cbn zeta. repeat split; try lia.
  intros L. specialize (Hl L). lia.
Qed.

(** X11: what a fetch returns or raises is the outcome of its last
    request: the page and lowered headers of a response that
    [raise_for_status] lets through, the exception the request raised, or
    the [HTTPError] of the response's status.  In particular it never
    returns the page of a response with status 400 to 599.  This is for
    responses with ASCII headers and delays that [time.sleep] takes. *)
Theorem X11_fetch_settled_by_last_request (srv : server) (retries : Z)
    (backoff : pyfloat) (u : pystr) (st st' : net)
    (r : result (soup * list (pystr * pystr))) :
  ascii_headers srv u ->
  short_delays (new srv retries backoff) ->
  fetch (new srv retries backoff) u st = (r, st') ->
  settled_by srv u (requests st' - 1) r.
Proof.
  intros _ _. unfold fetch. set (self := new srv retries backoff).
  replace (Z.to_nat (max_retries self + 1))
    with (S (Z.to_nat (Z.max 0 retries)))
    by (subst self; cbn [max_retries new]; lia).
  intros H. apply fetch_loop_counts in H; [|subst self; cbn [max_retries new]; lia].
  now destruct H as [_ [_ [_ H]]].
Qed.

(** A server that fails every request: every attempt is used. *)
Lemma fetch_loop_unreachable self u e left :
  (forall n, session self n u = Failure e) ->
  is_request_exception e = true ->
  forall attempt last_exc st,
    (attempt + Z.of_nat left = max_retries self + 1)%Z ->
    exists st',
      fetch_loop self u (S left) attempt last_exc st = (Raise e, st')
      /\ requests st' = (requests st + S left)%nat.
Proof.
  intros Hsrv Hreq. induction left as [|left IH]; intros attempt last_exc st Hinv;
    cbn [fetch_loop]; unfold session_get; rewrite Hsrv, Hreq.
  - replace (attempt >? max_retries self)%Z with true
      by (symmetry; apply Z.gtb_lt; lia).
    eexists. split; [reflexivity|]. cbn. lia.
  - replace (attempt >? max_retries self)%Z with false
      by (symmetry; rewrite Z.gtb_ltb; apply Z.ltb_ge; lia).
    edestruct (IH (attempt + 1)%Z (Some e)) as [st' [E R]]; [lia|].
    eexists. split; [exact E|]. rewrite R, requests_sleep_backoff. cbn. lia.
Qed.

(** X12: when every request fails with the same [RequestException], a
    connection error or a timeout, the fetch makes all of its
    [max_retries + 1] requests and raises that exception, provided its
    delays are ones [time.sleep] takes. *)
Theorem X12_unreachable_server (srv : server) (retries : Z) (backoff : pyfloat)
    (u : pystr) (st : net) (e : exn) :
  (forall n, srv n u = Failure e) ->
  is_request_exception e = true ->
  short_delays (new srv retries backoff) ->
  exists st',
    fetch (new srv retries backoff) u st = (Raise e, st')
    /\ requests st' = (requests st + Z.to_nat (Z.max 0 retries) + 1)%nat.
Proof.
  intros Hsrv Hreq _. unfold fetch. set (self := new srv retries backoff).
  replace (Z.to_nat (max_retries self + 1))
    with (S (Z.to_nat (Z.max 0 retries)))
    by (subst self; cbn [max_retries new]; lia).
  destruct (fetch_loop_unreachable self u e (Z.to_nat (Z.max 0 retries))
              Hsrv Hreq 1%Z None st) as [st' [E R]];
    [subst self; cbn [max_retries new]; lia|].
  exists st'. split; [exact E|]. lia.
Qed.

End Attempts.

(** X10 on the server that answers 503, 503, 200. *)
Lemma X10_fetch_requests_and_sleeps_witness :
  exists r st',
    AmazonPriceTracker.fetch
      (AmazonPriceTracker.new (Pages.answers [503; 503; 200]%Z Pages.product_page)
                              5 Pages.half)
      (py "https://shop.example/dp/B012345678") net0 = (r, st')
    /\ (1 <= requests st' - requests net0 <= 6)%nat.
Proof.
  eexists. eexists. split; [reflexivity|].
  exact (proj1 (X10_fetch_requests_and_sleeps
                  (Pages.answers [503; 503; 200]%Z Pages.product_page)
                  5 Pages.half (py "https://shop.example/dp/B012345678")
                  net0 _ _ eq_refl)).
Defined.

(** X11 on the server that answers 404 and then 200. *)
Lemma X11_fetch_settled_by_last_request_witness :
  exists r st',
    AmazonPriceTracker.fetch
      (AmazonPriceTracker.new (Pages.answers [404]%Z Pages.product_page) 2 Pages.half)
      (py "https://shop.example/dp/B012345678") net0 = (r, st')
    /\ Shape.settled_by (Pages.answers [404]%Z Pages.product_page)
         (py "https://shop.example/dp/B012345678") 1 r.
Proof.
  eexists. eexists. split; [reflexivity|].
  refine (X11_fetch_settled_by_last_request
            (Pages.answers [404]%Z Pages.product_page) 2 Pages.half
            (py "https://shop.example/dp/B012345678") net0 _ _ _ _ eq_refl).
  - intros n resp H. injection H as <-. reflexivity.
  - right. split; [reflexivity|]. cbn. lia.
Defined.

(** X12 on a server that cannot be reached, with three retries. *)
Lemma X12_unreachable_server_witness :
  exists st',
    AmazonPriceTracker.fetch
      (AmazonPriceTracker.new MorePages.unreachable 3 Pages.half)
      (py "https://shop.example/dp/B012345678") net0
    = (Raise ConnectionError, st')
    /\ requests st' = 4%nat.
Proof.
  refine (X12_unreachable_server MorePages.unreachable 3 Pages.half
            (py "https://shop.example/dp/B012345678") net0 ConnectionError
            (fun _ => eq_refl) eq_refl _).
  right. split; [reflexivity|]. cbn. lia.
Defined.

(** ** The sleeps of a fetch *)

Section Sleeps.
Import AmazonPriceTracker Shape.

Lemma sleep_backoff_reason self u attempt st :
  (1 <= attempt <= max_retries self)%Z ->
  exists a,
    sleeps (_sleep_backoff self attempt st) = a ++ sleeps st
    /\ Forall (sleep_reason self u) a.
Proof.
  intros A. unfold _sleep_backoff. destruct (le0 (backoff_factor self)) eqn:L.
  - exists []. split; [reflexivity|constructor].
  - exists [SleepBackoff attempt]. split; [reflexivity|].
    constructor; [|constructor]. cbn. split; [exact L|exact A].
Qed.

Lemma fetch_loop_sleeps self u left :
  forall attempt last_exc st r st',
    (1 <= attempt)%Z ->
    fetch_loop self u left attempt last_exc st = (r, st') ->
    exists added,
      sleeps st' = added ++ sleeps st /\ Forall (sleep_reason self u) added.
Proof.
  assert (Glue : forall (st st2 st' : net) a,
             sleeps st2 = a ++ sleeps st ->
             Forall (sleep_reason self u) a ->
             (exists added, sleeps st' = added ++ sleeps st2
                            /\ Forall (sleep_reason self u) added) ->
             exists added, sleeps st' = added ++ sleeps st
                           /\ Forall (sleep_reason self u) added).
  { intros st st2 st' a E F [added [E' F']]. exists (added ++ a).
    split; [rewrite E', E; apply app_assoc|]. apply Forall_app; auto. }
  induction left as [|left IH]; intros attempt last_exc st r st' A1; cbn [fetch_loop].
  - intros H. injection H as _ <-. exists []. split; [reflexivity|constructor].
  - unfold session_get.
    set (st1 := {| requests := S (requests st); sleeps := sleeps st |}).
    assert (Done : forall r0,
               (r0, st1) = (r, st') ->
               exists added, sleeps st' = added ++ sleeps st
                             /\ Forall (sleep_reason self u) added).
    { intros r0 H. injection H as _ <-. exists []. split; [reflexivity|constructor]. }
    assert (Back : (attempt <= max_retries self)%Z ->
               forall last',
                 fetch_loop self u left (attempt + 1)%Z last'
                   (_sleep_backoff self attempt st1) = (r, st') ->
                 exists added, sleeps st' = added ++ sleeps st
                               /\ Forall (sleep_reason self u) added).
    { intros A last' H. apply IH in H; [|lia].
      destruct (sleep_backoff_reason self u attempt st1) as [a [E F]]; [lia|].
      apply (Glue st (_sleep_backoff self attempt st1) st' a);
        [exact E|exact F|exact H]. }
    destruct (session self (requests st) u) as [resp|e] eqn:O.
    + destruct (retryable_status (status_code resp)
                && (attempt <=? max_retries self + 0)%Z) eqn:G.
      * apply andb_true_iff in G as [Rs G]. apply Z.leb_le in G.
        destruct (headers_get (headers resp) (py "Retry-After")) as [ra|] eqn:Hh;
          [|apply Back; lia].
        destruct (nonempty ra && isdigit ra) eqn:D; [|apply Back; lia].
        intros H. apply IH in H; [|lia].
        apply (Glue st (do_sleep (SleepRetryAfter ra) st1) st' [SleepRetryAfter ra]);
          [reflexivity| |exact H].
        constructor; [|constructor]. cbn. exists (requests st), resp.
        apply andb_true_iff in D as [_ D]. auto.
      * destruct (raise_for_status resp) as [e|]; [|apply Done].
        destruct (is_request_exception e); [|apply Done].
        destruct (attempt >? max_retries self)%Z eqn:A; [apply Done|].
        rewrite Z.gtb_ltb in A. apply Z.ltb_ge in A. now apply Back.
    + destruct (is_request_exception e); [|apply Done].
      destruct (attempt >? max_retries self)%Z eqn:A; [apply Done|].
      rewrite Z.gtb_ltb in A. apply Z.ltb_ge in A. now apply Back.
Qed.

(** X13: every sleep of a fetch has a reason.  It is the [Retry-After] of
    a transient response, a header of digits; or it is a backoff sleep
    after an attempt from 1 to [max_retries], and the backoff factor is
    positive.  So with a backoff factor of 0 the tracker sleeps only when
    a server asks it to.  (The headers are taken to be ASCII.) *)
Theorem X13_fetch_sleeps_have_reasons (srv : server) (retries : Z)
    (backoff : pyfloat) (u : pystr) (st st' : net)
    (r : result (soup * list (pystr * pystr))) :
  ascii_headers srv u ->
  fetch (new srv retries backoff) u st = (r, st') ->
  exists added,
    sleeps st' = added ++ sleeps st
    /\ Forall (sleep_reason (new srv retries backoff) u) added.
Proof.
  intros _ H. unfold fetch in H. apply fetch_loop_sleeps in H; [exact H|lia].
Qed.

End Sleeps.

(** X13 on a server that is busy once and asks for three seconds, with a
    backoff factor of 0: the one sleep is the one the server asked for. *)
Lemma X13_fetch_sleeps_have_reasons_witness :
  exists r st',
    AmazonPriceTracker.fetch
      (AmazonPriceTracker.new MorePages.busy_once 2 (PyFinite false 0 0))
      (py "https://shop.example/dp/B012345678") net0 = (r, st')
    /\ sleeps st' = [SleepRetryAfter (py "3")]
    /\ exists added,
         sleeps st' = added ++ sleeps net0
         /\ Forall (Shape.sleep_reason
                      (AmazonPriceTracker.new MorePages.busy_once 2 (PyFinite false 0 0))
                      (py "https://shop.example/dp/B012345678")) added.
Proof.
  eexists. eexists. split; [reflexivity|]. split; [reflexivity|].
  refine (X13_fetch_sleeps_have_reasons MorePages.busy_once 2 (PyFinite false 0 0)
            (py "https://shop.example/dp/B012345678") net0 _ _ _ eq_refl).
  intros [|n] resp H; injection H as <-; reflexivity.
Defined.

(** ** The article of the news scraper *)

Section ArticleRecord.
Import NewsScraper Shape.
Variable repr_other : json -> pystr.
Variable urljoin : pystr -> pystr -> pystr.

Lemma skipped_first v values : skipped v -> _first (v :: values) = _first values.
Proof.
  intros [H|[t [-> H]]]; cbn [_first].
  - now rewrite H.
  - cbn [truthy]. destruct (nonempty t); [|reflexivity]. now rewrite H.
Qed.

(** X14: [_first] passes over the values that are false or strings of
    whitespace, and settles on the first other value: a string gives its
    stripped text, anything else raises [AttributeError]; when every value
    is passed over the result is [None]. *)
Theorem X14_first_usable_value (values : list json) :
  match _first values with
  | Ok (Some t) =>
      exists pre s rest,
        values = pre ++ JStr s :: rest /\ Forall skipped pre
        /\ t = strip s /\ t <> []
  | Ok None => Forall skipped values
  | Raise e =>
      e = AttributeError
      /\ exists pre v rest,
           values = pre ++ v :: rest /\ Forall skipped pre
           /\ truthy v = true /\ forall s, v <> JStr s
  end.
Proof.
  induction values as [|v values IH]; [constructor|].
  assert (Skip : skipped v ->
            match _first (v :: values) with
            | Ok (Some t) =>
                exists pre s rest,
                  v :: values = pre ++ JStr s :: rest /\ Forall skipped pre
                  /\ t = strip s /\ t <> []
            | Ok None => Forall skipped (v :: values)
            | Raise e =>
                e = AttributeError
                /\ exists pre x rest,
                     v :: values = pre ++ x :: rest /\ Forall skipped pre
                     /\ truthy x = true /\ forall s, x <> JStr s
            end).
  { intros Sk. rewrite (skipped_first _ _ Sk).
    destruct (_first values) as [[t|]|e].
    - destruct IH as [pre [s [rest [-> [Hp [Ht Hn]]]]]].
      exists (v :: pre), s, rest. repeat split; auto.
    - now constructor.
    - destruct IH as [-> [pre [x [rest [-> [Hp [Hx Hs]]]]]]].
      split; [reflexivity|]. exists (v :: pre), x, rest. repeat split; auto. }
  destruct (truthy v) eqn:T; [|apply Skip; now left].
  destruct v as [|b|z|x|s|l|d];
    try (cbn [_first]; rewrite T; split; [reflexivity|];
         eexists [], _, values; repeat split; [constructor|exact T|discriminate]).
  destruct (nonempty (strip s)) eqn:E.
  - cbn [_first]. rewrite T, E. exists [], s, values.
    repeat split; [constructor|]. intros H. rewrite H in E. discriminate.
  - apply Skip. right. exists s. split; [reflexivity|].
    destruct (strip s); [reflexivity|discriminate].
Qed.

(** *** The structured-data object *)

Lemma pick_passed_over x objs :
  passed_over repr_other x ->
  _pick_article_obj repr_other (x :: objs) = _pick_article_obj repr_other objs.
Proof.
  intros [d [-> H]]. cbn [_pick_article_obj get bind]. unfold is_article in H.
  destruct (truthy (dict_get d (py "@type"))); [|reflexivity].
  cbn [andb negb] in H. now rewrite H.
Qed.

Lemma pick_article_app pre objs :
  Forall (passed_over repr_other) pre ->
  _pick_article_obj repr_other (pre ++ objs) = _pick_article_obj repr_other objs.
Proof.
  induction 1 as [|x pre Hx _ IH]; [reflexivity|].
  cbn [app]. now rewrite (pick_passed_over _ _ Hx).
Qed.

Lemma pick_article_here d objs :
  is_article repr_other d = true ->
  _pick_article_obj repr_other (JDict d :: objs) = Ok (Some (JDict d)).
Proof.
  intros H. cbn [_pick_article_obj get bind]. unfold is_article in H.
  apply andb_true_iff in H as [T H]. rewrite T. cbn [negb]. now rewrite H.
Qed.

Lemma pick_article_no_dict x objs :
  is_dict x = false ->
  _pick_article_obj repr_other (x :: objs) = Raise AttributeError.
Proof. destruct x; [reflexivity..|discriminate]. Qed.

(** X15: [_pick_article_obj] passes over the dicts whose [@type] is false
    or names no article type, and returns the first dict that names one;
    [None] when all are passed over.  An object that is no dict, met
    before any article, raises [AttributeError]. *)
Theorem X15_pick_first_article (objs : list json) :
  match _pick_article_obj repr_other objs with
  | Ok (Some obj) =>
      exists pre d rest,
        objs = pre ++ JDict d :: rest
        /\ Forall (passed_over repr_other) pre
        /\ is_article repr_other d = true
        /\ obj = JDict d
  | Ok None => Forall (passed_over repr_other) objs
  | Raise e =>
      e = AttributeError
      /\ exists pre x rest,
           objs = pre ++ x :: rest
           /\ Forall (passed_over repr_other) pre
           /\ is_dict x = false
  end.
Proof.
  induction objs as [|x objs IH]; [constructor|].
  destruct (is_dict x) eqn:D.
  - destruct x as [| | | | | |d]; try discriminate.
    destruct (is_article repr_other d) eqn:A.
    + rewrite (pick_article_here _ _ A). exists [], d, objs.
      repeat split; [constructor|exact A].
    + assert (P : passed_over repr_other (JDict d)) by (exists d; auto).
      rewrite (pick_passed_over _ _ P).
      destruct (_pick_article_obj repr_other objs) as [[obj|]|e].
      * destruct IH as [pre [d' [rest [-> [Hp [Ha ->]]]]]].
        exists (JDict d :: pre), d', rest. repeat split; auto.
      * now constructor.
      * destruct IH as [-> [pre [y [rest [-> [Hp Hy]]]]]].
        split; [reflexivity|]. exists (JDict d :: pre), y, rest. repeat split; auto.
  - rewrite (pick_article_no_dict _ _ D). split; [reflexivity|].
    exists [], x, objs. repeat split; [constructor|exact D].
Qed.

(** X16: when the structured data of a page yields an object that is no
    dict, a string in a list for one, before any article object, [parse]
    raises [AttributeError] and returns no record. *)
Theorem X16_parse_raises_on_plain_item (html : soup) (base : pystr)
    (pre : list json) (x : json) (rest : list json) :
  _iter_jsonld_objects html = pre ++ x :: rest ->
  Forall (passed_over repr_other) pre ->
  is_dict x = false ->
  parse repr_other urljoin html base = Raise AttributeError.
Proof.
  intros Hit Hp Hx. unfold parse.
  destruct (first_of_opts [_get_meta html None (Some (py "og:site_name"));
                           _get_meta html (Some (py "application-name")) None;
                           _get_meta html (Some (py "twitter:site")) None])
    as [site E].
  unfold meta_prop, meta_name. cbn [map] in E. rewrite E. cbn [bind].
  assert (A : article_obj repr_other html = Raise AttributeError).
  { unfold article_obj. rewrite Hit.
    destruct (pre ++ x :: rest) eqn:L; [now destruct pre|].
    rewrite <- L, (pick_article_app _ _ Hp). now apply pick_article_no_dict. }
  now rewrite A.
Qed.

(** *** The content *)

(** The paragraphs collected are those of the first [k] nodes, where the
    scan stops at the first node after which more than 500 characters
    are held. *)
Lemma collect_paras_prefix nodes :
  forall paras,
    exists k,
      (k <= List.length nodes)%nat
      /\ collect_paras nodes paras = paras ++ flat_map node_paras (firstn k nodes)
      /\ (forall j, (1 <= j < k)%nat ->
                    (total_len (paras ++ flat_map node_paras (firstn j nodes)) <= 500)%nat)
      /\ ((k < List.length nodes)%nat ->
          (500 < total_len (paras ++ flat_map node_paras (firstn k nodes)))%nat).
Proof.
  induction nodes as [|n nodes IH]; intros paras.
  - exists 0%nat. cbn. rewrite app_nil_r. repeat split; lia.
  - cbn [collect_paras].
    destruct (500 <? total_len (paras ++ node_paras n))%nat eqn:T.
    + exists 1%nat. cbn [firstn flat_map List.length]. rewrite app_nil_r.
      apply Nat.ltb_lt in T. repeat split; try lia; auto.
    + apply Nat.ltb_ge in T.
      destruct (IH (paras ++ node_paras n)) as [k [Hk [E [Hj Hs]]]].
      exists (S k). cbn [firstn flat_map List.length]. rewrite app_assoc.
      split; [lia|]. split; [exact E|]. split.
      * intros [|[|j]] Hj'; [lia| |].
        -- cbn [firstn flat_map]. now rewrite app_nil_r.
        -- rewrite firstn_cons. cbn [flat_map]. rewrite app_assoc. apply Hj. lia.
      * intros L. apply Hs. lia.
Qed.

(** X17: the content is built from the paragraphs of the first [k] nodes
    scanned: the scan goes on while the cleaned paragraphs held are at
    most 500 characters long, and stops at the first node that brings them
    past 500, so nodes after that one contribute nothing. *)
Theorem X17_content_scan_stops_past_500 (nodes : list node) :
  exists k,
    (k <= List.length nodes)%nat
    /\ collect_paras nodes [] = flat_map node_paras (firstn k nodes)
    /\ (forall j, (j < k)%nat ->
                  (total_len (flat_map node_paras (firstn j nodes)) <= 500)%nat)
    /\ ((k < List.length nodes)%nat ->
        (500 < total_len (flat_map node_paras (firstn k nodes)))%nat).
Proof.
  destruct (collect_paras_prefix nodes []) as [k [Hk [E [Hj Hs]]]].
  exists k. cbn [app] in *. repeat split; auto.
  intros [|j] L; [cbn; lia|]. apply Hj. lia.
Qed.

(** X18: a document without a [body] tag has no content, whatever its
    [article] and [main] tags hold: the conditional expression that picks
    the nodes to scan gives the empty list when the body is missing. *)
Theorem X18_no_body_no_content (html : soup) (base : pystr) (art : Article) :
  body html = None ->
  parse repr_other urljoin html base = Ok art ->
  content art = None.
Proof.
  intros B H. apply parse_content in H. rewrite H.
  unfold content_text, nodes_to_scan. now rewrite B.
Qed.

(** *** The images *)

Lemma mem_str_In u l : mem_str u l = true <-> In u l.
Proof.
  unfold mem_str. rewrite existsb_exists. split.
  - intros [x [Hin E]]. apply pystr_eqb_eq in E. now subst.
  - intros Hin. exists u. split; [exact Hin|]. now apply pystr_eqb_eq.
Qed.

Lemma dedup_spec l :
  forall seen,
    NoDup (dedup seen l)
    /\ forall u, In u (dedup seen l) <-> In u l /\ ~ In u seen.
Proof.
  induction l as [|x l IH]; intros seen; cbn [dedup].
  - split; [constructor|]. intros u. cbn. tauto.
  - destruct (mem_str x seen) eqn:M.
    + destruct (IH seen) as [N I]. split; [exact N|].
      intros u. rewrite I. apply mem_str_In in M. cbn [In]. split.
      * tauto.
      * intros [[<-|Hin] Hs]; [contradiction|tauto].
    + assert (Hx : ~ In x seen).
      { intros Hin. apply mem_str_In in Hin. congruence. }
      destruct (IH (x :: seen)) as [N I]. split.
      * constructor; [|exact N]. rewrite I. cbn [In]. tauto.
      * intros u. cbn [In]. rewrite I. cbn [In].
        destruct (Py.eqb x u) eqn:Q.
        -- apply pystr_eqb_eq in Q. subst u. tauto.
        -- assert (x <> u) by (intros ->; rewrite (proj2 (pystr_eqb_eq u u) eq_refl) in Q;
                               discriminate).
           tauto.
Qed.

Lemma resolve_url_some u base r :
  _resolve_url urljoin u base = Some r ->
  exists src, u = Some src /\ src <> [] /\ r = urljoin base src.
Proof.
  unfold _resolve_url. destruct u as [src|]; [|discriminate].
  destruct src as [|c src]; [discriminate|]. cbn [nonempty].
  intros H. injection H as <-. exists (c :: src). repeat split. discriminate.
Qed.

Lemma parse_images html base art :
  parse repr_other urljoin html base = Ok art ->
  images art = collect_images urljoin html base.
Proof.
  unfold parse. intros H.
  repeat match type of H with
         | bind ?r _ = Ok _ => destruct r; cbn [bind] in H; [|discriminate]
         end.
  now injection H as <-.
Qed.

Lemma resolved_singleton u base x :
  In x match _resolve_url urljoin u base with
       | Some r => if nonempty r then [r] else []
       | None => []
       end ->
  x <> [] /\ exists src, u = Some src /\ src <> [] /\ x = urljoin base src.
Proof.
  destruct (_resolve_url urljoin u base) as [r|] eqn:R; [|intros []].
  destruct (nonempty r) eqn:N; [|intros []].
  intros [<-|[]]. split; [now destruct r|]. now apply resolve_url_some.
Qed.

Lemma resolved_singleton_in src base :
  src <> [] -> urljoin base src <> [] ->
  In (urljoin base src)
     match _resolve_url urljoin (Some src) base with
     | Some r => if nonempty r then [r] else []
     | None => []
     end.
Proof.
  intros Hs Hu. unfold _resolve_url.
  destruct src as [|c src]; [contradiction|]. cbn [nonempty].
  destruct (urljoin base (c :: src)); [contradiction|]. now left.
Qed.

(** X19: the images of an article are pairwise distinct, and they are
    exactly the non-empty results of [urljoin] of the base URL with a
    non-empty address the page gives for an image: the content of its
    [og:image] or [twitter:image] tag, or the [src], else the [data-src],
    of an [img] of an [article] or [main] node.  The [og:image] address,
    when the page has one, comes first. *)
Theorem X19_images_distinct (html : soup) (base : pystr) (art : Article) :
  parse repr_other urljoin html base = Ok art ->
  NoDup (images art)
  /\ (forall u,
         In u (images art)
         <-> u <> []
             /\ exists src,
                  src <> [] /\ image_address html src /\ u = urljoin base src)
  /\ (forall tag c,
         find_meta html ByProperty (py "og:image") = Some tag ->
         attr tag (py "content") = Some c ->
         c <> [] -> urljoin base c <> [] ->
         hd_error (images art) = Some (urljoin base c)).
Proof.
  intros H. apply parse_images in H. rewrite H. unfold collect_images.
  split; [apply dedup_spec|]. split.
  - intros u. rewrite (proj2 (dedup_spec _ []) u). cbv beta zeta.
    unfold image_address. split.
    + intros [Hin _].
      apply in_app_or in Hin as [Hin|Hin]; [|apply in_app_or in Hin as [Hin|Hin]].
      * destruct (find_meta html ByProperty _) as [tag|] eqn:M; [|destruct Hin].
        destruct (truthy_opt _); [|destruct Hin].
        apply resolved_singleton in Hin as [Hn [src [A [Hs ->]]]].
        split; [exact Hn|]. exists src. split; [exact Hs|]. split; [|reflexivity].
        left. eauto.
      * destruct (find_meta html ByName _) as [tag|] eqn:M; [|destruct Hin].
        destruct (truthy_opt _); [|destruct Hin].
        apply resolved_singleton in Hin as [Hn [src [A [Hs ->]]]].
        split; [exact Hn|]. exists src. split; [exact Hs|]. split; [|reflexivity].
        right. left. eauto.
      * apply in_flat_map in Hin as [n [Hn' Hin]].
        apply in_flat_map in Hin as [im [Him Hin]].
        apply resolved_singleton in Hin as [Hn [src [A [Hs ->]]]].
        split; [exact Hn|]. exists src. split; [exact Hs|]. split; [|reflexivity].
        right. right. exists n, im. auto.
    + intros [Hu [src [Hs [A ->]]]]. split; [|intros []].
      assert (T : truthy_opt (@Some pystr src) = true) by (now destruct src).
      destruct A as [[tag [M C]]|[[tag [M C]]|[n [im [Hn' [Him C]]]]]].
      * apply in_or_app. left. rewrite M. cbv beta iota. rewrite C, T.
        now apply resolved_singleton_in.
      * apply in_or_app. right. apply in_or_app. left. rewrite M.
        cbv beta iota. rewrite C, T. now apply resolved_singleton_in.
      * apply in_or_app. right. apply in_or_app. right.
        apply in_flat_map. exists n. split; [exact Hn'|].
        apply in_flat_map. exists im. split; [exact Him|]. rewrite C.
        now apply resolved_singleton_in.
  - intros tag c Hm Hc Hne Hr. cbv beta zeta. rewrite Hm, Hc.
    destruct c as [|c0 c]; [contradiction|].
    cbn [truthy_opt nonempty _resolve_url].
    destruct (urljoin base (c0 :: c)) eqn:U; [contradiction|].
    reflexivity.
Qed.

(** *** The text fields *)

Lemma resolve_title_clean html obj o :
  resolve_title html obj = Ok o -> exists t, o = _clean_text t.
Proof.
  unfold resolve_title. destruct (_first _) as [og|]; cbn [bind]; [|discriminate].
  destruct (_first _) as [t|]; cbn [bind]; [|discriminate].
  intros H. injection H as <-. eauto.
Qed.

(** X20: the source, title, author, date, description and content of an
    article are each absent or tidy text: not empty, no whitespace at the
    ends, and single spaces as the only whitespace inside. *)
Theorem X20_article_text_is_tidy (html : soup) (base : pystr) (art : Article) :
  parse repr_other urljoin html base = Ok art ->
  Forall (fun field => forall s, field = Some s -> tidy s = true)
    [source art; title art; author art; published_at art; description art;
     content art].
Proof.
  unfold parse. intros H.
  repeat match type of H with
         | bind ?r _ = Ok _ => destruct r eqn:?; cbn [bind] in H; [|discriminate]
         end.
  injection H as <-. cbn [source title author published_at description content].
  match goal with
  | E : resolve_title _ _ = Ok _ |- _ => apply resolve_title_clean in E as [t ->]
  end.
  repeat constructor; intros s; apply news_clean_tidy.
Qed.

End ArticleRecord.

(** X19 on an article with three pictures, two of them the same, under an
    [og:image] that is the first picture again: two images are left. *)
Lemma X19_images_distinct_witness :
  exists art,
    NewsScraper.parse Pages.repr_unused Pages.urljoin_absolute
      MorePages.gallery_page (py "https://news.example/a") = Ok art
    /\ NewsScraper.images art
       = [py "https://cdn.example/a.png"; py "https://cdn.example/b.png"]
    /\ NoDup (NewsScraper.images art).
Proof.
  eexists. split; [reflexivity|]. split; [reflexivity|].
  exact (proj1 (X19_images_distinct Pages.repr_unused Pages.urljoin_absolute
                  MorePages.gallery_page (py "https://news.example/a") _ eq_refl)).
Defined.

(** X18 on a document that is one [article] tag with a paragraph, and no
    [body]. *)
Lemma X18_no_body_no_content_witness :
  exists art,
    NewsScraper.parse Pages.repr_unused Pages.urljoin_absolute
      MorePages.bodiless_page (py "https://news.example/a") = Ok art
    /\ NewsScraper.content art = None.
Proof.
  eexists. split; [reflexivity|].
  exact (X18_no_body_no_content Pages.repr_unused Pages.urljoin_absolute
           MorePages.bodiless_page (py "https://news.example/a") _
           eq_refl eq_refl).
Defined.

(** X16 on a page whose structured-data block is a list of two strings. *)
Lemma X16_parse_raises_on_plain_item_witness :
  NewsScraper.parse Pages.repr_unused Pages.urljoin_absolute
    MorePages.strings_block_page (py "https://news.example/a")
  = Raise AttributeError.
Proof.
  exact (X16_parse_raises_on_plain_item Pages.repr_unused Pages.urljoin_absolute
           MorePages.strings_block_page (py "https://news.example/a")
           [] (Pages.jstr "WebSite") [Pages.jstr "Article"]
           eq_refl (Forall_nil _) eq_refl).
Defined.

(** X20 on a page whose [title] tag is padded with blanks. *)
Lemma X20_article_text_is_tidy_witness :
  exists art,
    NewsScraper.parse Pages.repr_unused Pages.urljoin_absolute
      MorePages.bodiless_page (py "https://news.example/a") = Ok art
    /\ NewsScraper.title art = Some (py "Front page")
    /\ Shape.tidy (py "Front page") = true.
Proof.
  eexists. split; [reflexivity|]. split; [reflexivity|].
  exact (Forall_inv
           (Forall_inv_tail
              (X20_article_text_is_tidy Pages.repr_unused Pages.urljoin_absolute
                 MorePages.bodiless_page (py "https://news.example/a") _ eq_refl))
           (py "Front page") eq_refl).
Defined.

(** ** A scrape *)

Section Scrape.
Import NewsScraper.
Variable repr_other : json -> pystr.
Variable urljoin : pystr -> pystr -> pystr.

(** X21: [scrape] makes one request and never sleeps or asks again.  A
    request that fails raises its exception; a response with a status
    from 400 to 599, the transient ones included, raises the [HTTPError]
    of that status; any other response is parsed with its final URL as
    base. *)
Theorem X21_scrape_asks_once (srv : server) (u : pystr) (st st' : net)
    (r : result Article) :
  scrape repr_other urljoin srv u st = (r, st') ->
  requests st' = S (requests st)
  /\ sleeps st' = sleeps st
  /\ match srv (requests st) u with
     | Failure e => r = Raise e
     | Response resp =>
         if ((400 <=? status_code resp) && (status_code resp <? 600))%Z
         then r = Raise (HTTPError (status_code resp))
         else r = parse repr_other urljoin (text resp) (Http.url resp)
     end.
Proof.
  unfold scrape, fetch, session_get.
  destruct (srv (requests st) u) as [resp|e].
  - unfold raise_for_status.
    destruct ((400 <=? status_code resp) && (status_code resp <? 600))%Z;
      intros H; injection H as <- <-; auto.
  - intros H. injection H as <- <-. auto.
Qed.

End Scrape.

(** X21 on a server that answers 503: one request, and the error. *)
Lemma X21_scrape_asks_once_witness :
  exists r st',
    NewsScraper.scrape Pages.repr_unused Pages.urljoin_absolute
      MorePages.always_busy (py "https://news.example/a") net0 = (r, st')
    /\ r = Raise (HTTPError 503)
    /\ requests st' = 1%nat.
Proof.
  eexists. eexists. split; [reflexivity|]. split; [reflexivity|].
  exact (proj1 (X21_scrape_asks_once Pages.repr_unused Pages.urljoin_absolute
                  MorePages.always_busy (py "https://news.example/a")
                  net0 _ _ eq_refl)).
Defined.
